(** * YouTube notifier: subscription reconciliation and notification forwarding

    A shallow embedding of the API routes of the notifier
    ([lib/storage.js], [lib/pubsubhubbub.js], [pages/api/subscribe.js],
    [pages/api/unsubscribe.js], [pages/api/websub/[userKey].js],
    [pages/api/test-webhook.js], [pages/api/list-subscriptions.js] and the URL
    classifier of [pages/api/subscription-status.js]) and the properties of
    its reconciliation and forwarding logic.

    Conventions of the embedding.
    - A JavaScript string is a [string]; a character stands for one code unit.
    - Request fields are typed: a string field is [option string] ([None] when
      the field is absent), an array of channel IDs is [option (list string)],
      so [typeof x === 'string'] holds of every value that is present.  The
      subscribe route is given in addition on a [webhookUrl] that is not a
      string ([Subscribe.route]), where its [catch] branch answers, and the
      test route on a request without a body.
    - The stored collection is an array of records as the routes write them:
      the fields of a record are strings and a list of strings.
    - Code that awaits an external service (Redis, the hub, a webhook) runs in
      the monad [M] over a [World]: the Redis blob and the chronological trace
      of the external calls made so far.  What the outside world answers is
      read from an [Env]: an oracle indexed by the number of external calls
      already made.
    - [Promise.all] over [map] starts the calls in array order and returns the
      results in array order; it is modelled as the sequential traversal. *)

From Stdlib Require Import String Ascii List Bool Arith NArith Lia.
Import ListNotations.
Open Scope string_scope.
Open Scope list_scope.

Set Implicit Arguments.

(* ------------------------------------------------------------------ *)
(** ** JavaScript built-ins used by the routes *)

Module Js.

(** [s.startsWith(pat)] *)
Fixpoint startsWith (s pat : string) {struct pat} : bool :=
  match pat with
  | EmptyString => true
  | String a pat' =>
      match s with
      | EmptyString => false
      | String b s' => Ascii.eqb a b && startsWith s' pat'
      end
  end.

(** [s.slice(n)] *)
Fixpoint slice (n : nat) (s : string) : string :=
  match n, s with
  | O, _ => s
  | S n', String _ s' => slice n' s'
  | S _, EmptyString => EmptyString
  end.

(** [s.includes(pat)]: some suffix of [s] starts with [pat]. *)
Fixpoint includes (s pat : string) : bool :=
  startsWith s pat ||
  match s with
  | EmptyString => false
  | String _ s' => includes s' pat
  end.

(** [s.replace(pat, rep)] with a string pattern: only the first (leftmost)
    occurrence is replaced; without an occurrence [s] is returned.  The
    replacement texts of the routes contain no [$] pattern. *)
Fixpoint replace (s pat rep : string) : string :=
  if startsWith s pat then rep ++ slice (String.length pat) s
  else match s with
       | EmptyString => EmptyString
       | String c s' => String c (replace s' pat rep)
       end.

(** Truthiness of a value that is a string or absent. *)
Definition truthy (v : option string) : bool :=
  match v with
  | None => false
  | Some s => negb (s =? "")
  end.

(** [arr.includes(x)] on an array of strings. *)
Definition arr_includes (arr : list string) (x : string) : bool :=
  existsb (String.eqb x) arr.

(** [arr.findIndex(p)]; [None] stands for [-1]. *)
Fixpoint findIndex {A} (p : A -> bool) (arr : list A) : option nat :=
  match arr with
  | [] => None
  | x :: rest => if p x then Some 0 else option_map S (findIndex p rest)
  end.

(** [arr[i] = v] for an index inside the array. *)
Fixpoint assign {A} (arr : list A) (i : nat) (v : A) : list A :=
  match arr, i with
  | [], _ => []
  | _ :: rest, O => v :: rest
  | x :: rest, S i' => x :: assign rest i' v
  end.

(** [[...new Set(arr)]]: insertion order, first occurrence kept. *)
Definition setOf (arr : list string) : list string :=
  fold_left (fun seen x => if arr_includes seen x then seen else seen ++ [x])
            arr [].

End Js.

(* ------------------------------------------------------------------ *)
(** ** Data model *)

(** A subscription record of the collection stored under one Redis key. *)
Record Subscription := mkSubscription {
  userKey : string;
  channelIds : list string;
  webhookUrl : string;
  timestamp : string
}.

(** What [axios.post] does: it resolves with a status and a body, or it throws
    (transport error, timeout, status outside 2xx) with a message and, when the
    server answered, the response. *)
Inductive HttpOutcome :=
| HttpOk (status : nat) (data : string)
| HttpFail (message : string) (response : option (nat * string)).

(** The form posted to the hub. *)
Record HubForm := mkHubForm {
  hub_callback : string;
  hub_mode : string;
  hub_topic : string;
  hub_verify : string;
  hub_lease_seconds : option N
}.

(** The payload posted to a webhook. *)
Record Payload := mkPayload {
  event : string;
  video_id : option string;
  video_title : option string;
  video_url : option string;
  video_published_at : option string;
  video_updated_at : option string;
  channel_id : option string;
  channel_name : option string;
  payload_timestamp : string
}.

(** The external calls a route makes. *)
Inductive Event :=
| RedisGet (fault : option string)
| RedisSet (value : list Subscription) (fault : option string)
| HubPost (form : HubForm) (out : HttpOutcome)
| WebhookPost (url : string) (payload : Payload) (out : HttpOutcome).

(** An entry of the parsed Atom feed, as far as the routes read it. *)
Record Entry := mkEntry {
  yt_videoId : option string;
  yt_channelId : option string;
  entry_title : option string;
  entry_link_href : option string;
  entry_author_name : option string;
  entry_published : option string;
  entry_updated : option string
}.

(** The outside world.  Every oracle but the pure ones is indexed by the number
    of external calls made before the call it answers. *)
Record Env := mkEnv {
  (** [crypto.createHash('md5').update(s).digest('hex')] *)
  md5hex : string -> string;
  (** whether [new URL(s)] returns *)
  urlParses : string -> bool;
  (** [new Date().toISOString()] *)
  now : nat -> string;
  (** [None] when the Redis request succeeds, the error message otherwise *)
  redisGetFault : nat -> option string;
  redisSetFault : nat -> option string;
  (** the outcome of an [axios.post] *)
  httpPost : nat -> HttpOutcome;
  (** [parser.parse(xml)]: [None] when it throws, otherwise [result.feed.entry]
      ([None] when [feed] or [entry] is absent) *)
  xmlParse : string -> option (option (list Entry))
}.

Record World := mkWorld {
  redis : option (list Subscription);
  trace : list Event
}.

(** The collection as [redis.get(KEY) || []] reads it. *)
Definition stored (w : World) : list Subscription :=
  match redis w with
  | Some subs => subs
  | None => []
  end.

(* ------------------------------------------------------------------ *)
(** ** The monad of asynchronous code *)

Definition M (A : Type) : Type := World -> A * World.

Definition ret {A} (a : A) : M A := fun w => (a, w).

Definition bind {A B} (m : M A) (k : A -> M B) : M B :=
  fun w => let (a, w') := m w in k a w'.

Declare Scope async_scope.
Delimit Scope async_scope with async.
Notation "x <- m ;; k" := (bind m (fun x => k))
  (at level 100, m at next level, right associativity) : async_scope.
Open Scope async_scope.

(** [Promise.all(xs.map(f))] *)
Fixpoint mapM {A B} (f : A -> M B) (xs : list A) : M (list B) :=
  match xs with
  | [] => ret []
  | x :: rest =>
      y <- f x ;;
      ys <- mapM f rest ;;
      ret (y :: ys)
  end.

(** An awaited call either resolves or rejects. *)
Inductive Settled (A : Type) :=
| Resolved (a : A)
| Rejected (message : string).
Arguments Rejected {A} message.

Section Primitives.
Variable E : Env.

Definition step (w : World) : nat := List.length (trace w).

(** [await redis.get(SUBSCRIPTIONS_KEY)] *)
Definition redisGet : M (Settled (option (list Subscription))) :=
  fun w =>
    let fault := redisGetFault E (step w) in
    let w' := mkWorld (redis w) (trace w ++ [RedisGet fault]) in
    match fault with
    | None => (Resolved (redis w), w')
    | Some msg => (Rejected msg, w')
    end.

(** [await redis.set(SUBSCRIPTIONS_KEY, value)] *)
Definition redisSet (value : list Subscription) : M (Settled unit) :=
  fun w =>
    let fault := redisSetFault E (step w) in
    let tr := trace w ++ [RedisSet value fault] in
    match fault with
    | None => (Resolved tt, mkWorld (Some value) tr)
    | Some msg => (Rejected msg, mkWorld (redis w) tr)
    end.

(** [await axios.post(YOUTUBE_HUB_URL, querystring.stringify(form), ...)] *)
Definition hubPost (form : HubForm) : M HttpOutcome :=
  fun w =>
    let out := httpPost E (step w) in
    (out, mkWorld (redis w) (trace w ++ [HubPost form out])).

(** [await axios.post(url, payload, ...)] *)
Definition webhookPost (url : string) (payload : Payload) : M HttpOutcome :=
  fun w =>
    let out := httpPost E (step w) in
    (out, mkWorld (redis w) (trace w ++ [WebhookPost url payload out])).

(** [new Date().toISOString()] *)
Definition isoNow : M string := fun w => (now E (step w), w).

End Primitives.

(* ------------------------------------------------------------------ *)
(** ** lib/storage.js *)

Module Storage.
Section WithEnv.
Variable E : Env.

Definition getSubscriptions : M (list Subscription) :=
  r <- redisGet E ;;
  ret match r with
      | Resolved (Some subs) => subs
      | Resolved None => []
      | Rejected _ => []
      end.

Definition saveSubscriptions (subscriptions : list Subscription) : M bool :=
  r <- redisSet E subscriptions ;;
  ret match r with
      | Resolved _ => true
      | Rejected _ => false
      end.

Definition addSubscription (subscription : Subscription) : M bool :=
  subscriptions <- getSubscriptions ;;
  saveSubscriptions (subscriptions ++ [subscription]).

Definition updateSubscription (key : string)
    (updatedSubscription : Subscription) : M bool :=
  subscriptions <- getSubscriptions ;;
  match Js.findIndex (fun sub => userKey sub =? key) subscriptions with
  | None => ret false
  | Some index =>
      saveSubscriptions (Js.assign subscriptions index updatedSubscription)
  end.

Definition findSubscriptionByUserKey (key : string)
    : M (option Subscription) :=
  subscriptions <- getSubscriptions ;;
  ret (find (fun sub => userKey sub =? key) subscriptions).

Definition findSubscriptionsByChannelId (channel : string)
    : M (list Subscription) :=
  subscriptions <- getSubscriptions ;;
  ret (filter (fun sub => Js.arr_includes (channelIds sub) channel)
              subscriptions).

End WithEnv.
End Storage.


(* ------------------------------------------------------------------ *)
(** ** lib/pubsubhubbub.js *)

Module PubSubHubbub.

(** What [subscribeToChannel] and [unsubscribeFromChannel] return: the object
    of the [try] branch or the object of the [catch] branch. *)
Inductive HubResult :=
| HubSuccess (channelId : string) (statusCode : nat) (data : string)
             (callbackUrl hookUrl : string)
| HubFailure (channelId : string) (error : string)
             (callbackUrl hookUrl : string) (response : option (nat * string)).

(** The [success] field of a result. *)
Definition success (r : HubResult) : bool :=
  match r with
  | HubSuccess _ _ _ _ _ => true
  | HubFailure _ _ _ _ _ => false
  end.

(** The [channelId] field of a result. *)
Definition channelId (r : HubResult) : string :=
  match r with
  | HubSuccess c _ _ _ _ => c
  | HubFailure c _ _ _ _ => c
  end.

Definition generateTopicUrl (channel : string) : string :=
  "https://www.youtube.com/xml/feeds/videos.xml?channel_id=" ++ channel.

Definition generateCallbackUrl (key : string) : string :=
  let baseUrl := "https://youtube-notifier.vercel.app" in
  baseUrl ++ "/api/websub/" ++ key.

Definition defaultLeaseSeconds : N := 864000%N.

Section WithEnv.
Variable E : Env.

Definition generateUserKey (url : string) : string :=
  String.substring 0 16 (md5hex E url).

Definition subscribeToChannel (channel url key : string) (leaseSeconds : N)
    : M HubResult :=
  let topicUrl := generateTopicUrl channel in
  let callbackUrl := generateCallbackUrl key in
  let formData :=
    mkHubForm callbackUrl "subscribe" topicUrl "sync" (Some leaseSeconds) in
  out <- hubPost E formData ;;
  ret match out with
      | HttpOk status data => HubSuccess channel status data callbackUrl url
      | HttpFail message response =>
          HubFailure channel message callbackUrl url response
      end.

Definition subscribeToChannels (channels : list string) (url key : string)
    (leaseSeconds : N) : M (list HubResult) :=
  mapM (fun channel => subscribeToChannel channel url key leaseSeconds)
       channels.

Definition unsubscribeFromChannel (channel url key : string) : M HubResult :=
  let topicUrl := generateTopicUrl channel in
  let callbackUrl := generateCallbackUrl key in
  let formData := mkHubForm callbackUrl "unsubscribe" topicUrl "sync" None in
  out <- hubPost E formData ;;
  ret match out with
      | HttpOk status data => HubSuccess channel status data callbackUrl url
      | HttpFail message response =>
          HubFailure channel message callbackUrl url response
      end.

End WithEnv.
End PubSubHubbub.

(* ------------------------------------------------------------------ *)
(** ** pages/api/subscribe.js *)

Module Subscribe.
Import PubSubHubbub.

Record Request := mkRequest {
  req_method : string;
  req_channelIds : option (list string);
  req_webhookUrl : option string
}.

(** The object [processSubscription] returns; a field that the code leaves
    out is [None]. *)
Record Result := mkResult {
  r_success : bool;
  r_userKey : option string;
  r_message : string;
  r_webhookUrl : string;
  r_newlySubscribedChannels : option (list string);
  r_resubscribedChannels : option (list string);
  r_resubscriptionResults : option (list HubResult)
}.

Record DualSubscription := mkDual {
  d_productionWebhookUrl : string;
  d_success : bool;
  d_userKey : option string;
  d_message : string;
  d_newlySubscribedChannels : option (list string);
  d_resubscribedChannels : option (list string);
  d_resubscriptionResults : option (list HubResult)
}.

Inductive Body :=
| ErrorBody (message : string) (invalidChannelIds : option (list string))
| ResultBody (main : Result) (dualSubscription : option DualSubscription).

Definition Response : Type := nat * Body.

(** [req.body.webhookUrl] as the JSON body gives it: absent ([undefined],
    [null], [false] or [0]), a string, or a truthy value that is not a string
    (an array, an object, [true], a number other than 0).  Of such a value
    the route sees [shown], which is [String(value)] and is what
    [new URL(value)] parses, and [refusal], the message of the [TypeError]
    that [hash.update(value)] throws. *)
Inductive WebhookField :=
| UrlAbsent
| UrlText (url : string)
| UrlValue (shown refusal : string).

Record JsonRequest := mkJsonRequest {
  jr_method : string;
  jr_channelIds : option (list string);
  jr_webhookUrl : WebhookField
}.

(** The body of an answer of the route: one of the bodies of the [try] block,
    or the body of the [catch] branch, whose [error] field is the message of
    the exception. *)
Inductive RouteBody :=
| Answered (body : Body)
| Unexpected (error : string).

Definition RouteResponse : Type := nat * RouteBody.

Definition isValidYouTubeChannelId (channel : string) : bool :=
  Js.startsWith channel "UC" && Nat.eqb (String.length channel) 24.

Definition getProductionWebhookUrl (url : string) : option string :=
  if url =? "" then None
  else if Js.includes url "webhook-test"
       then Some (Js.replace url "webhook-test" "webhook")
       else None.

Definition isTestWebhook (url : string) : bool :=
  negb (url =? "") && Js.includes url "webhook-test".

Section WithEnv.
Variable E : Env.

Definition isValidUrl (url : string) : bool := urlParses E url.

Definition findSubscriptionByWebhook (url : string)
    : M (option Subscription) :=
  subscriptions <- Storage.getSubscriptions E ;;
  ret (find (fun sub => webhookUrl sub =? url) subscriptions).

(** The first half of [processSubscription]: the store is brought up to date
    and the requested channels are split into new and renewed ones. *)
Definition reconcile (ids : list string) (url : string)
    (existingSubscription : option Subscription)
    : M (string * bool * list string * list string) :=
  match existingSubscription with
  | Some existing =>
      let key := userKey existing in
      let newlySubscribedChannels :=
        filter (fun id => negb (Js.arr_includes (channelIds existing) id)) ids in
      let resubscribedChannels :=
        filter (fun id => Js.arr_includes (channelIds existing) id) ids in
      let updatedChannelIds :=
        Js.setOf (channelIds existing ++ newlySubscribedChannels) in
      ts <- isoNow E ;;
      let updatedSubscription :=
        mkSubscription (userKey existing) updatedChannelIds
                       (webhookUrl existing) ts in
      ok <- Storage.updateSubscription E key updatedSubscription ;;
      ret (key, ok, newlySubscribedChannels, resubscribedChannels)
  | None =>
      let key := generateUserKey E url in
      ts <- isoNow E ;;
      let subscription := mkSubscription key ids url ts in
      ok <- Storage.addSubscription E subscription ;;
      ret (key, ok, ids, [])
  end.

Definition selectMessage (existingSubscription : option Subscription)
    (newlySubscribedChannels resubscribedChannels : list string) : string :=
  match existingSubscription with
  | None => "Subscribed successfully"
  | Some _ =>
      if (Nat.ltb 0 (List.length newlySubscribedChannels))
         && (Nat.ltb 0 (List.length resubscribedChannels))
      then "Subscription updated with new channels and existing channels resubscribed"
      else if Nat.ltb 0 (List.length newlySubscribedChannels)
      then "Subscription updated successfully"
      else "All channels have been resubscribed"
  end.

Definition processSubscription (ids : list string) (url : string) : M Result :=
  existingSubscription <- findSubscriptionByWebhook url ;;
  state <- reconcile ids url existingSubscription ;;
  let '(key, ok, newlySubscribedChannels, resubscribedChannels) := state in
  if negb ok then
    ret (mkResult false None "Failed to save/update subscription" url
                  None None None)
  else
    subscriptionResults <-
      (if Nat.ltb 0 (List.length newlySubscribedChannels)
       then subscribeToChannels E newlySubscribedChannels url key
                                defaultLeaseSeconds
       else ret []) ;;
    resubscriptionResults <-
      (if Nat.ltb 0 (List.length resubscribedChannels)
       then subscribeToChannels E resubscribedChannels url key
                                defaultLeaseSeconds
       else ret []) ;;
    let message := selectMessage existingSubscription newlySubscribedChannels
                                 resubscribedChannels in
    ret (mkResult true (Some key) message url
           (if Nat.ltb 0 (List.length newlySubscribedChannels)
            then Some newlySubscribedChannels else None)
           (if Nat.ltb 0 (List.length resubscribedChannels)
            then Some resubscribedChannels else None)
           (if Nat.ltb 0 (List.length resubscribedChannels)
            then Some resubscriptionResults else None)).

Definition dualOf (productionWebhookUrl : string) (production : Result)
    : DualSubscription :=
  mkDual productionWebhookUrl (r_success production) (r_userKey production)
         (r_message production) (r_newlySubscribedChannels production)
         (r_resubscribedChannels production)
         (match r_resubscribedChannels production with
          | Some _ => r_resubscriptionResults production
          | None => None
          end).

(** The route on a request whose [webhookUrl] is absent or a string ([None]
    stands for an absent or falsy value): on such a request no statement of
    the [try] block throws.  [route] below covers the other JSON values and
    the [catch] branch. *)
Definition handler (req : Request) : M Response :=
  if negb (req_method req =? "POST") then
    ret (405, ErrorBody "Method not allowed. Please use POST." None)
  else
    match req_channelIds req with
    | None | Some [] =>
        ret (400, ErrorBody
          "channelIds must be a non-empty array of YouTube channel IDs" None)
    | Some ids =>
        let invalidChannelIds :=
          filter (fun id => negb (isValidYouTubeChannelId id)) ids in
        if Nat.ltb 0 (List.length invalidChannelIds) then
          ret (400, ErrorBody
            "One or more channel IDs are not in the correct YouTube format"
            (Some invalidChannelIds))
        else
          match req_webhookUrl req with
          | None => ret (400, ErrorBody "webhookUrl must be a valid URL" None)
          | Some url =>
              if (url =? "") || negb (isValidUrl url) then
                ret (400, ErrorBody "webhookUrl must be a valid URL" None)
              else
                let isTestUrl := isTestWebhook url in
                let productionWebhookUrl :=
                  if isTestUrl then getProductionWebhookUrl url else None in
                mainSubscriptionResult <- processSubscription ids url ;;
                match productionWebhookUrl with
                | Some production =>
                    if isTestUrl && Js.truthy productionWebhookUrl then
                      productionSubscriptionResult <-
                        processSubscription ids production ;;
                      ret (200, ResultBody mainSubscriptionResult
                             (Some (dualOf production
                                           productionSubscriptionResult)))
                    else ret (200, ResultBody mainSubscriptionResult None)
                | None => ret (200, ResultBody mainSubscriptionResult None)
                end
          end
    end.

(** The whole route, [catch] branch included.  [handler] above is the route on
    a request whose [webhookUrl] is absent or a string: there no statement of
    the [try] block throws.  A truthy [webhookUrl] that is not a string goes
    through Steps 1 to 5 with what [new URL] makes of it; when that parses,
    [isTestWebhook] is false (its [typeof] test), [processSubscription] reads
    the store, finds no record (no stored URL is [===] to the value) and
    [generateUserKey] throws, which the [catch] branch answers with 500. *)
Definition route (req : JsonRequest) : M RouteResponse :=
  match jr_webhookUrl req with
  | UrlAbsent =>
      r <- handler (mkRequest (jr_method req) (jr_channelIds req) None) ;;
      ret (fst r, Answered (snd r))
  | UrlText url =>
      r <- handler (mkRequest (jr_method req) (jr_channelIds req) (Some url)) ;;
      ret (fst r, Answered (snd r))
  | UrlValue shown refusal =>
      if negb (jr_method req =? "POST") then
        ret (405, Answered
                    (ErrorBody "Method not allowed. Please use POST." None))
      else
        match jr_channelIds req with
        | None | Some [] =>
            ret (400, Answered (ErrorBody
              "channelIds must be a non-empty array of YouTube channel IDs"
              None))
        | Some ids =>
            let invalidChannelIds :=
              filter (fun id => negb (isValidYouTubeChannelId id)) ids in
            if Nat.ltb 0 (List.length invalidChannelIds) then
              ret (400, Answered (ErrorBody
                "One or more channel IDs are not in the correct YouTube format"
                (Some invalidChannelIds)))
            else if negb (isValidUrl shown) then
              ret (400, Answered
                          (ErrorBody "webhookUrl must be a valid URL" None))
            else
              subscriptions <- Storage.getSubscriptions E ;;
              ret (500, Unexpected refusal)
        end
  end.

End WithEnv.
End Subscribe.


(* ------------------------------------------------------------------ *)
(** ** pages/api/unsubscribe.js *)

Module Unsubscribe.
Import PubSubHubbub.

Record Request := mkRequest {
  req_method : string;
  req_webhookUrl : option string;
  req_channelIds : option (list string);
  (** [Some true] is the only value with [allChannels === true] *)
  req_allChannels : option bool
}.

(** The object [processUnsubscription] returns; [remainingChannels] is left
    out of the failure object. *)
Record Result := mkResult {
  r_success : bool;
  r_message : string;
  r_webhookUrl : string;
  r_unsubscribedChannels : list string;
  r_unsubscriptionResults : list HubResult;
  r_remainingChannels : option (list string)
}.

Record DualUnsubscription := mkDual {
  d_counterpartWebhookUrl : string;
  d_success : bool;
  d_message : string;
  d_unsubscribedChannels : list string;
  d_unsubscriptionResults : list HubResult;
  d_remainingChannels : option (list string)
}.

(** The error objects of the handler. *)
Inductive Failure :=
| MethodNotAllowed
| InvalidWebhookUrl
| NotFound (url : string)
| InvalidChannelIds (invalidChannelIds : list string)
| NoneSubscribed (url : string)
                 (providedChannelIds subscribedChannelIds : list string)
| NoChannelsSpecified (url : string).

Definition message (f : Failure) : string :=
  match f with
  | MethodNotAllowed => "Method not allowed. Please use POST."
  | InvalidWebhookUrl => "webhookUrl must be a valid URL"
  | NotFound _ => "No subscription found for the provided webhook URL"
  | InvalidChannelIds _ =>
      "One or more channel IDs are not in the correct YouTube format"
  | NoneSubscribed _ _ _ =>
      "None of the provided channel IDs are in the subscription"
  | NoChannelsSpecified _ =>
      "You must specify either channelIds (array) or allChannels (true) to unsubscribe"
  end.

Definition status (f : Failure) : nat :=
  match f with
  | MethodNotAllowed => 405
  | NotFound _ => 404
  | _ => 400
  end.

Inductive Body :=
| ErrorBody (f : Failure)
| ResultBody (main : Result) (dualUnsubscription : option DualUnsubscription).

Definition Response : Type := nat * Body.

Definition reject (f : Failure) : M Response := ret (status f, ErrorBody f).

Definition isValidYouTubeChannelId (channel : string) : bool :=
  Js.startsWith channel "UC" && Nat.eqb (String.length channel) 24.

Definition isTestWebhook (url : string) : bool :=
  negb (url =? "") && Js.includes url "webhook-test".

Definition isProductionWebhook (url : string) : bool :=
  negb (url =? "") && Js.includes url "webhook"
  && negb (Js.includes url "webhook-test").

Definition isN8nWebhook (url : string) : bool :=
  negb (url =? "")
  && (Js.includes url "webhook-test" || Js.includes url "webhook").

Definition getProductionWebhookUrl (url : string) : option string :=
  if url =? "" then None
  else if Js.includes url "webhook-test"
       then Some (Js.replace url "webhook-test" "webhook")
       else None.

Definition getTestWebhookUrl (url : string) : option string :=
  if url =? "" then None
  else if Js.includes url "webhook" && negb (Js.includes url "webhook-test")
       then Some (Js.replace url "webhook" "webhook-test")
       else None.

(** Step 6 of the handler: the counterpart of an N8N webhook URL. *)
Definition counterpartOf (url : string) : option string :=
  if isN8nWebhook url then
    if isTestWebhook url then getProductionWebhookUrl url
    else if isProductionWebhook url then getTestWebhookUrl url
    else None
  else None.

Section WithEnv.
Variable E : Env.

Definition isValidUrl (url : string) : bool := urlParses E url.

Definition findSubscriptionByWebhook (url : string)
    : M (option Subscription) :=
  subscriptions <- Storage.getSubscriptions E ;;
  ret (find (fun sub => webhookUrl sub =? url) subscriptions).

(** Step 2 of [processUnsubscription]: the record is removed when no channel
    remains and updated otherwise. *)
Definition persist (subscription : Subscription)
    (remainingChannelIds : list string) : M (bool * string) :=
  let key := userKey subscription in
  if Nat.eqb (List.length remainingChannelIds) 0 then
    subscriptions <- Storage.getSubscriptions E ;;
    let updatedSubscriptions :=
      filter (fun sub => negb (userKey sub =? key)) subscriptions in
    ok <- Storage.saveSubscriptions E updatedSubscriptions ;;
    ret (ok, "Unsubscribed from all channels and removed subscription")
  else
    ts <- isoNow E ;;
    let updatedSubscription :=
      mkSubscription (userKey subscription) remainingChannelIds
                     (webhookUrl subscription) ts in
    ok <- Storage.updateSubscription E key updatedSubscription ;;
    ret (ok, "Unsubscribed from specified channels").

Definition processUnsubscription (channelsToUnsubscribe : list string)
    (url : string) (subscription : Subscription) : M Result :=
  let key := userKey subscription in
  unsubscriptionResults <-
    mapM (fun channel => unsubscribeFromChannel E channel url key)
         channelsToUnsubscribe ;;
  let remainingChannelIds :=
    filter (fun id => negb (Js.arr_includes channelsToUnsubscribe id))
           (channelIds subscription) in
  saved <- persist subscription remainingChannelIds ;;
  let '(ok, msg) := saved in
  if negb ok then
    ret (mkResult false "Failed to update/remove subscription" url
                  channelsToUnsubscribe unsubscriptionResults None)
  else
    ret (mkResult true msg url channelsToUnsubscribe unsubscriptionResults
                  (Some remainingChannelIds)).

(** Step 5 of the handler: the channels to unsubscribe from, or the error. *)
Definition channelsToUnsubscribe (req : Request) (url : string)
    (subscription : Subscription) : Failure + list string :=
  match req_allChannels req with
  | Some true => inr (channelIds subscription)
  | _ =>
      match req_channelIds req with
      | None | Some [] => inl (NoChannelsSpecified url)
      | Some ids =>
          let invalidChannelIds :=
            filter (fun id => negb (isValidYouTubeChannelId id)) ids in
          if Nat.ltb 0 (List.length invalidChannelIds) then
            inl (InvalidChannelIds invalidChannelIds)
          else
            let present :=
              filter (fun id => Js.arr_includes (channelIds subscription) id)
                     ids in
            if Nat.eqb (List.length present) 0 then
              inl (NoneSubscribed url ids (channelIds subscription))
            else inr present
      end
  end.

Definition dualOf (counterpartWebhookUrl : string) (counterpart : Result)
    : DualUnsubscription :=
  mkDual counterpartWebhookUrl (r_success counterpart) (r_message counterpart)
         (r_unsubscribedChannels counterpart)
         (r_unsubscriptionResults counterpart)
         (r_remainingChannels counterpart).

(** Steps 7 and after: the counterpart webhook is unsubscribed as well when it
    has a record of its own. *)
Definition unsubscribeCounterpart (channels : list string)
    (counterpartWebhookUrl : option string) : M (option DualUnsubscription) :=
  match counterpartWebhookUrl with
  | Some counterpart =>
      if Js.truthy counterpartWebhookUrl then
        counterpartSubscription <- findSubscriptionByWebhook counterpart ;;
        match counterpartSubscription with
        | Some sub =>
            result <-
              processUnsubscription
                (filter (fun id => Js.arr_includes (channelIds sub) id)
                        channels)
                counterpart sub ;;
            ret (Some (dualOf counterpart result))
        | None => ret None
        end
      else ret None
  | None => ret None
  end.

Definition handler (req : Request) : M Response :=
  if negb (req_method req =? "POST") then reject MethodNotAllowed
  else
    match req_webhookUrl req with
    | None => reject InvalidWebhookUrl
    | Some url =>
        if (url =? "") || negb (isValidUrl url) then reject InvalidWebhookUrl
        else
          found <- findSubscriptionByWebhook url ;;
          match found with
          | None => reject (NotFound url)
          | Some subscription =>
              match channelsToUnsubscribe req url subscription with
              | inl failure => reject failure
              | inr channels =>
                  let counterpartWebhookUrl := counterpartOf url in
                  mainUnsubscriptionResult <-
                    processUnsubscription channels url subscription ;;
                  dual <- unsubscribeCounterpart channels
                                                 counterpartWebhookUrl ;;
                  ret (200, ResultBody mainUnsubscriptionResult dual)
              end
          end
    end.

End WithEnv.
End Unsubscribe.

(* ------------------------------------------------------------------ *)
(** ** pages/api/websub/[userKey].js *)

Module WebSub.

Record Request := mkRequest {
  req_method : string;
  (** [req.query.userKey], the last segment of the callback path *)
  req_userKey : string;
  hub_mode : option string;
  hub_topic : option string;
  hub_challenge : option string;
  hub_lease_seconds : option string;
  (** [req.body] of a notification, the Atom feed *)
  req_body : string
}.

Record VideoInfo := mkVideoInfo {
  videoId : option string;
  channelId : option string;
  title : option string;
  link : option string;
  author : option string;
  published : option string;
  updated : option string
}.

(** What [forwardToWebhook] returns. *)
Inductive ForwardResult :=
| Forwarded (statusCode : nat) (url : string)
| NotForwarded (error : string) (url : string).

Record Processed := mkProcessed {
  p_userKey : string;
  p_videoId : option string;
  p_channelId : option string;
  p_title : option string;
  p_primaryForwardingResult : ForwardResult;
  p_counterpartForwardingResult : option ForwardResult;
  p_isN8nWebhook : bool
}.

Inductive Body :=
| ErrorBody (message : string) (error : option string)
| Text (sent : string)
| ProcessedBody (p : Processed).

Definition Response : Type := nat * Body.

Definition handleVerification (req : Request) (key : string) : Response :=
  if negb (Js.truthy (hub_mode req)) || negb (Js.truthy (hub_topic req))
     || negb (Js.truthy (hub_challenge req))
  then (400, ErrorBody "Missing required verification parameters" None)
  else
    match hub_challenge req with
    | Some challenge => (200, Text challenge)
    | None => (400, ErrorBody "Missing required verification parameters" None)
    end.

(** [v || null] *)
Definition orNull (v : option string) : option string :=
  if Js.truthy v then v else None.

(** The payload [forwardToWebhook] builds at dispatch time [ts]. *)
Definition payloadOf (videoInfo : VideoInfo) (ts : string) : Payload :=
  mkPayload "youtube.video.published"
            (videoId videoInfo) (title videoInfo) (link videoInfo)
            (published videoInfo) (updated videoInfo)
            (channelId videoInfo) (author videoInfo) ts.

(** Lines 358-372 of the handler: whether the primary URL is an N8N webhook,
    and the URL the notification is mirrored to. *)
Definition isN8n (primaryWebhookUrl : string) : bool :=
  negb (primaryWebhookUrl =? "")
  && (Js.includes primaryWebhookUrl "webhook-test"
      || Js.includes primaryWebhookUrl "webhook").

Definition counterpartOf (primaryWebhookUrl : string) : string :=
  if Js.includes primaryWebhookUrl "webhook-test"
  then Js.replace primaryWebhookUrl "webhook-test" "webhook"
  else Js.replace primaryWebhookUrl "webhook" "webhook-test".

Section WithEnv.
Variable E : Env.

Definition parseYouTubeNotification (xmlData : string) : option VideoInfo :=
  match xmlParse E xmlData with
  | None => None
  | Some None => None
  | Some (Some []) => None
  | Some (Some (entry :: _)) =>
      Some (mkVideoInfo (orNull (yt_videoId entry))
                        (orNull (yt_channelId entry))
                        (orNull (entry_title entry))
                        (orNull (entry_link_href entry))
                        (orNull (entry_author_name entry))
                        (orNull (entry_published entry))
                        (orNull (entry_updated entry)))
  end.

Definition forwardToWebhook (url : string) (videoInfo : VideoInfo)
    : M ForwardResult :=
  ts <- isoNow E ;;
  let payload := payloadOf videoInfo ts in
  out <- webhookPost E url payload ;;
  ret match out with
      | HttpOk status _ => Forwarded status url
      | HttpFail message _ => NotForwarded message url
      end.

Definition handleNotification (req : Request) (key : string) : M Response :=
  let xmlData := req_body req in
  match parseYouTubeNotification xmlData with
  | None => ret (400, ErrorBody "Failed to parse YouTube notification" None)
  | Some videoInfo =>
      got <- redisGet E ;;
      match got with
      | Rejected message =>
          ret (500, ErrorBody "Error handling notification" (Some message))
      | Resolved blob =>
          let allSubscriptions :=
            match blob with Some subs => subs | None => [] end in
          match find (fun sub => userKey sub =? key) allSubscriptions with
          | None =>
              ret (404, ErrorBody "No subscription found for this userKey"
                                  None)
          | Some subscription =>
              let primaryWebhookUrl := webhookUrl subscription in
              forwardingResult <-
                forwardToWebhook primaryWebhookUrl videoInfo ;;
              let isN8nWebhook := isN8n primaryWebhookUrl in
              counterpartForwardingResult <-
                (if isN8nWebhook then
                   let counterpartWebhookUrl :=
                     counterpartOf primaryWebhookUrl in
                   r <- forwardToWebhook counterpartWebhookUrl videoInfo ;;
                   ret (Some r)
                 else ret None) ;;
              ret (200, ProcessedBody
                     (mkProcessed key (videoId videoInfo)
                        (channelId videoInfo) (title videoInfo)
                        forwardingResult counterpartForwardingResult
                        isN8nWebhook))
          end
      end
  end.

Definition handler (req : Request) : M Response :=
  let key := req_userKey req in
  if req_method req =? "GET" then ret (handleVerification req key)
  else if req_method req =? "POST" then handleNotification req key
  else ret (405, ErrorBody "Method not allowed. Please use GET or POST." None).

End WithEnv.
End WebSub.

(* ------------------------------------------------------------------ *)
(** ** pages/api/subscription-status.js: the URL classifier *)

Module SubscriptionStatus.

Definition isN8nWebhook (url : string) : bool :=
  negb (url =? "")
  && (Js.includes url "webhook-test" || Js.includes url "webhook").

Definition getN8nCounterpartUrl (url : string) : option string :=
  if negb (isN8nWebhook url) then None
  else Some (if Js.includes url "webhook-test"
             then Js.replace url "webhook-test" "webhook"
             else Js.replace url "webhook" "webhook-test").

End SubscriptionStatus.

(* ------------------------------------------------------------------ *)
(** ** pages/api/test-webhook.js *)

Module TestWebhook.

(** [req.body]: absent ([undefined] or [null]), in which case [refusal] is the
    message of the [TypeError] that destructuring it throws, or an object
    whose [webhookUrl] is a string when it is present. *)
Inductive RequestBody :=
| NoBody (refusal : string)
| Fields (webhookUrl : option string).

Record Request := mkRequest {
  req_method : string;
  req_body : RequestBody
}.

Inductive Body :=
| Refused (error message : string)
| Sent (statusCode : nat) (responseData : string)
| NotSent (message : string) (statusCode : option nat)
          (responseData : option string).

Definition Response : Type := nat * Body.

Definition mockNotificationData : Payload :=
  mkPayload "youtube.video.published"
            (Some "yrYmQDh2rM8") (Some "real notification")
            (Some "https://www.youtube.com/watch?v=yrYmQDh2rM8")
            (Some "2025-03-01T16:59:59+00:00")
            (Some "2025-03-01T17:00:00.310119404+00:00")
            (Some "UC1PsYPhJWpgcM88C4txYp1Q") (Some "Crazy Clones AI")
            "2025-03-01T17:00:03.982Z".

(** [error.message || 'An unknown error occurred'] *)
Definition messageOf (message : string) : string :=
  if message =? "" then "An unknown error occurred" else message.

Section WithEnv.
Variable E : Env.

Definition isValidUrl (url : string) : bool := urlParses E url.

(** The method is checked before the [try] block; [const { webhookUrl } =
    req.body] is its first statement and throws when there is no body, so
    that the [catch] branch answers. *)
Definition handler (req : Request) : M Response :=
  if negb (req_method req =? "POST") then
    ret (405, Refused "Method not allowed" "Only POST requests are allowed")
  else
    match req_body req with
    | NoBody refusal => ret (500, NotSent (messageOf refusal) None None)
    | Fields None =>
        ret (400, Refused "Invalid webhook URL"
                          "Please provide a valid webhook URL")
    | Fields (Some url) =>
        if (url =? "") || negb (isValidUrl url) then
          ret (400, Refused "Invalid webhook URL"
                            "Please provide a valid webhook URL")
        else
          out <- webhookPost E url mockNotificationData ;;
          ret match out with
              | HttpOk status data => (200, Sent status data)
              | HttpFail message response =>
                  (500, NotSent (messageOf message)
                                (option_map fst response)
                                (option_map snd response))
              end
    end.

End WithEnv.
End TestWebhook.

(* ------------------------------------------------------------------ *)
(** ** pages/api/list-subscriptions.js *)

Module ListSubscriptions.

(** The JSON bodies of the route.  Of the [debug] object only
    [subscriptionsFound] is kept: the other two fields report whether the
    configuration variables are set. *)
Inductive Body :=
| MethodNotAllowed
| Listed (subscriptionsFound : nat) (subscriptions : list Subscription)
| Failed (message : string).

Definition Response : Type := nat * Body.

Section WithEnv.
Variable E : Env.

Definition handler (method : string) : M Response :=
  if negb (method =? "GET") then ret (405, MethodNotAllowed)
  else
    got <- redisGet E ;;
    match got with
    | Rejected message => ret (500, Failed message)
    | Resolved blob =>
        let subscriptions :=
          match blob with Some subs => subs | None => [] end in
        ret (200, Listed (List.length subscriptions) subscriptions)
    end.

End WithEnv.
End ListSubscriptions.


(* ------------------------------------------------------------------ *)
(** ** Auxiliary notions used in the statements *)

(** [q] has no character [c]. *)
Fixpoint avoids (c : ascii) (q : string) : bool :=
  match q with
  | EmptyString => true
  | String a q' => negb (Ascii.eqb a c) && avoids c q'
  end.

(** The Redis requests made during a run are answered. *)
Definition readsSucceed (E : Env) : Prop :=
  forall n, redisGetFault E n = None.

Definition writesSucceed (E : Env) : Prop :=
  forall n, redisSetFault E n = None.

(** [findSubscriptionByWebhook] on a collection that has been read. *)
Definition findByWebhook (url : string) (subs : list Subscription)
    : option Subscription :=
  find (fun sub => webhookUrl sub =? url) subs.

(** A stand-in for the MD5 digest in sample environments: a 64-bit
    polynomial checksum, printed as 32 hexadecimal digits. *)
Definition hexDigit (n : N) : ascii :=
  match n with
  | 0 => "0" | 1 => "1" | 2 => "2" | 3 => "3" | 4 => "4" | 5 => "5"
  | 6 => "6" | 7 => "7" | 8 => "8" | 9 => "9" | 10 => "a" | 11 => "b"
  | 12 => "c" | 13 => "d" | 14 => "e" | _ => "f"
  end%N%char.

Fixpoint hexDigits (k : nat) (n : N) : string :=
  match k with
  | O => EmptyString
  | S k' => hexDigits k' (n / 16) ++ String (hexDigit (n mod 16)) EmptyString
  end.

Definition sampleDigest (s : string) : string :=
  let sum :=
    fold_left (fun acc c => ((acc * 131 + N_of_ascii c) mod 18446744073709551616)%N)
              (list_ascii_of_string s) 7%N in
  hexDigits 16 sum ++ hexDigits 16 (sum * 2654435761 mod 18446744073709551616)%N.

(** An environment in which every external call succeeds. *)
Definition calmEnv : Env :=
  mkEnv sampleDigest (fun _ => true) (fun _ => "2025-01-01T00:00:00.000Z")
        (fun _ => None) (fun _ => None) (fun _ => HttpOk 202 "")
        (fun _ => None).

Definition emptyWorld : World := mkWorld None [].

(** A verification parameter counts as missing when it is absent or empty:
    both are falsy. *)
Definition missing (v : option string) : Prop := v = None \/ v = Some "".


Definition isSome {A} (o : option A) : bool :=
  match o with Some _ => true | None => false end.

(** The classification of the requested channels by [processSubscription]. *)
Definition newlyOf (existing : option Subscription) (ids : list string)
    : list string :=
  match existing with
  | Some e => filter (fun id => negb (Js.arr_includes (channelIds e) id)) ids
  | None => ids
  end.

Definition renewedOf (existing : option Subscription) (ids : list string)
    : list string :=
  match existing with
  | Some e => filter (fun id => Js.arr_includes (channelIds e) id) ids
  | None => []
  end.

Definition keyOf (E : Env) (existing : option Subscription) (url : string)
    : string :=
  match existing with
  | Some e => userKey e
  | None => PubSubHubbub.generateUserKey E url
  end.

(** [Some l] when [l] is not empty: a field that is set under
    [l.length > 0]. *)
Definition whenNonEmpty {A} (l : list A) : option (list A) :=
  if Nat.ltb 0 (List.length l) then Some l else None.

(** *** The storage layer, call by call *)

(** What [getSubscriptions] returns in world [w]: the stored collection, or
    the empty one when the request fails. *)
Definition readBlob (E : Env) (w : World) : list Subscription :=
  match redisGetFault E (step w) with
  | None => stored w
  | Some _ => []
  end.

(** The world after a [redis.get]. *)
Definition afterGet (E : Env) (w : World) : World :=
  mkWorld (redis w) (trace w ++ [RedisGet (redisGetFault E (step w))]).

(** Whether the [redis.set] issued in world [w] succeeds. *)
Definition setOk (E : Env) (w : World) : bool :=
  match redisSetFault E (step w) with
  | None => true
  | Some _ => false
  end.

(** The world after a [redis.set] of [value]. *)
Definition afterSet (E : Env) (value : list Subscription) (w : World)
    : World :=
  mkWorld (if setOk E w then Some value else redis w)
          (trace w ++ [RedisSet value (redisSetFault E (step w))]).

(** The collection [processSubscription] writes, given the collection [subs]
    that [addSubscription] or [updateSubscription] read; [None] when no write
    is attempted. *)
Definition upserted (E : Env) (ts : string) (ids : list string) (url : string)
    (existing : option Subscription) (subs : list Subscription)
    : option (list Subscription) :=
  match existing with
  | None =>
      Some (subs ++ [mkSubscription (PubSubHubbub.generateUserKey E url) ids
                                    url ts])
  | Some e =>
      match Js.findIndex (fun sub => userKey sub =? userKey e) subs with
      | Some index =>
          Some (Js.assign subs index
                  (mkSubscription (userKey e)
                     (Js.setOf (channelIds e ++ newlyOf existing ids))
                     (webhookUrl e) ts))
      | None => None
      end
  end.

(** The channels that remain after unsubscribing [channels]. *)
Definition remainingOf (channels : list string) (sub : Subscription)
    : list string :=
  filter (fun id => negb (Js.arr_includes channels id)) (channelIds sub).

(** The collection [processUnsubscription] writes, given the collection
    [subs] it read; [None] when no write is attempted. *)
Definition pruned (ts : string) (sub : Subscription) (remaining : list string)
    (subs : list Subscription) : option (list Subscription) :=
  if Nat.eqb (List.length remaining) 0 then
    Some (filter (fun s => negb (userKey s =? userKey sub)) subs)
  else
    match Js.findIndex (fun s => userKey s =? userKey sub) subs with
    | Some index =>
        Some (Js.assign subs index
                (mkSubscription (userKey sub) remaining (webhookUrl sub) ts))
    | None => None
    end.

(** *** Hub calls as events *)

Definition outcomeOf (r : PubSubHubbub.HubResult) : HttpOutcome :=
  match r with
  | PubSubHubbub.HubSuccess _ status data _ _ => HttpOk status data
  | PubSubHubbub.HubFailure _ message _ _ response => HttpFail message response
  end.

(** The hub call that produced result [r] for the record with key [key]. *)
Definition eventOf (mode : string) (lease : option N) (key : string)
    (r : PubSubHubbub.HubResult) : Event :=
  HubPost (mkHubForm (PubSubHubbub.generateCallbackUrl key) mode
             (PubSubHubbub.generateTopicUrl (PubSubHubbub.channelId r))
             "sync" lease)
          (outcomeOf r).

(** The hub calls of the two routes. *)
Abbreviation subscribeEvent key :=
  (eventOf "subscribe" (Some PubSubHubbub.defaultLeaseSeconds) key).

Abbreviation unsubscribeEvent key := (eventOf "unsubscribe" None key).

Definition isHubPost (e : Event) : bool :=
  match e with HubPost _ _ => true | _ => false end.

Definition isWriteDone (e : Event) : bool :=
  match e with RedisSet _ None => true | _ => false end.

(** The events of a run from world [w] to world [w']. *)
Definition since (w w' : World) : list Event :=
  skipn (List.length (trace w)) (trace w').

Definition hubCalls (evs : list Event) : list Event := filter isHubPost evs.

(** The world after further calls that leave the store alone. *)
Definition extend (w : World) (evs : list Event) : World :=
  mkWorld (redis w) (trace w ++ evs).

(** The object [processSubscription] returns when the store was not
    updated. *)
Definition subscribeFailure (url : string) : Subscribe.Result :=
  Subscribe.mkResult false None "Failed to save/update subscription" url
                     None None None.

(** An environment in which the store works and every hub call fails. *)
Definition hubDownEnv : Env :=
  mkEnv sampleDigest (fun _ => true) (fun _ => "2025-01-01T00:00:00.000Z")
        (fun _ => None) (fun _ => None)
        (fun _ => HttpFail "Request failed with status code 500"
                           (Some (500, "")))
        (fun _ => None).

(** A hub failure for [channel] is reported in result [r]. *)
Definition reportsFailure (r : Subscribe.Result) (channel : string) : Prop :=
  exists rs hr,
    Subscribe.r_resubscriptionResults r = Some rs
    /\ In hr rs
    /\ PubSubHubbub.channelId hr = channel
    /\ PubSubHubbub.success hr = false.

(** [w'] is [w] after the calls [evs]. *)
Definition reaches (w w' : World) (evs : list Event) : Prop :=
  trace w' = trace w ++ evs.

(** What [forwardToWebhook] makes of the outcome of its POST. *)
Definition forwardResult (url : string) (out : HttpOutcome)
    : WebSub.ForwardResult :=
  match out with
  | HttpOk status _ => WebSub.Forwarded status url
  | HttpFail message _ => WebSub.NotForwarded message url
  end.

(** Two payloads carry the same notification: they agree on everything but
    the dispatch timestamp. *)
Definition sameNotification (p q : Payload) : Prop :=
  event p = event q
  /\ video_id p = video_id q
  /\ video_title p = video_title q
  /\ video_url p = video_url q
  /\ video_published_at p = video_published_at q
  /\ video_updated_at p = video_updated_at q
  /\ channel_id p = channel_id q
  /\ channel_name p = channel_name q.

(** A notification as the hub posts it: an Atom feed with one entry. *)
Definition sampleFeed : string :=
  ("<feed xmlns:yt='http://www.youtube.com/xml/schemas/2015' "
   ++ "xmlns='http://www.w3.org/2005/Atom'>"
   ++ "<link rel='hub' href='https://pubsubhubbub.appspot.com'/>"
   ++ "<link rel='self' href='https://www.youtube.com/xml/feeds/videos.xml"
   ++ "?channel_id=UC_x5XG1OV2P6uZZ5FSM9Ttw'/>"
   ++ "<title>YouTube video feed</title>"
   ++ "<updated>2025-01-01T00:00:00+00:00</updated>"
   ++ "<entry>"
   ++ "<id>yt:video:dQw4w9WgXcQ</id>"
   ++ "<yt:videoId>dQw4w9WgXcQ</yt:videoId>"
   ++ "<yt:channelId>UC_x5XG1OV2P6uZZ5FSM9Ttw</yt:channelId>"
   ++ "<title>New video</title>"
   ++ "<link rel='alternate' "
   ++ "href='https://www.youtube.com/watch?v=dQw4w9WgXcQ'/>"
   ++ "<author><name>Channel</name>"
   ++ "<uri>https://www.youtube.com/channel/UC_x5XG1OV2P6uZZ5FSM9Ttw</uri>"
   ++ "</author>"
   ++ "<published>2025-01-01T00:00:00+00:00</published>"
   ++ "<updated>2025-01-01T00:00:00+00:00</updated>"
   ++ "</entry>"
   ++ "</feed>")%string.

(** The entry of [sampleFeed], as the parser of the route returns it. *)
Definition sampleEntry : Entry :=
  mkEntry (Some "dQw4w9WgXcQ") (Some "UC_x5XG1OV2P6uZZ5FSM9Ttw")
          (Some "New video") (Some "https://www.youtube.com/watch?v=dQw4w9WgXcQ")
          (Some "Channel") (Some "2025-01-01T00:00:00+00:00")
          (Some "2025-01-01T00:00:00+00:00").

(** A parser that knows [sampleFeed] and finds no entry in any other text, as
    in a feed without entries. *)
Definition sampleParser (xml : string) : option (option (list Entry)) :=
  if xml =? sampleFeed then Some (Some [sampleEntry]) else Some None.

(** An environment with a clock that advances with every external call. *)
Definition tickingEnv : Env :=
  mkEnv sampleDigest (fun _ => true)
        (fun n => ("2025-01-01T00:00:" ++ hexDigits 2 (N.of_nat n) ++ ".000Z")%string)
        (fun _ => None) (fun _ => None) (fun _ => HttpOk 200 "")
        sampleParser.

(** A store with one record, for a production webhook. *)
Definition productionRecord : Subscription :=
  mkSubscription "7ee0ea0804ebce99" ["UC_x5XG1OV2P6uZZ5FSM9Ttw"]
                 "https://n8n.example.com/webhook/yt"
                 "2025-01-01T00:00:00.000Z".

Definition productionWorld : World := mkWorld (Some [productionRecord]) [].

Definition sampleNotification : WebSub.Request :=
  WebSub.mkRequest "POST" "7ee0ea0804ebce99" None None None None sampleFeed.

(** The format check of the unsubscribe route fails on some entry. *)
Definition hasInvalidChannelId (ids : list string) : bool :=
  existsb (fun id => negb (Unsubscribe.isValidYouTubeChannelId id)) ids.

(** The object [processUnsubscription] returns when the store was not
    updated. *)
Definition unsubscribeFailure (url : string) (channels : list string)
    (results : list PubSubHubbub.HubResult) : Unsubscribe.Result :=
  Unsubscribe.mkResult false "Failed to update/remove subscription" url
                       channels results None.

Definition unsubscribeMessage (remaining : list string) : string :=
  if Nat.eqb (List.length remaining) 0
  then "Unsubscribed from all channels and removed subscription"
  else "Unsubscribed from specified channels".

(** The records of [subs] whose webhook URL is none of [urls], in order. *)
Definition others (urls : list string) (subs : list Subscription)
    : list Subscription :=
  filter (fun r => negb (Js.arr_includes urls (webhookUrl r))) subs.

(** The webhook URLs whose records a subscribe request may touch: the
    requested one and, for a test URL, its production variant. *)
Definition touchedBySubscribe (req : Subscribe.Request) : list string :=
  match Subscribe.req_webhookUrl req with
  | Some url =>
      url :: match Subscribe.getProductionWebhookUrl url with
             | Some production => [production]
             | None => []
             end
  | None => []
  end.

(** The webhook URLs whose records an unsubscribe request may touch: the
    requested one and its counterpart. *)
Definition touchedByUnsubscribe (req : Unsubscribe.Request) : list string :=
  match Unsubscribe.req_webhookUrl req with
  | Some url =>
      url :: match Unsubscribe.counterpartOf url with
             | Some counterpart => [counterpart]
             | None => []
             end
  | None => []
  end.

(** No record of the collection has an empty channel list. *)
Definition noEmptyRecord (subs : list Subscription) : Prop :=
  Forall (fun r => channelIds r <> []) subs.

(** The record [updateSubscription] replaces when it is given the key of the
    record of [url] is a record of [url]. *)
Definition ownsFirst (url : string) (subs : list Subscription) : Prop :=
  forall e r,
    findByWebhook url subs = Some e ->
    find (fun x => userKey x =? userKey e) subs = Some r ->
    webhookUrl r = url.

(** User keys identify records. *)
Definition uniqueKeys (subs : list Subscription) : Prop :=
  NoDup (map userKey subs).

(** Webhook URLs identify records. *)
Definition uniqueWebhooks (subs : list Subscription) : Prop :=
  NoDup (map webhookUrl subs).

(** A store with two records: a plain webhook with two channels and the
    production webhook. *)
Definition hookRecord : Subscription :=
  mkSubscription "eba156665380d703"
                 ["UC_x5XG1OV2P6uZZ5FSM9Ttw"; "UCsvqVGtbbyHaMoevxPAq9Fg"]
                 "https://example.com/hook" "2025-01-01T00:00:00.000Z".

Definition twoRecordWorld : World :=
  mkWorld (Some [hookRecord; productionRecord]) [].

(** An environment in which the second Redis request of a run fails when it
    is a read, and everything else succeeds. *)
Definition flakyReadEnv : Env :=
  mkEnv sampleDigest (fun _ => true) (fun _ => "2025-01-01T00:00:00.000Z")
        (fun n => if Nat.eqb n 1 then Some "fetch failed" else None)
        (fun _ => None) (fun _ => HttpOk 202 "") (fun _ => None).

(** A store in which two records share a user key. *)
Definition sharedKeyWorld : World :=
  mkWorld
    (Some [mkSubscription "eba156665380d703" ["UCsvqVGtbbyHaMoevxPAq9Fg"]
                          "https://other.example.org/in"
                          "2025-01-01T00:00:00.000Z";
           hookRecord])
    [].

(** Every channel ID of every record passes the format check. *)
Definition wellFormedRecords (subs : list Subscription) : Prop :=
  Forall (fun r => forallb Subscribe.isValidYouTubeChannelId (channelIds r)
                   = true) subs.


(** The kinds of calls in a trace. *)
Definition isStoreWrite (e : Event) : bool :=
  match e with RedisSet _ _ => true | _ => false end.

Definition isStoreRead (e : Event) : bool :=
  match e with RedisGet _ => true | _ => false end.

Definition isWebhookPost (e : Event) : bool :=
  match e with WebhookPost _ _ _ => true | _ => false end.


(* ------------------------------------------------------------------ *)
(** * Properties *)

(** ** Strings *)

Lemma startsWith_empty s : Js.startsWith s "" = true.
Proof. destruct s; reflexivity. Qed.

Lemma startsWith_split s pat :
  Js.startsWith s pat = true -> s = (pat ++ Js.slice (String.length pat) s)%string.
Proof.
  revert s; induction pat as [|a pat IH]; intros s H; simpl in *.
  - reflexivity.
  - destruct s as [|b s]; [discriminate|].
    apply andb_true_iff in H as [Hab H].
    apply Ascii.eqb_eq in Hab; subst b.
    simpl. f_equal. now apply IH.
Qed.

Lemma startsWith_append s t pat :
  Js.startsWith s pat = true -> Js.startsWith (s ++ t)%string pat = true.
Proof.
  revert s; induction pat as [|a pat IH]; intros s H; simpl in *.
  - reflexivity.
  - destruct s as [|b s]; [discriminate|]. simpl.
    apply andb_true_iff in H as [Hab H].
    rewrite Hab. simpl. now apply IH.
Qed.

Lemma append_assoc (a b c : string) :
  ((a ++ b) ++ c = a ++ (b ++ c))%string.
Proof. induction a; simpl; congruence. Qed.

Lemma includes_nonempty s pat :
  pat <> "" -> Js.includes s pat = true -> s <> "".
Proof.
  intros Hp H ->. destruct pat; [congruence|]. discriminate.
Qed.

(** A text without [w] that starts the rewritten URL starts the URL too: the
    rewriting only inserts text that begins with [w]. *)
Lemma startsWith_replace_back q s :
  avoids "w" q = true ->
  Js.startsWith (Js.replace s "webhook-test" "webhook") q = true ->
  Js.startsWith s q = true.
Proof.
  revert q; induction s as [|c s IH]; intros q Hq H.
  - exact H.
  - destruct q as [|a q]; [reflexivity|].
    simpl in Hq. apply andb_true_iff in Hq as [Ha Hq].
    cbn [Js.replace] in H.
    destruct (Js.startsWith (String c s) "webhook-test").
    + simpl in H. apply andb_true_iff in H as [H _].
      rewrite H in Ha. discriminate.
    + simpl in H |- *. apply andb_true_iff in H as [-> H].
      simpl. now apply IH.
Qed.

(** What is left of ["webhook-test"] after the rewriting is a test variant
    exactly when the text behind it supplies the missing ["-test"] or holds
    an occurrence of its own. *)
Lemma includes_after_rewrite post :
  Js.includes ("webhook" ++ post)%string "webhook-test"
  = Js.startsWith post "-test" || Js.includes post "webhook-test".
Proof.
  cbn [Js.includes append Js.startsWith Ascii.eqb Bool.eqb andb orb].
  destruct (Js.startsWith post "-test"); reflexivity.
Qed.

Lemma replace_first_occurrence url :
  Js.includes url "webhook-test" = true ->
  exists pre post,
    url = (pre ++ "webhook-test" ++ post)%string
    /\ Js.includes (pre ++ "webhook-tes")%string "webhook-test" = false
    /\ Js.replace url "webhook-test" "webhook"
       = (pre ++ "webhook" ++ post)%string
    /\ Js.includes (pre ++ "webhook" ++ post)%string "webhook-test"
       = Js.startsWith post "-test" || Js.includes post "webhook-test".
Proof.
  induction url as [|c url IH]; intros H; [discriminate|].
  cbn [Js.includes] in H.
  destruct (Js.startsWith (String c url) "webhook-test") eqn:Hp.
  - exists ""%string, (Js.slice 12 (String c url)).
    split; [|split; [|split]].
    + now apply startsWith_split in Hp.
    + reflexivity.
    + cbn [Js.replace]. rewrite Hp. reflexivity.
    + apply includes_after_rewrite.
  - simpl in H. destruct (IH H) as (pre & post & Hu & Hfirst & Hr & Ht).
    exists (String c pre), post.
    assert (Hpre : Js.startsWith (String c (pre ++ "webhook-tes"))
                                 "webhook-test" = false).
    { destruct (Js.startsWith (String c (pre ++ "webhook-tes"))
                              "webhook-test") eqn:Hq; [|reflexivity].
      apply (startsWith_append _ ("t" ++ post)%string) in Hq.
      change (String c (pre ++ "webhook-tes") ++ "t" ++ post)%string
        with (String c ((pre ++ "webhook-tes") ++ "t" ++ post))%string in Hq.
      rewrite append_assoc in Hq.
      change ("webhook-tes" ++ "t" ++ post)%string
        with ("webhook-test" ++ post)%string in Hq.
      rewrite <- Hu in Hq. congruence. }
    split; [|split; [|split]].
    + simpl. now rewrite Hu.
    + change (String c pre ++ "webhook-tes")%string
        with (String c (pre ++ "webhook-tes"))%string.
      cbn [Js.includes]. rewrite Hpre, Hfirst. reflexivity.
    + cbn [Js.replace]. rewrite Hp. simpl. now rewrite Hr.
    + change (String c pre ++ "webhook" ++ post)%string
        with (String c (pre ++ "webhook" ++ post))%string.
      cbn [Js.includes]. rewrite Ht.
      destruct (Js.startsWith (String c (pre ++ "webhook" ++ post))
                              "webhook-test") eqn:Hq; [|reflexivity].
      exfalso.
      change (Ascii.eqb "w" c
              && Js.startsWith (pre ++ "webhook" ++ post) "ebhook-test" = true)
        in Hq.
      change (Ascii.eqb "w" c && Js.startsWith url "ebhook-test" = false) in Hp.
      apply andb_true_iff in Hq as [Hc Hq]. rewrite Hc in Hp. cbn [andb] in Hp.
      rewrite <- Hr in Hq.
      apply startsWith_replace_back in Hq; [|reflexivity].
      congruence.
Qed.

Lemma rewritten_nonempty pre post :
  ((pre ++ "webhook" ++ post)%string =? "") = false.
Proof. destruct pre; reflexivity. Qed.

(** C3 (amended).  For every URL that contains ["webhook-test"], the
    production variant is the URL with its first occurrence of
    ["webhook-test"] replaced by ["webhook"]: the URL splits into [pre],
    the occurrence and [post], no occurrence ends before that one does, and
    the result is [pre ++ "webhook" ++ post].  The result is a test variant
    exactly when [post] starts with ["-test"] or contains ["webhook-test"]
    itself; in every other case it is not a test variant. *)
Theorem getProductionWebhookUrl_first_occurrence url :
  Js.includes url "webhook-test" = true ->
  exists pre post,
    url = (pre ++ "webhook-test" ++ post)%string
    /\ Js.includes (pre ++ "webhook-tes")%string "webhook-test" = false
    /\ Subscribe.getProductionWebhookUrl url
       = Some (pre ++ "webhook" ++ post)%string
    /\ Unsubscribe.getProductionWebhookUrl url
       = Some (pre ++ "webhook" ++ post)%string
    /\ Subscribe.isTestWebhook (pre ++ "webhook" ++ post)%string
       = Js.startsWith post "-test" || Js.includes post "webhook-test".
Proof.
  intros H.
  destruct (replace_first_occurrence url H) as (pre & post & Hu & Hf & Hr & Ht).
  exists pre, post.
  assert (Hne : (url =? "") = false).
  { apply String.eqb_neq. eapply includes_nonempty; [|exact H]. discriminate. }
  unfold Subscribe.getProductionWebhookUrl, Unsubscribe.getProductionWebhookUrl,
    Subscribe.isTestWebhook.
  rewrite Hne, H, Hr, rewritten_nonempty, Ht.
  repeat split; assumption.
Qed.

Lemma getProductionWebhookUrl_first_occurrence_witness :
  exists pre post,
    "https://n8n.example.com/webhook-test/yt"
    = (pre ++ "webhook-test" ++ post)%string
    /\ Js.includes (pre ++ "webhook-tes")%string "webhook-test" = false
    /\ Subscribe.getProductionWebhookUrl
         "https://n8n.example.com/webhook-test/yt"
       = Some (pre ++ "webhook" ++ post)%string
    /\ Unsubscribe.getProductionWebhookUrl
         "https://n8n.example.com/webhook-test/yt"
       = Some (pre ++ "webhook" ++ post)%string
    /\ Subscribe.isTestWebhook (pre ++ "webhook" ++ post)%string
       = Js.startsWith post "-test" || Js.includes post "webhook-test".
Proof.
  apply (getProductionWebhookUrl_first_occurrence
           "https://n8n.example.com/webhook-test/yt").
  reflexivity.
Defined.

(** C3 (as stated) fails: a URL with two occurrences keeps the second one,
    and a URL with a single occurrence followed by ["-test"] gets a new one;
    both results are test variants. *)
Lemma getProductionWebhookUrl_result_still_test :
  Js.includes "https://n8n.example.com/webhook-test/webhook-test"
              "webhook-test" = true
  /\ Subscribe.getProductionWebhookUrl
       "https://n8n.example.com/webhook-test/webhook-test"
     = Some "https://n8n.example.com/webhook/webhook-test"
  /\ Subscribe.isTestWebhook "https://n8n.example.com/webhook/webhook-test"
     = true
  /\ Js.includes "https://n8n.example.com/webhook-test-test/yt"
                 "webhook-test" = true
  /\ Subscribe.getProductionWebhookUrl
       "https://n8n.example.com/webhook-test-test/yt"
     = Some "https://n8n.example.com/webhook-test/yt"
  /\ Subscribe.isTestWebhook "https://n8n.example.com/webhook-test/yt" = true.
Proof. repeat split; reflexivity. Qed.

(** ** Verification requests *)

Lemma truthy_missing v : missing v -> Js.truthy v = false.
Proof. intros [-> | ->]; reflexivity. Qed.

Lemma truthy_present s : s <> ""%string -> Js.truthy (Some s) = true.
Proof. intros H. simpl. apply String.eqb_neq in H. now rewrite H. Qed.

(** C8.  A verification request (GET) that lacks [hub.mode], [hub.topic] or
    [hub.challenge] (absent or empty) is answered with status 400 and the
    world is left as it was: no store, hub or webhook call.  A request that
    carries all three is answered with status 200 and the challenge itself as
    body, again without any call, whatever the user key of the path, the topic
    and the stored subscriptions are. *)
Theorem verification_echoes_challenge E req w :
  WebSub.req_method req = "GET" ->
  (missing (WebSub.hub_mode req) \/ missing (WebSub.hub_topic req)
   \/ missing (WebSub.hub_challenge req) ->
   WebSub.handler E req w
   = ((400, WebSub.ErrorBody "Missing required verification parameters" None),
      w))
  /\ (forall mode topic challenge,
        WebSub.hub_mode req = Some mode -> mode <> "" ->
        WebSub.hub_topic req = Some topic -> topic <> "" ->
        WebSub.hub_challenge req = Some challenge -> challenge <> "" ->
        WebSub.handler E req w = ((200, WebSub.Text challenge), w)).
Proof.
  intros Hget. unfold WebSub.handler, WebSub.handleVerification, ret.
  rewrite Hget. cbn [String.eqb Ascii.eqb Bool.eqb].
  split.
  - intros [H | [H | H]]; apply truthy_missing in H; rewrite H;
      cbn [negb orb]; rewrite ?orb_true_r; reflexivity.
  - intros mode topic challenge Hm Hm' Ht Ht' Hc Hc'.
    rewrite Hm, Ht, Hc, !truthy_present by assumption. reflexivity.
Qed.

Lemma verification_echoes_challenge_witness :
  WebSub.handler calmEnv
    (WebSub.mkRequest "GET" "0123456789abcdef" (Some "subscribe")
       (Some "https://www.youtube.com/xml/feeds/videos.xml?channel_id=UC_x5XG1OV2P6uZZ5FSM9Ttw")
       (Some "challenge-1234") (Some "864000") "")
    emptyWorld
  = ((200, WebSub.Text "challenge-1234"), emptyWorld).
Proof.
  refine (proj2 (verification_echoes_challenge calmEnv
                   (WebSub.mkRequest "GET" _ _ _ _ _ _) emptyWorld eq_refl)
            _ _ _ eq_refl _ eq_refl _ eq_refl _); discriminate.
Defined.

(** ** The storage layer *)

Ltac break_match :=
  match goal with
  | |- context [match ?x with _ => _ end] => destruct x eqn:?
  end.

Lemma getSubscriptions_eq E w :
  Storage.getSubscriptions E w = (readBlob E w, afterGet E w).
Proof.
  unfold Storage.getSubscriptions, redisGet, bind, ret, readBlob, afterGet,
    stored.
  repeat break_match; congruence.
Qed.

Lemma saveSubscriptions_eq E subs w :
  Storage.saveSubscriptions E subs w = (setOk E w, afterSet E subs w).
Proof.
  unfold Storage.saveSubscriptions, redisSet, bind, ret, setOk, afterSet.
  unfold setOk. repeat break_match; congruence.
Qed.

Lemma readBlob_reliable E w : readsSucceed E -> readBlob E w = stored w.
Proof. intros H. unfold readBlob. now rewrite H. Qed.

Lemma setOk_reliable E w : writesSucceed E -> setOk E w = true.
Proof. intros H. unfold setOk. now rewrite H. Qed.

Lemma stored_afterGet E w : stored (afterGet E w) = stored w.
Proof. reflexivity. Qed.

Lemma stored_afterSet E subs w :
  stored (afterSet E subs w) = if setOk E w then subs else stored w.
Proof. unfold afterSet, stored. cbn. now destruct (setOk E w). Qed.

Lemma since_app w w' evs : trace w' = trace w ++ evs -> since w w' = evs.
Proof.
  intros H. unfold since. rewrite H.
  rewrite skipn_app, skipn_all, Nat.sub_diag. reflexivity.
Qed.

Lemma findSubscriptionByWebhook_eq E url w :
  Subscribe.findSubscriptionByWebhook E url w
  = (findByWebhook url (readBlob E w), afterGet E w).
Proof.
  unfold Subscribe.findSubscriptionByWebhook, bind, ret.
  now rewrite getSubscriptions_eq.
Qed.

Lemma findSubscriptionByWebhook_eq' E url w :
  Unsubscribe.findSubscriptionByWebhook E url w
  = (findByWebhook url (readBlob E w), afterGet E w).
Proof.
  unfold Unsubscribe.findSubscriptionByWebhook, bind, ret.
  now rewrite getSubscriptions_eq.
Qed.

(** [reconcile], call by call: the clock is read, the collection is read,
    and the new collection is written when there is one. *)
Lemma reconcile_eq E ids url ex w :
  Subscribe.reconcile E ids url ex w
  = match upserted E (now E (step w)) ids url ex (readBlob E w) with
    | Some subs' =>
        ((keyOf E ex url, setOk E (afterGet E w), newlyOf ex ids,
          renewedOf ex ids),
         afterSet E subs' (afterGet E w))
    | None =>
        ((keyOf E ex url, false, newlyOf ex ids, renewedOf ex ids),
         afterGet E w)
    end.
Proof.
  destruct ex as [e|];
    unfold Subscribe.reconcile, Storage.updateSubscription,
      Storage.addSubscription, isoNow, bind, ret, upserted;
    rewrite getSubscriptions_eq; cbn [newlyOf renewedOf keyOf].
  - destruct (Js.findIndex _ (readBlob E w)) as [i|].
    + now rewrite saveSubscriptions_eq.
    + reflexivity.
  - now rewrite saveSubscriptions_eq.
Qed.

(** ** The hub client *)

Lemma extend_nil w : extend w [] = w.
Proof. destruct w. unfold extend. cbn. now rewrite app_nil_r. Qed.

Lemma extend_extend w evs evs' :
  extend (extend w evs) evs' = extend w (evs ++ evs').
Proof. unfold extend. cbn. now rewrite app_assoc. Qed.

Lemma stored_extend w evs : stored (extend w evs) = stored w.
Proof. reflexivity. Qed.

Lemma subscribeToChannel_run E channel url key lease w :
  exists r,
    PubSubHubbub.subscribeToChannel E channel url key lease w
    = (r, extend w [eventOf "subscribe" (Some lease) key r])
    /\ PubSubHubbub.channelId r = channel.
Proof.
  unfold PubSubHubbub.subscribeToChannel, hubPost, bind, ret.
  destruct (httpPost E (step w)) as [status data | message response];
    [ exists (PubSubHubbub.HubSuccess channel status data
                (PubSubHubbub.generateCallbackUrl key) url)
    | exists (PubSubHubbub.HubFailure channel message
                (PubSubHubbub.generateCallbackUrl key) url response) ];
    split; reflexivity.
Qed.

Lemma unsubscribeFromChannel_run E channel url key w :
  exists r,
    PubSubHubbub.unsubscribeFromChannel E channel url key w
    = (r, extend w [eventOf "unsubscribe" None key r])
    /\ PubSubHubbub.channelId r = channel.
Proof.
  unfold PubSubHubbub.unsubscribeFromChannel, hubPost, bind, ret.
  destruct (httpPost E (step w)) as [status data | message response];
    [ exists (PubSubHubbub.HubSuccess channel status data
                (PubSubHubbub.generateCallbackUrl key) url)
    | exists (PubSubHubbub.HubFailure channel message
                (PubSubHubbub.generateCallbackUrl key) url response) ];
    split; reflexivity.
Qed.

(** A batch of hub calls: one call per channel, in order, whatever the
    outcomes of the earlier ones; the store is not touched. *)
Lemma mapM_hub_run (f : string -> M PubSubHubbub.HubResult)
    (ev : PubSubHubbub.HubResult -> Event) :
  (forall channel w,
      exists r, f channel w = (r, extend w [ev r])
                /\ PubSubHubbub.channelId r = channel) ->
  forall channels w,
    exists rs,
      mapM f channels w = (rs, extend w (map ev rs))
      /\ map PubSubHubbub.channelId rs = channels.
Proof.
  intros Hf channels. induction channels as [|c channels IH]; intros w.
  - exists []. cbn. unfold ret. now rewrite extend_nil.
  - destruct (Hf c w) as (r & Hr & Hc).
    destruct (IH (extend w [ev r])) as (rs & Hrs & Hcs).
    exists (r :: rs). cbn [mapM]. unfold bind, ret.
    rewrite Hr, Hrs, extend_extend. cbn. now rewrite Hc, Hcs.
Qed.

Lemma subscribeToChannels_run E channels url key lease w :
  exists rs,
    PubSubHubbub.subscribeToChannels E channels url key lease w
    = (rs, extend w (map (eventOf "subscribe" (Some lease) key) rs))
    /\ map PubSubHubbub.channelId rs = channels.
Proof.
  unfold PubSubHubbub.subscribeToChannels.
  apply mapM_hub_run. intros. apply subscribeToChannel_run.
Qed.

Lemma hub_phase_eq E channels url key lease :
  (if Nat.ltb 0 (List.length channels)
   then PubSubHubbub.subscribeToChannels E channels url key lease
   else ret [])
  = PubSubHubbub.subscribeToChannels E channels url key lease.
Proof. destruct channels; reflexivity. Qed.

(** ** Subscribing *)

(** [processSubscription], call by call, in every environment. *)
Lemma processSubscription_run E ids url w :
  let ex := findByWebhook url (readBlob E w) in
  let w1 := afterGet E w in
  let key := keyOf E ex url in
  match upserted E (now E (step w1)) ids url ex (readBlob E w1) with
  | Some subs' =>
      let w2 := afterSet E subs' (afterGet E w1) in
      if setOk E (afterGet E w1) then
        exists rs1 rs2,
          Subscribe.processSubscription E ids url w
          = (Subscribe.mkResult true (Some key)
               (Subscribe.selectMessage ex (newlyOf ex ids) (renewedOf ex ids))
               url (whenNonEmpty (newlyOf ex ids))
               (whenNonEmpty (renewedOf ex ids))
               (if Nat.ltb 0 (List.length (renewedOf ex ids))
                then Some rs2 else None),
             extend w2 (map (subscribeEvent key) rs1
                        ++ map (subscribeEvent key) rs2))
          /\ map PubSubHubbub.channelId rs1 = newlyOf ex ids
          /\ map PubSubHubbub.channelId rs2 = renewedOf ex ids
      else
        Subscribe.processSubscription E ids url w = (subscribeFailure url, w2)
  | None =>
      Subscribe.processSubscription E ids url w
      = (subscribeFailure url, afterGet E w1)
  end.
Proof.
  cbv zeta. unfold Subscribe.processSubscription, bind.
  rewrite findSubscriptionByWebhook_eq, reconcile_eq.
  destruct (upserted _ _ _ _ _ _) as [subs'|]; [|reflexivity].
  destruct (setOk E (afterGet E (afterGet E w))); [|reflexivity].
  cbn [negb]. rewrite !hub_phase_eq.
  set (w2 := afterSet _ _ _).
  set (key := keyOf _ _ _).
  destruct (subscribeToChannels_run E (newlyOf (findByWebhook url (readBlob E w)) ids)
              url key PubSubHubbub.defaultLeaseSeconds w2) as (rs1 & H1 & Hc1).
  rewrite H1.
  destruct (subscribeToChannels_run E (renewedOf (findByWebhook url (readBlob E w)) ids)
              url key PubSubHubbub.defaultLeaseSeconds
              (extend w2 (map (subscribeEvent key) rs1))) as (rs2 & H2 & Hc2).
  rewrite H2, extend_extend.
  exists rs1, rs2. unfold ret, whenNonEmpty. auto.
Qed.





(** Scenario A: the first subscribe on an empty store. *)
Example scenario_A :
  fst (Subscribe.processSubscription calmEnv ["UC_x5XG1OV2P6uZZ5FSM9Ttw"]
         "https://example.com/hook" emptyWorld)
  = Subscribe.mkResult true (Some "eba156665380d703") "Subscribed successfully"
      "https://example.com/hook" (Some ["UC_x5XG1OV2P6uZZ5FSM9Ttw"]) None None.
Proof. reflexivity. Qed.

(** Scenario B: the same call again. *)
Example scenario_B :
  let w1 := snd (Subscribe.processSubscription calmEnv
                   ["UC_x5XG1OV2P6uZZ5FSM9Ttw"] "https://example.com/hook"
                   emptyWorld) in
  let r2 := fst (Subscribe.processSubscription calmEnv
                   ["UC_x5XG1OV2P6uZZ5FSM9Ttw"] "https://example.com/hook"
                   w1) in
  Subscribe.r_message r2 = "All channels have been resubscribed"
  /\ Subscribe.r_userKey r2 = Some "eba156665380d703"
  /\ Subscribe.r_newlySubscribedChannels r2 = None
  /\ List.length (stored w1) = 1.
Proof. repeat split; reflexivity. Qed.

(** ** Traces *)

Lemma reaches_refl w : reaches w w [].
Proof. unfold reaches. now rewrite app_nil_r. Qed.

Lemma reaches_afterGet E w w1 evs :
  reaches w w1 evs ->
  reaches w (afterGet E w1) (evs ++ [RedisGet (redisGetFault E (step w1))]).
Proof. unfold reaches, afterGet. cbn. intros ->. now rewrite app_assoc. Qed.

Lemma reaches_afterSet E value w w1 evs :
  reaches w w1 evs ->
  reaches w (afterSet E value w1)
          (evs ++ [RedisSet value (redisSetFault E (step w1))]).
Proof. unfold reaches, afterSet. cbn. intros ->. now rewrite app_assoc. Qed.

Lemma reaches_extend w w1 evs more :
  reaches w w1 evs -> reaches w (extend w1 more) (evs ++ more).
Proof. unfold reaches, extend. cbn. intros ->. now rewrite app_assoc. Qed.

Lemma since_reaches w w' evs : reaches w w' evs -> since w w' = evs.
Proof. apply since_app. Qed.

Lemma hubCalls_app evs evs' :
  hubCalls (evs ++ evs') = hubCalls evs ++ hubCalls evs'.
Proof. apply filter_app. Qed.

Lemma hubCalls_hub mode lease key rs :
  hubCalls (map (eventOf mode lease key) rs) = map (eventOf mode lease key) rs.
Proof.
  unfold hubCalls. induction rs as [|r rs IH]; cbn; [|rewrite IH]; reflexivity.
Qed.

Lemma no_write_in_hub mode lease key rs :
  existsb isWriteDone (map (eventOf mode lease key) rs) = false.
Proof. induction rs as [|r rs IH]; cbn; assumption || reflexivity. Qed.

Lemma isWriteDone_set E value w :
  isWriteDone (RedisSet value (redisSetFault E (step w))) = setOk E w.
Proof. unfold setOk. now destruct (redisSetFault E (step w)). Qed.

(** C5 (amended).  In every environment a subscribe returns [success = true]
    exactly when its store write was done, however many hub calls fail
    afterwards; when the store is not updated the failure object is returned
    and no hub call is made.  On success the hub is called once for every new
    channel and then once for every renewed channel, in request order; the
    results for the renewed channels, failures included, are returned as
    [resubscriptionResults], and of the calls for the new channels the result
    holds the channel names only. *)
Theorem subscribe_success_is_store_success E ids url w :
  let existing := fst (Subscribe.findSubscriptionByWebhook E url w) in
  let r := fst (Subscribe.processSubscription E ids url w) in
  let evs := since w (snd (Subscribe.processSubscription E ids url w)) in
  Subscribe.r_success r = existsb isWriteDone evs
  /\ (Subscribe.r_success r = false ->
      r = subscribeFailure url /\ hubCalls evs = [])
  /\ (Subscribe.r_success r = true ->
      exists key newResults renewedResults,
        Subscribe.r_userKey r = Some key
        /\ hubCalls evs
           = map (subscribeEvent key) (newResults ++ renewedResults)
        /\ map PubSubHubbub.channelId newResults = newlyOf existing ids
        /\ map PubSubHubbub.channelId renewedResults = renewedOf existing ids
        /\ Subscribe.r_newlySubscribedChannels r
           = whenNonEmpty (newlyOf existing ids)
        /\ Subscribe.r_resubscribedChannels r
           = whenNonEmpty (renewedOf existing ids)
        /\ Subscribe.r_resubscriptionResults r = whenNonEmpty renewedResults).
Proof.
  cbv zeta. rewrite findSubscriptionByWebhook_eq. cbn [fst].
  pose proof (processSubscription_run E ids url w) as Hrun. cbv zeta in Hrun.
  pose proof (reaches_afterGet E (reaches_afterGet E (reaches_refl w))) as Hw1.
  destruct (upserted _ _ _ _ _ _) as [subs'|].
  - pose proof (reaches_afterSet E subs' Hw1) as Hw2.
    pose proof (isWriteDone_set E subs' (afterGet E (afterGet E w))) as Hset.
    destruct (setOk E _).
    + destruct Hrun as (rs1 & rs2 & -> & Hc1 & Hc2). cbn [fst snd].
      rewrite (since_reaches (reaches_extend _ Hw2)).
      rewrite !existsb_app, !hubCalls_app, !hubCalls_hub, !no_write_in_hub.
      cbn [existsb hubCalls filter isHubPost app orb Subscribe.r_success
           subscribeFailure].
      rewrite Hset.
      split; [reflexivity|]. split; [discriminate|]. intros _.
      exists (keyOf E (findByWebhook url (readBlob E w)) url), rs1, rs2.
      rewrite map_app. repeat split; try assumption.
      cbn. unfold whenNonEmpty.
      rewrite <- Hc2, length_map. reflexivity.
    + rewrite Hrun. cbn [fst snd]. rewrite (since_reaches Hw2).
      rewrite !existsb_app, !hubCalls_app.
      cbn [existsb hubCalls filter isHubPost app orb Subscribe.r_success
           subscribeFailure].
      rewrite Hset.
      split; [reflexivity|]. split; [auto|discriminate].
  - rewrite Hrun. cbn [fst snd]. rewrite (since_reaches Hw1).
    split; [reflexivity|]. split; [auto|discriminate].
Qed.

(** C5 (as stated) fails: with the hub down, the first subscribe for a
    channel succeeds, its hub call fails, and the result says nothing of it:
    it is the very result of the run in which the hub call succeeds. *)
Lemma new_channel_hub_failure_not_reported :
  let ids := ["UC_x5XG1OV2P6uZZ5FSM9Ttw"] in
  let url := "https://example.com/hook" in
  let run := Subscribe.processSubscription hubDownEnv ids url emptyWorld in
  Subscribe.r_success (fst run) = true
  /\ hubCalls (since emptyWorld (snd run))
     = [HubPost
          (mkHubForm "https://youtube-notifier.vercel.app/api/websub/eba156665380d703"
             "subscribe"
             "https://www.youtube.com/xml/feeds/videos.xml?channel_id=UC_x5XG1OV2P6uZZ5FSM9Ttw"
             "sync" (Some 864000%N))
          (HttpFail "Request failed with status code 500" (Some (500, "")))]
  /\ ~ reportsFailure (fst run) "UC_x5XG1OV2P6uZZ5FSM9Ttw"
  /\ fst run = fst (Subscribe.processSubscription calmEnv ids url emptyWorld).
Proof.
  cbv zeta. split; [reflexivity|]. split; [reflexivity|].
  split; [|reflexivity].
  intros (rs & hr & Hrs & _). discriminate Hrs.
Qed.

(** ** Forwarding notifications *)

Lemma step_extend w e : step (extend w [e]) = S (step w).
Proof. unfold step, extend. cbn. rewrite length_app. cbn. lia. Qed.

Lemma step_afterGet E w : step (afterGet E w) = S (step w).
Proof. unfold step, afterGet. cbn. rewrite length_app. cbn. lia. Qed.

Lemma forwardToWebhook_eq E url v w :
  WebSub.forwardToWebhook E url v w
  = (forwardResult url (httpPost E (step w)),
     extend w [WebhookPost url (WebSub.payloadOf v (now E (step w)))
                           (httpPost E (step w))]).
Proof.
  unfold WebSub.forwardToWebhook, webhookPost, isoNow, bind, ret, forwardResult.
  now destruct (httpPost E (step w)).
Qed.

(** The counterpart the forwarder computes is the one of the URL classifier
    of the unsubscribe route, in both directions. *)
Lemma counterpart_agrees url :
  Unsubscribe.counterpartOf url
  = if WebSub.isN8n url then Some (WebSub.counterpartOf url) else None.
Proof.
  unfold Unsubscribe.counterpartOf, Unsubscribe.isN8nWebhook, WebSub.isN8n,
    Unsubscribe.isTestWebhook, Unsubscribe.isProductionWebhook,
    Unsubscribe.getProductionWebhookUrl, Unsubscribe.getTestWebhookUrl,
    WebSub.counterpartOf.
  destruct (url =? ""); cbn [negb andb]; [reflexivity|].
  destruct (Js.includes url "webhook-test"); cbn [negb andb orb];
    [reflexivity|].
  destruct (Js.includes url "webhook"); reflexivity.
Qed.

Lemma sameNotification_payloadOf v t1 t2 :
  sameNotification (WebSub.payloadOf v t1) (WebSub.payloadOf v t2).
Proof. repeat split. Qed.

(** C9 (amended).  When the feed of a notification parses, the store answers
    and the user key of the path resolves to a record, the forwarder reads the
    store once, POSTs the payload to the webhook URL of the record and, when
    that URL has a counterpart (test to production or production to test),
    POSTs to the counterpart a payload that carries the same event, video and
    channel, with the timestamp of its own dispatch.  No record is looked up
    for the counterpart, the second dispatch is made whatever the outcome of
    the first, each outcome is reported in the response, and the store is left
    as it was. *)
Theorem notification_forwarded_to_both E req w v sub :
  WebSub.parseYouTubeNotification E (WebSub.req_body req) = Some v ->
  redisGetFault E (step w) = None ->
  find (fun s => userKey s =? WebSub.req_userKey req) (stored w) = Some sub ->
  let run := WebSub.handleNotification E req (WebSub.req_userKey req) w in
  let primary := webhookUrl sub in
  let out1 := httpPost E (S (step w)) in
  let out2 := httpPost E (S (S (step w))) in
  let p1 := WebSub.payloadOf v (now E (S (step w))) in
  let p2 := WebSub.payloadOf v (now E (S (S (step w)))) in
  sameNotification p1 p2
  /\ since w (snd run)
     = RedisGet None :: WebhookPost primary p1 out1
       :: match Unsubscribe.counterpartOf primary with
          | Some counterpart => [WebhookPost counterpart p2 out2]
          | None => []
          end
  /\ redis (snd run) = redis w
  /\ fst run
     = (200, WebSub.ProcessedBody
               (WebSub.mkProcessed (WebSub.req_userKey req)
                  (WebSub.videoId v) (WebSub.channelId v) (WebSub.title v)
                  (forwardResult primary out1)
                  (match Unsubscribe.counterpartOf primary with
                   | Some counterpart => Some (forwardResult counterpart out2)
                   | None => None
                   end)
                  (isSome (Unsubscribe.counterpartOf primary)))).
Proof.
  intros Hparse Hget Hfind. cbv zeta.
  split; [apply sameNotification_payloadOf|].
  unfold WebSub.handleNotification, bind, redisGet.
  rewrite Hparse, Hget.
  change (match redis w with Some subs => subs | None => [] end)
    with (stored w).
  rewrite Hfind, forwardToWebhook_eq.
  change {| redis := redis w; trace := trace w ++ [RedisGet None] |}
    with (extend w [RedisGet None]).
  rewrite counterpart_agrees, step_extend.
  pose proof (reaches_extend [WebhookPost (webhookUrl sub)
                  (WebSub.payloadOf v (now E (S (step w))))
                  (httpPost E (S (step w)))]
                (reaches_extend [RedisGet None] (reaches_refl w))) as Hw.
  destruct (WebSub.isN8n (webhookUrl sub)).
  - rewrite forwardToWebhook_eq, !step_extend. unfold ret. cbn [fst snd].
    rewrite (since_reaches (reaches_extend _ Hw)). auto.
  - unfold ret. cbn [fst snd]. rewrite (since_reaches Hw). auto.
Qed.

Lemma notification_forwarded_to_both_witness :
  since productionWorld
        (snd (WebSub.handleNotification tickingEnv sampleNotification
                "7ee0ea0804ebce99" productionWorld))
  = [RedisGet None;
     WebhookPost "https://n8n.example.com/webhook/yt"
       (mkPayload "youtube.video.published" (Some "dQw4w9WgXcQ")
          (Some "New video")
          (Some "https://www.youtube.com/watch?v=dQw4w9WgXcQ")
          (Some "2025-01-01T00:00:00+00:00") (Some "2025-01-01T00:00:00+00:00")
          (Some "UC_x5XG1OV2P6uZZ5FSM9Ttw") (Some "Channel")
          "2025-01-01T00:00:01.000Z")
       (HttpOk 200 "");
     WebhookPost "https://n8n.example.com/webhook-test/yt"
       (mkPayload "youtube.video.published" (Some "dQw4w9WgXcQ")
          (Some "New video")
          (Some "https://www.youtube.com/watch?v=dQw4w9WgXcQ")
          (Some "2025-01-01T00:00:00+00:00") (Some "2025-01-01T00:00:00+00:00")
          (Some "UC_x5XG1OV2P6uZZ5FSM9Ttw") (Some "Channel")
          "2025-01-01T00:00:02.000Z")
       (HttpOk 200 "")].
Proof.
  exact (proj1 (proj2 (notification_forwarded_to_both tickingEnv
                         sampleNotification productionWorld
                         (v := WebSub.mkVideoInfo _ _ _ _ _ _ _)
                         (sub := productionRecord)
                         eq_refl eq_refl eq_refl))).
Defined.

(** C9 (as stated) fails.  The hub posts the one-entry feed [sampleFeed] to
    the callback of the production record; the clock advances between the
    two dispatches.  The payload is built anew for each dispatch, so the one
    POSTed to the counterpart carries a later timestamp: the two payloads are
    not identical. *)
Lemma counterpart_payload_differs :
  WebSub.req_body sampleNotification = sampleFeed
  /\ exists p1 p2 out1 out2,
       since productionWorld
             (snd (WebSub.handler tickingEnv sampleNotification
                     productionWorld))
       = [RedisGet None;
          WebhookPost "https://n8n.example.com/webhook/yt" p1 out1;
          WebhookPost "https://n8n.example.com/webhook-test/yt" p2 out2]
       /\ payload_timestamp p1 = "2025-01-01T00:00:01.000Z"
       /\ payload_timestamp p2 = "2025-01-01T00:00:02.000Z"
       /\ p1 <> p2.
Proof.
  split; [reflexivity|].
  do 4 eexists. split; [reflexivity|].
  split; [reflexivity|]. split; [reflexivity|]. discriminate.
Qed.

(** ** Unsubscribing: validation order *)





(** ** Arrays and sets *)

Lemma arr_includes_In arr x : Js.arr_includes arr x = true <-> In x arr.
Proof.
  unfold Js.arr_includes. rewrite existsb_exists. split.
  - intros (y & Hy & Heq). apply String.eqb_eq in Heq. now subst.
  - intros H. exists x. split; [assumption|apply String.eqb_refl].
Qed.

Lemma arr_includes_not_In arr x : Js.arr_includes arr x = false <-> ~ In x arr.
Proof.
  rewrite <- arr_includes_In. destruct (Js.arr_includes arr x); split;
    congruence.
Qed.

Lemma setOf_acc_In x arr seen :
  In x (fold_left (fun seen x => if Js.arr_includes seen x then seen
                                 else seen ++ [x]) arr seen)
  <-> In x seen \/ In x arr.
Proof.
  revert seen; induction arr as [|y arr IH]; intros seen; cbn.
  - tauto.
  - rewrite IH. destruct (Js.arr_includes seen y) eqn:Hy.
    + apply arr_includes_In in Hy. split; [tauto|].
      intros [H | [<- | H]]; auto.
    + rewrite in_app_iff. cbn. tauto.
Qed.

Lemma setOf_In x arr : In x (Js.setOf arr) <-> In x arr.
Proof. unfold Js.setOf. rewrite setOf_acc_In. cbn. tauto. Qed.

Lemma setOf_acc_NoDup arr seen :
  NoDup seen ->
  NoDup (fold_left (fun seen x => if Js.arr_includes seen x then seen
                                  else seen ++ [x]) arr seen).
Proof.
  revert seen; induction arr as [|y arr IH]; intros seen Hs; cbn.
  - assumption.
  - apply IH. destruct (Js.arr_includes seen y) eqn:Hy; [assumption|].
    apply arr_includes_not_In in Hy.
    apply NoDup_app; [assumption|repeat constructor; auto|].
    intros z Hz [<- | []]. contradiction.
Qed.

Lemma setOf_NoDup arr : NoDup (Js.setOf arr).
Proof. apply setOf_acc_NoDup. constructor. Qed.

Lemma setOf_nonempty arr : arr <> [] -> Js.setOf arr <> [].
Proof.
  destruct arr as [|x arr]; [congruence|]. intros _ H.
  assert (Hx : In x (Js.setOf (x :: arr))) by (apply setOf_In; now left).
  rewrite H in Hx. contradiction.
Qed.

(** ** Looking records up *)

Lemma findByWebhook_Some url subs e :
  findByWebhook url subs = Some e -> In e subs /\ webhookUrl e = url.
Proof.
  intros H. apply find_some in H as [Hin Heq].
  apply String.eqb_eq in Heq. auto.
Qed.

Lemma findByWebhook_None url subs :
  findByWebhook url subs = None ->
  forall r, In r subs -> webhookUrl r <> url.
Proof.
  intros H r Hr Heq. apply (find_none _ _ H) in Hr.
  apply String.eqb_neq in Hr. contradiction.
Qed.

Lemma findByWebhook_app_new url subs n :
  findByWebhook url subs = None -> webhookUrl n = url ->
  findByWebhook url (subs ++ [n]) = Some n.
Proof.
  intros Hnone Hn. unfold findByWebhook in *.
  induction subs as [|r subs IH]; cbn in *.
  - rewrite Hn, String.eqb_refl. reflexivity.
  - destruct (webhookUrl r =? url); [discriminate|]. now apply IH.
Qed.

Lemma findIndex_of_member {A} (p : A -> bool) subs x :
  In x subs -> p x = true -> exists i, Js.findIndex p subs = Some i.
Proof.
  induction subs as [|r subs IH]; cbn; [contradiction|].
  intros [-> | Hin] Hp.
  - rewrite Hp. eauto.
  - destruct (p r); [eauto|]. destruct (IH Hin Hp) as (i & ->). cbn. eauto.
Qed.

(** The index [updateSubscription] finds for the key of the record that the
    lookup by URL gave. *)
Lemma findIndex_of_found url subs e :
  findByWebhook url subs = Some e ->
  exists i, Js.findIndex (fun r => userKey r =? userKey e) subs = Some i.
Proof.
  intros H. apply findByWebhook_Some in H as [Hin _].
  eapply findIndex_of_member; [eassumption|apply String.eqb_refl].
Qed.

(** After the update, the lookup by URL gives the updated record, wherever
    the first record with the key is. *)
Lemma findByWebhook_assign url subs e i upd :
  findByWebhook url subs = Some e ->
  Js.findIndex (fun r => userKey r =? userKey e) subs = Some i ->
  webhookUrl upd = url ->
  findByWebhook url (Js.assign subs i upd) = Some upd.
Proof.
  intros Hfind Hidx Hupd. unfold findByWebhook in *.
  revert i Hidx. induction subs as [|r subs IH]; intros i Hidx;
    [discriminate|].
  cbn in Hidx. destruct (userKey r =? userKey e) eqn:Hk.
  - injection Hidx as <-. cbn. now rewrite Hupd, String.eqb_refl.
  - destruct (Js.findIndex _ subs) as [j|] eqn:Hj; [|discriminate].
    cbn in Hidx. injection Hidx as <-.
    cbn in Hfind |- *. destruct (webhookUrl r =? url).
    + injection Hfind as ->. rewrite String.eqb_refl in Hk. discriminate.
    + now apply IH.
Qed.

(** ** Subscribing with a store that answers *)

(** The channel set of the record a subscribe leaves for the URL. *)
Lemma upserted_lookup E ts ids url subs subs' :
  upserted E ts ids url (findByWebhook url subs) subs = Some subs' ->
  exists e',
    findByWebhook url subs' = Some e'
    /\ userKey e' = keyOf E (findByWebhook url subs) url
    /\ webhookUrl e' = url
    /\ channelIds e'
       = match findByWebhook url subs with
         | Some e => Js.setOf (channelIds e
                               ++ newlyOf (findByWebhook url subs) ids)
         | None => ids
         end.
Proof.
  unfold upserted. destruct (findByWebhook url subs) as [e|] eqn:Hfind.
  - destruct (Js.findIndex _ subs) as [i|] eqn:Hidx; [|discriminate].
    intros [= <-]. eexists. split; [|cbn; auto].
    + eapply findByWebhook_assign; eauto.
      cbn. now apply findByWebhook_Some in Hfind.
    + split; [reflexivity|]. split; [|reflexivity].
      now apply findByWebhook_Some in Hfind.
  - intros [= <-]. eexists. split.
    + now apply findByWebhook_app_new.
    + cbn. auto.
Qed.

Lemma upserted_covers E ts ids url subs subs' e' :
  upserted E ts ids url (findByWebhook url subs) subs = Some subs' ->
  findByWebhook url subs' = Some e' ->
  forall id, In id ids -> In id (channelIds e').
Proof.
  intros Hup Hfind id Hid.
  destruct (upserted_lookup _ _ _ _ _ Hup) as (e & He & _ & _ & Hch).
  assert (e = e') by congruence. subst e'. rewrite Hch.
  destruct (findByWebhook url subs) as [e0|]; [|assumption].
  apply setOf_In, in_app_iff. cbn.
  destruct (Js.arr_includes (channelIds e0) id) eqn:Hin.
  - left. now apply arr_includes_In.
  - right. apply filter_In. now rewrite Hin.
Qed.


(** A subscribe against a store that answers: the result and the collection
    it leaves. *)
Lemma processSubscription_reliable E ids url w :
  readsSucceed E -> writesSucceed E ->
  let ex := findByWebhook url (stored w) in
  exists ts subs' renewedResults w',
    upserted E ts ids url ex (stored w) = Some subs'
    /\ Subscribe.processSubscription E ids url w
       = (Subscribe.mkResult true (Some (keyOf E ex url))
            (Subscribe.selectMessage ex (newlyOf ex ids) (renewedOf ex ids))
            url (whenNonEmpty (newlyOf ex ids))
            (whenNonEmpty (renewedOf ex ids))
            (if Nat.ltb 0 (List.length (renewedOf ex ids))
             then Some renewedResults else None),
          w')
    /\ stored w' = subs'.
Proof.
  intros Hr Hw. cbv zeta.
  pose proof (processSubscription_run E ids url w) as Hrun. cbv zeta in Hrun.
  rewrite !readBlob_reliable, stored_afterGet in Hrun by assumption.
  rewrite setOk_reliable in Hrun by assumption.
  destruct (upserted _ _ _ _ _ _) as [subs'|] eqn:Hup.
  - destruct Hrun as (rs1 & rs2 & Hrun & _ & _).
    do 4 eexists. split; [exact Hup|]. split; [exact Hrun|].
    rewrite stored_extend, stored_afterSet, setOk_reliable by assumption.
    reflexivity.
  - exfalso. unfold upserted in Hup.
    destruct (findByWebhook url (stored w)) as [e|] eqn:Hfind; [|discriminate].
    destruct (findIndex_of_found _ _ Hfind) as (i & Hi).
    rewrite Hi in Hup. discriminate.
Qed.



(** ** Unsubscribing *)

Lemma persist_eq E sub remaining w :
  Unsubscribe.persist E sub remaining w
  = match pruned (now E (step w)) sub remaining (readBlob E w) with
    | Some subs' =>
        ((setOk E (afterGet E w), unsubscribeMessage remaining),
         afterSet E subs' (afterGet E w))
    | None => ((false, unsubscribeMessage remaining), afterGet E w)
    end.
Proof.
  unfold Unsubscribe.persist, pruned, unsubscribeMessage,
    Storage.updateSubscription, isoNow, bind, ret.
  destruct (Nat.eqb (List.length remaining) 0).
  - now rewrite getSubscriptions_eq, saveSubscriptions_eq.
  - rewrite getSubscriptions_eq.
    destruct (Js.findIndex _ (readBlob E w)) as [i|]; [|reflexivity].
    now rewrite saveSubscriptions_eq.
Qed.

(** [processUnsubscription], call by call, in every environment: the hub is
    called for every channel, then the store is updated. *)
Lemma processUnsubscription_run E channels url sub w :
  exists results,
    map PubSubHubbub.channelId results = channels
    /\ let w1 := extend w (map (unsubscribeEvent (userKey sub)) results) in
       let remaining := remainingOf channels sub in
       Unsubscribe.processUnsubscription E channels url sub w
       = match pruned (now E (step w1)) sub remaining (readBlob E w1) with
         | Some subs' =>
             (if setOk E (afterGet E w1)
              then Unsubscribe.mkResult true (unsubscribeMessage remaining)
                     url channels results (Some remaining)
              else unsubscribeFailure url channels results,
              afterSet E subs' (afterGet E w1))
         | None => (unsubscribeFailure url channels results, afterGet E w1)
         end.
Proof.
  destruct (mapM_hub_run
              (fun channel =>
                 PubSubHubbub.unsubscribeFromChannel E channel url (userKey sub))
              (unsubscribeEvent (userKey sub))
              (fun channel w => unsubscribeFromChannel_run E channel url
                                  (userKey sub) w)
              channels w) as (results & Hrun & Hch).
  exists results. split; [assumption|]. cbv zeta.
  unfold Unsubscribe.processUnsubscription, bind. rewrite Hrun, persist_eq.
  fold (remainingOf channels sub).
  destruct (pruned _ _ _ _) as [subs'|]; [|reflexivity].
  now destruct (setOk E _).
Qed.

(** The collection an unsubscribe leaves when the store can be read: the
    pruned one when the write is done, the old one otherwise. *)
Lemma processUnsubscription_store E channels url sub w :
  readsSucceed E ->
  let run := Unsubscribe.processUnsubscription E channels url sub w in
  (Unsubscribe.r_success (fst run) = true
   /\ Unsubscribe.r_remainingChannels (fst run)
      = Some (remainingOf channels sub)
   /\ exists ts, pruned ts sub (remainingOf channels sub) (stored w)
                 = Some (stored (snd run)))
  \/ (Unsubscribe.r_success (fst run) = false /\ stored (snd run) = stored w).
Proof.
  intros Hr. cbv zeta.
  destruct (processUnsubscription_run E channels url sub w)
    as (results & _ & Hrun).
  cbv zeta in Hrun. rewrite Hrun. clear Hrun.
  rewrite readBlob_reliable, stored_extend by assumption.
  destruct (pruned _ _ _ _) as [subs'|] eqn:Hp.
  - cbn [fst snd]. rewrite stored_afterSet.
    destruct (setOk E _); cbn.
    + left. repeat split. eauto.
    + right. auto.
  - right. auto.
Qed.

Lemma processUnsubscription_reliable E channels url sub w :
  readsSucceed E -> writesSucceed E ->
  In sub (stored w) ->
  let run := Unsubscribe.processUnsubscription E channels url sub w in
  Unsubscribe.r_success (fst run) = true
  /\ Unsubscribe.r_remainingChannels (fst run)
     = Some (remainingOf channels sub)
  /\ exists ts, pruned ts sub (remainingOf channels sub) (stored w)
                = Some (stored (snd run)).
Proof.
  intros Hr Hw Hin. cbv zeta.
  destruct (processUnsubscription_run E channels url sub w)
    as (results & _ & Hrun).
  cbv zeta in Hrun. rewrite Hrun. clear Hrun.
  rewrite readBlob_reliable, stored_extend, setOk_reliable by assumption.
  destruct (pruned _ _ _ _) as [subs'|] eqn:Hp.
  - cbn [fst snd]. rewrite stored_afterSet, setOk_reliable by assumption.
    cbn. repeat split. eauto.
  - exfalso. unfold pruned in Hp.
    destruct (Nat.eqb _ 0); [discriminate|].
    destruct (findIndex_of_member (fun s => userKey s =? userKey sub) _ _ Hin
                (String.eqb_refl _)) as (i & Hi).
    rewrite Hi in Hp. discriminate.
Qed.

Lemma remainingOf_In channels sub c :
  In c (remainingOf channels sub)
  <-> In c (channelIds sub) /\ ~ In c channels.
Proof.
  unfold remainingOf. rewrite filter_In, negb_true_iff, arr_includes_not_In.
  tauto.
Qed.

Lemma remainingOf_nil channels sub :
  remainingOf channels sub = []
  <-> (forall c, In c (channelIds sub) -> In c channels).
Proof.
  split.
  - intros H c Hc.
    destruct (Js.arr_includes channels c) eqn:Hin;
      [now apply arr_includes_In|].
    apply arr_includes_not_In in Hin.
    assert (Hrem : In c (remainingOf channels sub))
      by (apply remainingOf_In; auto).
    rewrite H in Hrem. contradiction.
  - intros H. destruct (remainingOf channels sub) as [|c rest] eqn:Hrem;
      [reflexivity|].
    assert (Hc : In c (remainingOf channels sub)) by (rewrite Hrem; now left).
    apply remainingOf_In in Hc as [Hc Hn]. exfalso. auto.
Qed.

Lemma length_zero_nil {A} (l : list A) :
  Nat.eqb (List.length l) 0 = true <-> l = [].
Proof. destruct l; cbn; split; congruence. Qed.

(** When channels remain, the lookup by URL gives the record with exactly
    those channels. *)
Lemma pruned_lookup ts url subs sub remaining subs' :
  findByWebhook url subs = Some sub ->
  remaining <> [] ->
  pruned ts sub remaining subs = Some subs' ->
  findByWebhook url subs'
  = Some (mkSubscription (userKey sub) remaining url ts).
Proof.
  intros Hfind Hrem. unfold pruned.
  destruct (Nat.eqb (List.length remaining) 0) eqn:Hlen.
  - apply length_zero_nil in Hlen. contradiction.
  - destruct (Js.findIndex _ subs) as [i|] eqn:Hidx; [|discriminate].
    intros [= <-].
    pose proof (findByWebhook_Some _ _ Hfind) as [_ Hurl].
    rewrite Hurl. eapply findByWebhook_assign; eauto.
Qed.

(** C7.  With a store that answers, unsubscribing from the record of a URL a
    non-empty list of its channels that leaves at least one of them out
    succeeds and leaves for the URL a record with the same user key whose
    channels are the original ones that were not removed, in their original
    order; that list is not empty.  For any list of channels to remove,
    nothing remains exactly when the list covers every channel of the
    record. *)
Theorem partial_unsubscribe_law E channels url sub w :
  readsSucceed E -> writesSucceed E ->
  findByWebhook url (stored w) = Some sub ->
  channels <> [] ->
  (forall c, In c channels -> In c (channelIds sub)) ->
  (exists c, In c (channelIds sub) /\ ~ In c channels) ->
  let run := Unsubscribe.processUnsubscription E channels url sub w in
  Unsubscribe.r_success (fst run) = true
  /\ Unsubscribe.r_remainingChannels (fst run)
     = Some (remainingOf channels sub)
  /\ (exists sub',
        findByWebhook url (stored (snd run)) = Some sub'
        /\ userKey sub' = userKey sub
        /\ webhookUrl sub' = url
        /\ channelIds sub'
           = filter (fun id => negb (Js.arr_includes channels id))
                    (channelIds sub)
        /\ channelIds sub' <> []
        /\ (forall c, In c (channelIds sub')
                      <-> In c (channelIds sub) /\ ~ In c channels))
  /\ (forall removed,
        remainingOf removed sub = []
        <-> (forall c, In c (channelIds sub) -> In c removed)).
Proof.
  intros Hr Hw Hfind Hne Hsub (c & Hc & Hnc). cbv zeta.
  pose proof (findByWebhook_Some _ _ Hfind) as [Hin Hurl].
  destruct (@processUnsubscription_reliable E channels url sub w Hr Hw Hin)
    as (Hok & Hrem & ts & Hp).
  assert (Hleft : remainingOf channels sub <> []).
  { intros Hnil. rewrite remainingOf_nil in Hnil. auto. }
  split; [assumption|]. split; [assumption|]. split.
  - eexists. split; [eapply pruned_lookup; eassumption|].
    cbn. do 3 (split; [reflexivity|]). split; [exact Hleft|].
    intros c'. apply remainingOf_In.
  - intros removed. apply remainingOf_nil.
Qed.

(** ** Frame lemmas on collections *)

Lemma NoDup_map_injective {A B} (f : A -> B) l x y :
  NoDup (map f l) -> In x l -> In y l -> f x = f y -> x = y.
Proof.
  induction l as [|a l IH]; cbn; [contradiction|].
  intros Hnd Hx Hy Heq. inversion Hnd as [|? ? Hnotin Hnd']; subst.
  destruct Hx as [-> | Hx], Hy as [-> | Hy]; auto.
  - exfalso. apply Hnotin. rewrite Heq. now apply in_map.
  - exfalso. apply Hnotin. rewrite <- Heq. now apply in_map.
Qed.

Lemma find_app_one {A} (f : A -> bool) l n :
  find f (l ++ [n])
  = match find f l with
    | Some x => Some x
    | None => if f n then Some n else None
    end.
Proof.
  induction l as [|a l IH]; cbn; [reflexivity|]. now destruct (f a).
Qed.

Lemma assign_keys (p : Subscription -> bool) subs i upd :
  Js.findIndex p subs = Some i ->
  (forall r, p r = true -> userKey r = userKey upd) ->
  map userKey (Js.assign subs i upd) = map userKey subs.
Proof.
  intros Hidx Hp. revert i Hidx.
  induction subs as [|r subs IH]; intros i Hidx; [discriminate|].
  cbn in Hidx. destruct (p r) eqn:Hr.
  - injection Hidx as <-. cbn. now rewrite (Hp r Hr).
  - destruct (Js.findIndex p subs) as [j|]; [|discriminate].
    injection Hidx as <-. cbn. now rewrite (IH j eq_refl).
Qed.

Lemma assign_frame (q p : Subscription -> bool) subs i upd :
  Js.findIndex p subs = Some i ->
  (forall r, find p subs = Some r -> q r = false) ->
  q upd = false ->
  filter q (Js.assign subs i upd) = filter q subs.
Proof.
  intros Hidx Hq Hupd. revert i Hidx.
  induction subs as [|r subs IH]; intros i Hidx; [discriminate|].
  cbn in Hidx, Hq. destruct (p r) eqn:Hr.
  - injection Hidx as <-. cbn. now rewrite Hupd, (Hq r eq_refl).
  - destruct (Js.findIndex p subs) as [j|]; [|discriminate].
    injection Hidx as <-. cbn. now rewrite (IH Hq j eq_refl).
Qed.

Lemma filter_frame {A} (q p : A -> bool) l :
  (forall r, In r l -> p r = false -> q r = false) ->
  filter q (filter p l) = filter q l.
Proof.
  induction l as [|a l IH]; intros H; [reflexivity|]. cbn.
  destruct (p a) eqn:Hp; cbn.
  - rewrite IH; [reflexivity|]. intros; apply H; auto. now right.
  - rewrite (H a (or_introl eq_refl) Hp). apply IH.
    intros; apply H; auto. now right.
Qed.

Lemma app_frame {A} (q : A -> bool) l n :
  q n = false -> filter q (l ++ [n]) = filter q l.
Proof. intros H. rewrite filter_app. cbn. rewrite H. apply app_nil_r. Qed.

Lemma touched_is_filtered urls r :
  In (webhookUrl r) urls ->
  negb (Js.arr_includes urls (webhookUrl r)) = false.
Proof. intros H. apply arr_includes_In in H. now rewrite H. Qed.

Lemma ownsFirst_unique url subs : uniqueKeys subs -> ownsFirst url subs.
Proof.
  intros Hnd e r Hfind Hkey.
  apply findByWebhook_Some in Hfind as [Hin Hurl].
  apply find_some in Hkey as [Hr Heq]. apply String.eqb_eq in Heq.
  now rewrite (NoDup_map_injective userKey _ r e Hnd Hr Hin Heq).
Qed.

(** A subscribe touches the records of its URL only. *)
Lemma upserted_frame E ts ids url subs subs' urls :
  upserted E ts ids url (findByWebhook url subs) subs = Some subs' ->
  ownsFirst url subs -> In url urls ->
  others urls subs' = others urls subs.
Proof.
  unfold upserted, others. intros Hup Hown Hurl.
  destruct (findByWebhook url subs) as [e|] eqn:Hfind.
  - destruct (Js.findIndex _ subs) as [i|] eqn:Hidx; [|discriminate].
    injection Hup as <-.
    pose proof (findByWebhook_Some _ _ Hfind) as [_ He].
    eapply assign_frame; [eassumption| |].
    + intros r Hr. apply touched_is_filtered.
      now rewrite (Hown e r Hfind Hr).
    + apply touched_is_filtered. cbn. now rewrite He.
  - injection Hup as <-. apply app_frame. now apply touched_is_filtered.
Qed.

(** The keys after a subscribe still serve a lookup by another URL. *)
Lemma upserted_ownsFirst E ts ids url subs subs' other :
  upserted E ts ids url (findByWebhook url subs) subs = Some subs' ->
  uniqueKeys subs -> other <> url ->
  ownsFirst other subs'.
Proof.
  unfold upserted. intros Hup Hnd Hother.
  destruct (findByWebhook url subs) as [e|] eqn:Hfind.
  - destruct (Js.findIndex _ subs) as [i|] eqn:Hidx; [|discriminate].
    injection Hup as <-. apply ownsFirst_unique. unfold uniqueKeys.
    erewrite assign_keys; [eassumption|eassumption|].
    intros r Hr. cbn. now apply String.eqb_eq.
  - injection Hup as <-. intros e r. unfold findByWebhook.
    rewrite !find_app_one. cbn [webhookUrl].
    assert (Hneq : (url =? other) = false) by (apply String.eqb_neq; auto).
    rewrite Hneq.
    destruct (find (fun sub => webhookUrl sub =? other) subs) as [x|] eqn:Hx;
      [|discriminate].
    intros [= ->].
    pose proof (findByWebhook_Some _ _ Hx) as [Hin Hurl].
    destruct (find (fun x => userKey x =? userKey e) subs) as [y|] eqn:Hy.
    + intros [= ->]. apply find_some in Hy as [Hr Heq].
      apply String.eqb_eq in Heq.
      now rewrite (NoDup_map_injective userKey _ r e Hnd Hr Hin Heq).
    + apply (find_none _ _ Hy) in Hin. rewrite String.eqb_refl in Hin.
      discriminate.
Qed.

(** An unsubscribe touches the records with the key of its record only. *)
Lemma pruned_frame ts sub remaining subs subs' urls :
  pruned ts sub remaining subs = Some subs' ->
  (forall r, In r subs -> userKey r = userKey sub ->
             webhookUrl r = webhookUrl sub) ->
  In (webhookUrl sub) urls ->
  others urls subs' = others urls subs.
Proof.
  unfold pruned, others. intros Hp Hown Hurl.
  destruct (Nat.eqb (List.length remaining) 0).
  - injection Hp as <-. apply filter_frame.
    intros r Hr Hk. apply negb_false_iff, String.eqb_eq in Hk.
    apply touched_is_filtered. now rewrite (Hown r Hr Hk).
  - destruct (Js.findIndex _ subs) as [i|] eqn:Hidx; [|discriminate].
    injection Hp as <-. eapply assign_frame; [eassumption| |].
    + intros r Hr. apply find_some in Hr as [Hr Hk].
      apply String.eqb_eq in Hk. apply touched_is_filtered.
      now rewrite (Hown r Hr Hk).
    + now apply touched_is_filtered.
Qed.

Lemma pruned_uniqueKeys ts sub remaining subs subs' :
  pruned ts sub remaining subs = Some subs' ->
  uniqueKeys subs -> uniqueKeys subs'.
Proof.
  unfold pruned, uniqueKeys. intros Hp Hnd.
  destruct (Nat.eqb (List.length remaining) 0).
  - injection Hp as <-. induction subs as [|r subs IH]; [constructor|].
    cbn in Hnd |- *. inversion Hnd as [|? ? Hnotin Hnd']; subst.
    destruct (negb (userKey r =? userKey sub)); cbn; auto.
    constructor; auto. intros Hin. apply Hnotin.
    apply in_map_iff in Hin as (x & Hx & Hin).
    apply filter_In in Hin as [Hin _]. apply in_map_iff. eauto.
  - destruct (Js.findIndex _ subs) as [i|] eqn:Hidx; [|discriminate].
    injection Hp as <-. erewrite assign_keys; [eassumption|eassumption|].
    intros r Hr. cbn. now apply String.eqb_eq.
Qed.

Lemma length_append (s t : string) :
  String.length (s ++ t) = String.length s + String.length t.
Proof. induction s as [|c s IH]; cbn; [reflexivity|now rewrite IH]. Qed.

(** The production variant of a URL is another URL. *)
Lemma production_differs url production :
  Subscribe.getProductionWebhookUrl url = Some production ->
  production <> url.
Proof.
  unfold Subscribe.getProductionWebhookUrl.
  destruct (url =? ""); [discriminate|].
  destruct (Js.includes url "webhook-test") eqn:Hinc; [|discriminate].
  intros [= <-] Heq.
  destruct (replace_first_occurrence url Hinc) as (pre & post & Hu & _ & Hr & _).
  rewrite Hr in Heq. rewrite Hu in Heq.
  apply (f_equal String.length) in Heq.
  rewrite !length_append in Heq. cbn in Heq. lia.
Qed.

(** ** The frame of the two routes *)

Lemma processSubscription_store E ids url w :
  readsSucceed E ->
  let run := Subscribe.processSubscription E ids url w in
  (exists ts,
      upserted E ts ids url (findByWebhook url (stored w)) (stored w)
      = Some (stored (snd run)))
  \/ stored (snd run) = stored w.
Proof.
  intros Hr. cbv zeta.
  pose proof (processSubscription_run E ids url w) as Hrun. cbv zeta in Hrun.
  rewrite !readBlob_reliable, stored_afterGet in Hrun by assumption.
  destruct (upserted _ _ _ _ _ _) as [subs'|] eqn:Hup.
  - destruct (setOk E (afterGet E (afterGet E w))) eqn:Hok.
    + destruct Hrun as (rs1 & rs2 & -> & _ & _). cbn [snd].
      rewrite stored_extend, stored_afterSet, Hok. eauto.
    + rewrite Hrun. cbn [snd]. rewrite stored_afterSet, Hok. now right.
  - rewrite Hrun. now right.
Qed.

Lemma processSubscription_frame E ids url w urls :
  readsSucceed E -> ownsFirst url (stored w) -> In url urls ->
  others urls (stored (snd (Subscribe.processSubscription E ids url w)))
  = others urls (stored w).
Proof.
  intros Hr Hown Hurl.
  destruct (processSubscription_store ids url w Hr) as [(ts & Hup) | ->];
    [|reflexivity].
  eapply upserted_frame; eassumption.
Qed.

Lemma processSubscription_ownsFirst E ids url w other :
  readsSucceed E -> uniqueKeys (stored w) -> other <> url ->
  ownsFirst other (stored (snd (Subscribe.processSubscription E ids url w))).
Proof.
  intros Hr Hnd Hother.
  destruct (processSubscription_store ids url w Hr) as [(ts & Hup) | ->].
  - eapply upserted_ownsFirst; eassumption.
  - now apply ownsFirst_unique.
Qed.

Lemma subscribe_handler_frame E req w :
  readsSucceed E -> uniqueKeys (stored w) ->
  others (touchedBySubscribe req) (stored (snd (Subscribe.handler E req w)))
  = others (touchedBySubscribe req) (stored w).
Proof.
  intros Hr Hnd. unfold Subscribe.handler, touchedBySubscribe.
  destruct (negb (Subscribe.req_method req =? "POST")); [reflexivity|].
  destruct (Subscribe.req_channelIds req) as [[|id ids]|]; try reflexivity.
  destruct (Nat.ltb 0 _); [reflexivity|].
  destruct (Subscribe.req_webhookUrl req) as [url|]; [|reflexivity].
  destruct ((url =? "") || negb (Subscribe.isValidUrl E url));
    [reflexivity|].
  unfold bind, ret.
  destruct (Subscribe.processSubscription E (id :: ids) url w)
    as [main w1] eqn:Hmain.
  assert (Hw1 : w1 = snd (Subscribe.processSubscription E (id :: ids) url w))
    by now rewrite Hmain.
  assert (Hstep1 :
            forall urls, In url urls ->
                         others urls (stored w1) = others urls (stored w)).
  { intros urls Hin. rewrite Hw1. apply processSubscription_frame; auto.
    now apply ownsFirst_unique. }
  destruct (Subscribe.isTestWebhook url);
    [|cbn [snd]; apply Hstep1; now left].
  destruct (Subscribe.getProductionWebhookUrl url) as [production|] eqn:Hprod;
    [|cbn [snd]; apply Hstep1; now left].
  destruct (true && Js.truthy (Some production));
    [|cbn [snd]; apply Hstep1; now left].
  destruct (Subscribe.processSubscription E (id :: ids) production w1)
    as [dual w2] eqn:Hdual.
  cbn [snd].
  replace w2
    with (snd (Subscribe.processSubscription E (id :: ids) production w1))
    by now rewrite Hdual.
  rewrite processSubscription_frame; auto.
  - apply Hstep1. now left.
  - rewrite Hw1. apply processSubscription_ownsFirst; auto.
    eapply production_differs; eassumption.
  - right. now left.
Qed.

Lemma processUnsubscription_frame E channels url sub w urls :
  readsSucceed E -> uniqueKeys (stored w) -> In sub (stored w) ->
  In (webhookUrl sub) urls ->
  let w' := snd (Unsubscribe.processUnsubscription E channels url sub w) in
  others urls (stored w') = others urls (stored w) /\ uniqueKeys (stored w').
Proof.
  intros Hr Hnd Hin Hurl. cbv zeta.
  destruct (processUnsubscription_store channels url sub w Hr)
    as [(_ & _ & ts & Hp) | (_ & ->)]; [|auto].
  split.
  - eapply pruned_frame; [eassumption| |assumption].
    intros r Hrin Hk.
    now rewrite (NoDup_map_injective userKey _ r sub Hnd Hrin Hin Hk).
  - eapply pruned_uniqueKeys; eassumption.
Qed.

Lemma unsubscribe_handler_frame E req w :
  readsSucceed E -> uniqueKeys (stored w) ->
  others (touchedByUnsubscribe req)
         (stored (snd (Unsubscribe.handler E req w)))
  = others (touchedByUnsubscribe req) (stored w).
Proof.
  intros Hr Hnd. unfold Unsubscribe.handler, touchedByUnsubscribe,
    Unsubscribe.reject.
  destruct (negb (Unsubscribe.req_method req =? "POST")); [reflexivity|].
  destruct (Unsubscribe.req_webhookUrl req) as [url|]; [|reflexivity].
  destruct ((url =? "") || negb (Unsubscribe.isValidUrl E url));
    [reflexivity|].
  unfold bind, ret. rewrite findSubscriptionByWebhook_eq'.
  rewrite readBlob_reliable by assumption.
  destruct (findByWebhook url (stored w)) as [sub|] eqn:Hfind; [|reflexivity].
  destruct (Unsubscribe.channelsToUnsubscribe req url sub) as [f|channels];
    [reflexivity|].
  pose proof (findByWebhook_Some _ _ Hfind) as [Hin Hurl].
  set (urls := url :: _).
  destruct (@processUnsubscription_frame E channels url sub (afterGet E w)
              urls Hr Hnd Hin) as [Hframe1 Hnd1].
  { rewrite Hurl. now left. }
  destruct (Unsubscribe.processUnsubscription E channels url sub
              (afterGet E w)) as [main w1].
  cbn [snd] in Hframe1, Hnd1. rewrite stored_afterGet in Hframe1.
  unfold Unsubscribe.unsubscribeCounterpart, bind, ret.
  subst urls.
  destruct (Unsubscribe.counterpartOf url) as [counterpart|];
    [|exact Hframe1].
  destruct (Js.truthy (Some counterpart)); [|exact Hframe1].
  rewrite findSubscriptionByWebhook_eq', readBlob_reliable by assumption.
  destruct (findByWebhook counterpart (stored w1)) as [csub|] eqn:Hc;
    [|exact Hframe1].
  pose proof (findByWebhook_Some _ _ Hc) as [Hcin Hcurl].
  set (chs := filter _ channels).
  destruct (@processUnsubscription_frame E chs counterpart csub
              (afterGet E w1) [url; counterpart] Hr Hnd1 Hcin)
    as [Hframe2 _].
  { rewrite Hcurl. right. now left. }
  destruct (Unsubscribe.processUnsubscription E chs counterpart csub
              (afterGet E w1)) as [dual w2].
  cbn [snd] in Hframe2 |- *. rewrite stored_afterGet in Hframe2.
  congruence.
Qed.

(** C10 (amended).  When every store read succeeds and user keys identify
    records, every subscribe request and every unsubscribe request leave the
    records of all other webhook URLs as they were and in their order: the
    records whose URL is neither the requested URL nor its mirrored
    counterpart are the same list before and after, whether the request is
    rejected, a write fails, or the request goes through. *)
Theorem other_records_are_untouched E w :
  readsSucceed E -> uniqueKeys (stored w) ->
  (forall req,
      others (touchedBySubscribe req)
             (stored (snd (Subscribe.handler E req w)))
      = others (touchedBySubscribe req) (stored w))
  /\ (forall req,
        others (touchedByUnsubscribe req)
               (stored (snd (Unsubscribe.handler E req w)))
        = others (touchedByUnsubscribe req) (stored w)).
Proof.
  intros Hr Hnd. split; intros req.
  - now apply subscribe_handler_frame.
  - now apply unsubscribe_handler_frame.
Qed.

(** C10 (as stated) fails without the condition on the reads.  On a store
    with two records and unique user keys, a subscribe for a third URL whose
    read inside [addSubscription] fails is answered with 200 and success:
    [getSubscriptions] answered the failed read with the empty collection,
    the new record was written as the whole collection, and the two records
    of the other URLs are gone. *)
Lemma failed_read_loses_other_records :
  let req :=
    Subscribe.mkRequest "POST" (Some ["UC_x5XG1OV2P6uZZ5FSM9Ttw"])
                        (Some "https://new.example.net/hook") in
  let run := Subscribe.handler flakyReadEnv req twoRecordWorld in
  uniqueKeys (stored twoRecordWorld)
  /\ fst (fst run) = 200
  /\ (exists main,
        snd (fst run) = Subscribe.ResultBody main None
        /\ Subscribe.r_success main = true)
  /\ firstn 2 (since twoRecordWorld (snd run))
     = [RedisGet None; RedisGet (Some "fetch failed")]
  /\ others (touchedBySubscribe req) (stored twoRecordWorld)
     = [hookRecord; productionRecord]
  /\ map webhookUrl (stored (snd run)) = ["https://new.example.net/hook"]
  /\ others (touchedBySubscribe req) (stored (snd run)) = [].
Proof.
  cbv zeta. split.
  { unfold uniqueKeys. cbn. repeat constructor; cbn; intuition discriminate. }
  split; [reflexivity|]. split; [eexists; split; reflexivity|].
  repeat split; reflexivity.
Qed.

(** ** No record with an empty channel list *)

Lemma Forall_assign {A} (P : A -> Prop) l i v :
  Forall P l -> P v -> Forall P (Js.assign l i v).
Proof.
  intros Hl Hv. revert i. induction Hl as [|x l Hx Hl IH]; intros i; cbn.
  - constructor.
  - destruct i; constructor; auto.
Qed.

Lemma In_assign {A} (l : list A) i v r :
  In r (Js.assign l i v) -> In r l \/ r = v.
Proof.
  revert i. induction l as [|x l IH]; intros i; cbn; [tauto|].
  destruct i; cbn.
  - intros [<- | H]; auto.
  - intros [<- | H]; auto. destruct (IH _ H); auto.
Qed.

Lemma Forall_filter {A} (P : A -> Prop) (p : A -> bool) l :
  Forall P l -> Forall P (filter p l).
Proof.
  intros H. apply Forall_forall. intros x Hx.
  apply filter_In in Hx as [Hx _]. revert x Hx. now apply Forall_forall.
Qed.

Lemma readBlob_noEmpty E w :
  noEmptyRecord (stored w) -> noEmptyRecord (readBlob E w).
Proof.
  unfold readBlob. destruct (redisGetFault E (step w)); [constructor|auto].
Qed.

Lemma pruned_noEmpty ts sub remaining subs subs' :
  noEmptyRecord subs -> pruned ts sub remaining subs = Some subs' ->
  noEmptyRecord subs'.
Proof.
  unfold pruned, noEmptyRecord. intros Hs Hp.
  destruct (Nat.eqb (List.length remaining) 0) eqn:Hlen.
  - injection Hp as <-. now apply Forall_filter.
  - destruct (Js.findIndex _ subs); [|discriminate]. injection Hp as <-.
    apply Forall_assign; [assumption|]. cbn. intros ->. discriminate.
Qed.

Lemma upserted_noEmpty E ts ids url ex subs subs' :
  noEmptyRecord subs -> ids <> [] ->
  (forall e, ex = Some e -> channelIds e <> []) ->
  upserted E ts ids url ex subs = Some subs' ->
  noEmptyRecord subs'.
Proof.
  unfold upserted, noEmptyRecord. intros Hs Hids Hex Hup.
  destruct ex as [e|].
  - destruct (Js.findIndex _ subs); [|discriminate]. injection Hup as <-.
    apply Forall_assign; [assumption|]. cbn. apply setOf_nonempty.
    intros Happ. apply app_eq_nil in Happ as [He _]. now apply (Hex e).
  - injection Hup as <-. apply Forall_app. split; [assumption|].
    repeat constructor. assumption.
Qed.

Lemma processUnsubscription_noEmpty E channels url sub w :
  noEmptyRecord (stored w) ->
  noEmptyRecord
    (stored (snd (Unsubscribe.processUnsubscription E channels url sub w))).
Proof.
  intros Hs.
  destruct (processUnsubscription_run E channels url sub w)
    as (results & _ & Hrun).
  cbv zeta in Hrun. rewrite Hrun. clear Hrun.
  set (w1 := extend w _).
  assert (Hs1 : noEmptyRecord (stored w1)) by exact Hs.
  destruct (pruned _ _ _ _) as [subs'|] eqn:Hp; [|exact Hs1].
  cbn [snd]. rewrite stored_afterSet.
  destruct (setOk E _); [|exact Hs1].
  eapply pruned_noEmpty; [|eassumption]. now apply readBlob_noEmpty.
Qed.

Lemma processSubscription_noEmpty E ids url w :
  ids <> [] -> noEmptyRecord (stored w) ->
  noEmptyRecord
    (stored (snd (Subscribe.processSubscription E ids url w))).
Proof.
  intros Hids Hs.
  pose proof (processSubscription_run E ids url w) as Hrun. cbv zeta in Hrun.
  destruct (upserted _ _ _ _ _ _) as [subs'|] eqn:Hup.
  - assert (Hs' : noEmptyRecord subs').
    { eapply upserted_noEmpty; [| | |exact Hup].
      - apply readBlob_noEmpty. exact Hs.
      - exact Hids.
      - intros e He. apply findByWebhook_Some in He as [Hin _].
        pose proof (@readBlob_noEmpty E w Hs) as Hall.
        unfold noEmptyRecord in Hall. rewrite Forall_forall in Hall. auto. }
    destruct (setOk E (afterGet E (afterGet E w))) eqn:Hok.
    + destruct Hrun as (rs1 & rs2 & -> & _ & _). cbn [snd].
      now rewrite stored_extend, stored_afterSet, Hok.
    + rewrite Hrun. cbn [snd]. now rewrite stored_afterSet, Hok.
  - rewrite Hrun. exact Hs.
Qed.

Lemma subscribe_handler_noEmpty E req w :
  noEmptyRecord (stored w) ->
  noEmptyRecord (stored (snd (Subscribe.handler E req w))).
Proof.
  intros Hs. unfold Subscribe.handler.
  destruct (negb (Subscribe.req_method req =? "POST")); [exact Hs|].
  destruct (Subscribe.req_channelIds req) as [[|id ids]|]; try exact Hs.
  destruct (Nat.ltb 0 _); [exact Hs|].
  destruct (Subscribe.req_webhookUrl req) as [url|]; [|exact Hs].
  destruct ((url =? "") || negb (Subscribe.isValidUrl E url)); [exact Hs|].
  unfold bind, ret.
  pose proof (@processSubscription_noEmpty E (id :: ids) url w
                ltac:(discriminate) Hs) as Hs1.
  destruct (Subscribe.processSubscription E (id :: ids) url w) as [main w1].
  cbn [snd] in Hs1.
  destruct (if Subscribe.isTestWebhook url
            then Subscribe.getProductionWebhookUrl url else None)
    as [production|] eqn:Hprod; [|exact Hs1].
  destruct (Subscribe.isTestWebhook url && Js.truthy (Some production));
    [|exact Hs1].
  pose proof (@processSubscription_noEmpty E (id :: ids) production w1
                ltac:(discriminate) Hs1) as Hs2.
  now destruct (Subscribe.processSubscription E (id :: ids) production w1).
Qed.

Lemma unsubscribe_handler_noEmpty E req w :
  noEmptyRecord (stored w) ->
  noEmptyRecord (stored (snd (Unsubscribe.handler E req w))).
Proof.
  intros Hs. unfold Unsubscribe.handler, Unsubscribe.reject.
  destruct (negb (Unsubscribe.req_method req =? "POST")); [exact Hs|].
  destruct (Unsubscribe.req_webhookUrl req) as [url|]; [|exact Hs].
  destruct ((url =? "") || negb (Unsubscribe.isValidUrl E url)); [exact Hs|].
  unfold bind, ret. rewrite findSubscriptionByWebhook_eq'.
  destruct (findByWebhook url (readBlob E w)) as [sub|]; [|exact Hs].
  destruct (Unsubscribe.channelsToUnsubscribe req url sub) as [f|channels];
    [exact Hs|].
  pose proof (@processUnsubscription_noEmpty E channels url sub (afterGet E w)
                Hs) as Hs1.
  destruct (Unsubscribe.processUnsubscription E channels url sub
              (afterGet E w)) as [main w1].
  cbn [snd] in Hs1.
  unfold Unsubscribe.unsubscribeCounterpart, bind, ret.
  destruct (Unsubscribe.counterpartOf url) as [counterpart|]; [|exact Hs1].
  destruct (Js.truthy (Some counterpart)); [|exact Hs1].
  rewrite findSubscriptionByWebhook_eq'.
  destruct (findByWebhook counterpart (readBlob E w1)) as [csub|];
    [|exact Hs1].
  set (chs := filter _ channels).
  pose proof (@processUnsubscription_noEmpty E chs counterpart csub
                (afterGet E w1) Hs1) as Hs2.
  now destruct (Unsubscribe.processUnsubscription E chs counterpart csub
                  (afterGet E w1)).
Qed.

(** ** Deleting a record *)

Lemma replace_split s pat rep :
  Js.includes s pat = true ->
  exists pre post,
    s = (pre ++ pat ++ post)%string
    /\ Js.replace s pat rep = (pre ++ rep ++ post)%string.
Proof.
  induction s as [|c s IH]; cbn [Js.includes Js.replace]; intros H.
  - rewrite orb_false_r in H. rewrite H.
    exists ""%string, (Js.slice (String.length pat) ""). split; [|reflexivity].
    now apply startsWith_split.
  - destruct (Js.startsWith (String c s) pat) eqn:Hp.
    + exists ""%string, (Js.slice (String.length pat) (String c s)).
      split; [|reflexivity]. now apply startsWith_split.
    + destruct (IH H) as (pre & post & Hs & Hr).
      exists (String c pre), post. cbn. now rewrite <- Hs, Hr.
Qed.

(** The counterpart of a URL is another URL. *)
Lemma counterpart_differs url counterpart :
  Unsubscribe.counterpartOf url = Some counterpart -> counterpart <> url.
Proof.
  rewrite counterpart_agrees. unfold WebSub.isN8n, WebSub.counterpartOf.
  destruct (url =? ""); [discriminate|]. cbn [negb andb].
  destruct (Js.includes url "webhook-test") eqn:Htest; cbn [orb].
  - intros [= <-] Heq.
    destruct (replace_split url "webhook-test" "webhook" Htest)
      as (pre & post & Hu & Hr).
    rewrite Hr in Heq. rewrite Hu in Heq.
    apply (f_equal String.length) in Heq.
    rewrite !length_append in Heq. cbn in Heq. lia.
  - destruct (Js.includes url "webhook") eqn:Hprod; [|discriminate].
    intros [= <-] Heq.
    destruct (replace_split url "webhook" "webhook-test" Hprod)
      as (pre & post & Hu & Hr).
    rewrite Hr in Heq. rewrite Hu in Heq.
    apply (f_equal String.length) in Heq.
    rewrite !length_append in Heq. cbn in Heq. lia.
Qed.

Lemma findByWebhook_absent url subs :
  (forall r, In r subs -> webhookUrl r <> url) ->
  findByWebhook url subs = None.
Proof.
  intros H. unfold findByWebhook.
  destruct (find _ subs) as [r|] eqn:Hr; [|reflexivity].
  apply find_some in Hr as [Hin Heq]. apply String.eqb_eq in Heq.
  now apply H in Hin.
Qed.

(** Once the record of a URL is filtered out by its key, no record is left
    for the URL, when URLs identify records. *)
Lemma findByWebhook_deleted url subs sub :
  findByWebhook url subs = Some sub -> uniqueWebhooks subs ->
  findByWebhook url
    (filter (fun s => negb (userKey s =? userKey sub)) subs) = None.
Proof.
  intros Hfind Hnd. apply findByWebhook_Some in Hfind as [Hin Hurl].
  apply findByWebhook_absent. intros r Hr Heq.
  apply filter_In in Hr as [Hr Hk].
  assert (r = sub)
    by (apply (NoDup_map_injective webhookUrl _ r sub Hnd Hr Hin); congruence).
  subst r. now rewrite String.eqb_refl in Hk.
Qed.

(** An unsubscribe for one URL creates no record for another URL. *)
Lemma pruned_no_new_url ts sub remaining subs subs' url :
  pruned ts sub remaining subs = Some subs' ->
  findByWebhook url subs = None -> webhookUrl sub <> url ->
  findByWebhook url subs' = None.
Proof.
  unfold pruned. intros Hp Hnone Hneq. apply findByWebhook_absent.
  pose proof (@findByWebhook_None url subs Hnone) as Hall.
  destruct (Nat.eqb (List.length remaining) 0).
  - injection Hp as <-. intros r Hr. apply filter_In in Hr as [Hr _]. auto.
  - destruct (Js.findIndex _ subs); [|discriminate]. injection Hp as <-.
    intros r Hr. apply In_assign in Hr as [Hr | ->]; auto.
Qed.

Lemma pruned_emptied ts sub subs :
  pruned ts sub [] subs
  = Some (filter (fun s => negb (userKey s =? userKey sub)) subs).
Proof. reflexivity. Qed.

(** The deletion step, with a store that answers. *)
Lemma processUnsubscription_deletes E channels url sub w :
  readsSucceed E -> writesSucceed E ->
  findByWebhook url (stored w) = Some sub ->
  remainingOf channels sub = [] ->
  let run := Unsubscribe.processUnsubscription E channels url sub w in
  Unsubscribe.r_success (fst run) = true
  /\ Unsubscribe.r_remainingChannels (fst run) = Some []
  /\ stored (snd run)
     = filter (fun s => negb (userKey s =? userKey sub)) (stored w)
  /\ ~ In sub (stored (snd run))
  /\ (uniqueWebhooks (stored w) ->
      findByWebhook url (stored (snd run)) = None).
Proof.
  intros Hr Hw Hfind Hrem. cbv zeta.
  pose proof (findByWebhook_Some _ _ Hfind) as [Hin _].
  destruct (@processUnsubscription_reliable E channels url sub w Hr Hw Hin)
    as (Hok & Hleft & ts & Hp).
  rewrite Hrem in Hp, Hleft. rewrite pruned_emptied in Hp.
  injection Hp as Hp. rewrite <- Hp.
  repeat split; try assumption.
  - intros Hsub. apply filter_In in Hsub as [_ Hk].
    now rewrite String.eqb_refl in Hk.
  - intros Hnd. now apply findByWebhook_deleted.
Qed.

Lemma remainingOf_all sub : remainingOf (channelIds sub) sub = [].
Proof. now apply remainingOf_nil. Qed.

(** Unsubscribing everything through the route, with a store that answers
    and in which URLs identify records. *)
Lemma unsubscribe_all_handler E req url sub w :
  readsSucceed E -> writesSucceed E -> uniqueWebhooks (stored w) ->
  Unsubscribe.req_method req = "POST" ->
  Unsubscribe.req_webhookUrl req = Some url ->
  url <> "" -> Unsubscribe.isValidUrl E url = true ->
  Unsubscribe.req_allChannels req = Some true ->
  findByWebhook url (stored w) = Some sub ->
  let run := Unsubscribe.handler E req w in
  (exists main dual,
      fst run = (200, Unsubscribe.ResultBody main dual)
      /\ Unsubscribe.r_success main = true
      /\ Unsubscribe.r_unsubscribedChannels main = channelIds sub
      /\ Unsubscribe.r_remainingChannels main = Some [])
  /\ findByWebhook url (stored (snd run)) = None
  /\ fst (Unsubscribe.findSubscriptionByWebhook E url (snd run)) = None.
Proof.
  intros Hr Hw Hnd Hm Hu Hne Hvalid Hall Hfind. cbv zeta.
  assert (Hgoal :
    (exists main dual,
        fst (Unsubscribe.handler E req w)
        = (200, Unsubscribe.ResultBody main dual)
        /\ Unsubscribe.r_success main = true
        /\ Unsubscribe.r_unsubscribedChannels main = channelIds sub
        /\ Unsubscribe.r_remainingChannels main = Some [])
    /\ findByWebhook url (stored (snd (Unsubscribe.handler E req w))) = None).
  2:{ destruct Hgoal as [H1 H2]. split; [exact H1|]. split; [exact H2|].
      rewrite findSubscriptionByWebhook_eq', readBlob_reliable by assumption.
      exact H2. }
  unfold Unsubscribe.handler, bind, Unsubscribe.reject, ret.
  rewrite Hm, Hu, Hvalid. apply String.eqb_neq in Hne. rewrite Hne.
  cbn [String.eqb Ascii.eqb Bool.eqb negb orb].
  rewrite findSubscriptionByWebhook_eq', readBlob_reliable by assumption.
  rewrite Hfind. unfold Unsubscribe.channelsToUnsubscribe. rewrite Hall.
  destruct (@processUnsubscription_deletes E (channelIds sub) url sub
              (afterGet E w) Hr Hw Hfind (remainingOf_all sub))
    as (Hok & Hrem & Hstore & _ & Hgone).
  specialize (Hgone Hnd).
  destruct (processUnsubscription_run E (channelIds sub) url sub (afterGet E w))
    as (results & _ & Hshape).
  cbv zeta in Hshape.
  assert (Hunsub :
    Unsubscribe.r_unsubscribedChannels
      (fst (Unsubscribe.processUnsubscription E (channelIds sub) url sub
              (afterGet E w))) = channelIds sub).
  { rewrite Hshape. destruct (pruned _ _ _ _); [|reflexivity].
    now destruct (setOk E _). }
  clear Hshape.
  destruct (Unsubscribe.processUnsubscription E (channelIds sub) url sub
              (afterGet E w)) as [main w1].
  cbn [fst snd] in Hok, Hrem, Hgone, Hunsub.
  unfold Unsubscribe.unsubscribeCounterpart, bind, ret.
  destruct (Unsubscribe.counterpartOf url) as [counterpart|] eqn:Hcp;
    [|cbn [fst snd]; eauto 10].
  destruct (Js.truthy (Some counterpart)); [|cbn [fst snd]; eauto 10].
  rewrite findSubscriptionByWebhook_eq', readBlob_reliable by assumption.
  destruct (findByWebhook counterpart (stored w1)) as [csub|] eqn:Hc;
    [|cbn [fst snd]; eauto 10].
  pose proof (findByWebhook_Some _ _ Hc) as [Hcin Hcurl].
  set (chs := filter _ (channelIds sub)).
  destruct (@processUnsubscription_store E chs counterpart csub
              (afterGet E w1) Hr) as [(_ & _ & ts & Hp) | (_ & Hsame)];
    destruct (Unsubscribe.processUnsubscription E chs counterpart csub
                (afterGet E w1)) as [dual w2];
    cbn [fst snd] in *.
  - split; [eauto 10|].
    eapply pruned_no_new_url; [exact Hp|exact Hgone|].
    rewrite Hcurl. eapply counterpart_differs; eassumption.
  - split; [eauto 10|]. now rewrite Hsame.
Qed.

(** ** The claims about the store, and their instances *)

Lemma calm_reads : readsSucceed calmEnv.
Proof. intros n. reflexivity. Defined.

Lemma calm_writes : writesSucceed calmEnv.
Proof. intros n. reflexivity. Defined.

Lemma twoRecordWorld_uniqueKeys : uniqueKeys (stored twoRecordWorld).
Proof.
  unfold uniqueKeys. cbn. repeat constructor; cbn; intuition discriminate.
Defined.

Lemma twoRecordWorld_uniqueWebhooks : uniqueWebhooks (stored twoRecordWorld).
Proof.
  unfold uniqueWebhooks. cbn. repeat constructor; cbn; intuition discriminate.
Defined.


(** C2.  No route leaves a record without channels: a store whose records
    all have channels still is one after any subscribe request and after any
    unsubscribe request, in every environment.  With a store that answers,
    when the channels to remove cover the record, [processUnsubscription]
    writes the collection without the records of that user key instead of a
    record with an empty list, and when URLs identify records the lookup by
    the webhook URL then finds nothing.  In particular an unsubscribe request
    with [allChannels = true] for a URL that has a record is answered with
    success and leaves no record for that URL. *)
Theorem emptied_record_is_deleted E :
  (forall req w,
      noEmptyRecord (stored w) ->
      noEmptyRecord (stored (snd (Unsubscribe.handler E req w))))
  /\ (forall req w,
        noEmptyRecord (stored w) ->
        noEmptyRecord (stored (snd (Subscribe.handler E req w))))
  /\ (forall channels url sub w,
        readsSucceed E -> writesSucceed E ->
        findByWebhook url (stored w) = Some sub ->
        remainingOf channels sub = [] ->
        let run := Unsubscribe.processUnsubscription E channels url sub w in
        Unsubscribe.r_success (fst run) = true
        /\ Unsubscribe.r_remainingChannels (fst run) = Some []
        /\ stored (snd run)
           = filter (fun s => negb (userKey s =? userKey sub)) (stored w)
        /\ ~ In sub (stored (snd run))
        /\ (uniqueWebhooks (stored w) ->
            findByWebhook url (stored (snd run)) = None))
  /\ (forall req url sub w,
        readsSucceed E -> writesSucceed E -> uniqueWebhooks (stored w) ->
        Unsubscribe.req_method req = "POST" ->
        Unsubscribe.req_webhookUrl req = Some url ->
        url <> "" -> Unsubscribe.isValidUrl E url = true ->
        Unsubscribe.req_allChannels req = Some true ->
        findByWebhook url (stored w) = Some sub ->
        let run := Unsubscribe.handler E req w in
        (exists main dual,
            fst run = (200, Unsubscribe.ResultBody main dual)
            /\ Unsubscribe.r_success main = true
            /\ Unsubscribe.r_unsubscribedChannels main = channelIds sub
            /\ Unsubscribe.r_remainingChannels main = Some [])
        /\ findByWebhook url (stored (snd run)) = None
        /\ fst (Unsubscribe.findSubscriptionByWebhook E url (snd run))
           = None).
Proof.
  split; [|split; [|split]].
  - intros req w. apply unsubscribe_handler_noEmpty.
  - intros req w. apply subscribe_handler_noEmpty.
  - intros channels url sub w. apply processUnsubscription_deletes.
  - intros req url sub w. apply unsubscribe_all_handler.
Qed.

Lemma emptied_record_is_deleted_witness :
  let req :=
    Unsubscribe.mkRequest "POST" (Some "https://example.com/hook") None
                          (Some true) in
  findByWebhook "https://example.com/hook"
    (stored (snd (Unsubscribe.handler calmEnv req twoRecordWorld))) = None
  /\ fst (Unsubscribe.findSubscriptionByWebhook calmEnv
            "https://example.com/hook"
            (snd (Unsubscribe.handler calmEnv req twoRecordWorld))) = None.
Proof.
  cbv zeta.
  refine (proj2 (proj2 (proj2 (proj2 (emptied_record_is_deleted calmEnv)))
                   (Unsubscribe.mkRequest "POST" _ _ _)
                   "https://example.com/hook" hookRecord twoRecordWorld
                   calm_reads calm_writes twoRecordWorld_uniqueWebhooks
                   eq_refl eq_refl _ eq_refl eq_refl eq_refl)).
  discriminate.
Defined.

Lemma partial_unsubscribe_law_witness :
  let run :=
    Unsubscribe.processUnsubscription calmEnv ["UC_x5XG1OV2P6uZZ5FSM9Ttw"]
      "https://example.com/hook" hookRecord twoRecordWorld in
  Unsubscribe.r_success (fst run) = true
  /\ Unsubscribe.r_remainingChannels (fst run)
     = Some (remainingOf ["UC_x5XG1OV2P6uZZ5FSM9Ttw"] hookRecord).
Proof.
  cbv zeta.
  destruct (@partial_unsubscribe_law calmEnv ["UC_x5XG1OV2P6uZZ5FSM9Ttw"]
              "https://example.com/hook" hookRecord twoRecordWorld
              calm_reads calm_writes eq_refl)
    as (Hok & Hrem & _).
  - discriminate.
  - intros c [<- | []]. cbn. auto.
  - exists "UCsvqVGtbbyHaMoevxPAq9Fg". split; [cbn; auto|].
    intros [H | []]. discriminate.
  - exact (conj Hok Hrem).
Defined.

Lemma other_records_are_untouched_witness :
  let req :=
    Unsubscribe.mkRequest "POST" (Some "https://example.com/hook") None
                          (Some true) in
  others (touchedByUnsubscribe req)
         (stored (snd (Unsubscribe.handler calmEnv req twoRecordWorld)))
  = others (touchedByUnsubscribe req) (stored twoRecordWorld).
Proof.
  cbv zeta.
  exact (proj2 (@other_records_are_untouched calmEnv twoRecordWorld
                  calm_reads twoRecordWorld_uniqueKeys)
               (Unsubscribe.mkRequest "POST" (Some "https://example.com/hook")
                                      None (Some true))).
Defined.

(** ** Outside the hypotheses

    The statements about the store assume that Redis reads succeed and,
    for the frame, that user keys identify records.  Two runs show what the
    code does otherwise. *)

(** [getSubscriptions] answers a failed read with the empty collection, so
    when the read inside [addSubscription] fails and the write succeeds, the
    new record is written as the whole collection. *)
Example failed_read_overwrites_collection :
  let run :=
    Subscribe.processSubscription flakyReadEnv ["UC_x5XG1OV2P6uZZ5FSM9Ttw"]
      "https://new.example.net/hook" twoRecordWorld in
  Subscribe.r_success (fst run) = true
  /\ map webhookUrl (stored (snd run)) = ["https://new.example.net/hook"].
Proof. split; reflexivity. Qed.

(** [updateSubscription] replaces the first record with the key: when an
    earlier record of another URL has the same key, that record is the one
    replaced. *)
Example shared_key_replaces_other_record :
  let run :=
    Subscribe.processSubscription calmEnv ["UCabcdefghijklmnopqrstuv"]
      "https://example.com/hook" sharedKeyWorld in
  Subscribe.r_success (fst run) = true
  /\ map webhookUrl (stored sharedKeyWorld)
     = ["https://other.example.org/in"; "https://example.com/hook"]
  /\ map webhookUrl (stored (snd run))
     = ["https://example.com/hook"; "https://example.com/hook"].
Proof. repeat split; reflexivity. Qed.

(** ** Partial unsubscribe through the route *)

Lemma filter_all {A} (p : A -> bool) l :
  (forall x, In x l -> p x = true) -> filter p l = l.
Proof.
  induction l as [|a l IH]; intros H; [reflexivity|]. cbn.
  rewrite (H a (or_introl eq_refl)), IH; [reflexivity|].
  intros; apply H; now right.
Qed.

Lemma filter_none {A} (p : A -> bool) l :
  existsb p l = false -> filter p l = [].
Proof.
  induction l as [|a l IH]; cbn; [reflexivity|].
  destruct (p a); cbn; [discriminate|assumption].
Qed.

Lemma findByWebhook_others url urls subs :
  ~ In url urls ->
  findByWebhook url (others urls subs) = findByWebhook url subs.
Proof.
  intros Hurl. unfold findByWebhook, others.
  induction subs as [|r subs IH]; [reflexivity|]. cbn.
  destruct (Js.arr_includes urls (webhookUrl r)) eqn:Hin; cbn.
  - apply arr_includes_In in Hin.
    destruct (webhookUrl r =? url) eqn:Heq; [|assumption].
    apply String.eqb_eq in Heq. subst url. contradiction.
  - now rewrite IH.
Qed.

(** The selection of Step 5 for a well-formed list of channels of the
    record. *)
Lemma channelsToUnsubscribe_subset req url sub channels :
  Unsubscribe.req_allChannels req <> Some true ->
  Unsubscribe.req_channelIds req = Some channels ->
  hasInvalidChannelId channels = false ->
  channels <> [] ->
  (forall c, In c channels -> In c (channelIds sub)) ->
  Unsubscribe.channelsToUnsubscribe req url sub = inr channels.
Proof.
  intros Hall Hids Hvalid Hne Hsub. unfold Unsubscribe.channelsToUnsubscribe.
  rewrite Hids. unfold hasInvalidChannelId in Hvalid.
  rewrite (filter_none _ _ Hvalid).
  rewrite (filter_all (fun id => Js.arr_includes (channelIds sub) id) channels)
    by (intros; now apply arr_includes_In, Hsub).
  destruct channels as [|c channels]; [congruence|]. cbn.
  destruct (Unsubscribe.req_allChannels req) as [[|]|]; congruence.
Qed.

(** The partial-unsubscribe law for the whole route: the counterpart
    webhook, which is unsubscribed as well, has a record and a key of its
    own, so the record of the requested URL is the one the main step
    left. *)
Lemma partial_unsubscribe_handler E req url sub channels w :
  readsSucceed E -> writesSucceed E -> uniqueKeys (stored w) ->
  Unsubscribe.req_method req = "POST" ->
  Unsubscribe.req_webhookUrl req = Some url ->
  url <> "" -> Unsubscribe.isValidUrl E url = true ->
  Unsubscribe.req_allChannels req <> Some true ->
  Unsubscribe.req_channelIds req = Some channels ->
  hasInvalidChannelId channels = false ->
  findByWebhook url (stored w) = Some sub ->
  channels <> [] ->
  (forall c, In c channels -> In c (channelIds sub)) ->
  (exists c, In c (channelIds sub) /\ ~ In c channels) ->
  let run := Unsubscribe.handler E req w in
  exists main dual sub',
    fst run = (200, Unsubscribe.ResultBody main dual)
    /\ Unsubscribe.r_success main = true
    /\ Unsubscribe.r_remainingChannels main = Some (remainingOf channels sub)
    /\ findByWebhook url (stored (snd run)) = Some sub'
    /\ userKey sub' = userKey sub
    /\ channelIds sub' = remainingOf channels sub
    /\ channelIds sub' <> [].
Proof.
  intros Hr Hw Hnd Hm Hu Hne Hvalid Hall Hids Hfmt Hfind Hch Hsub
    (c & Hc & Hnc).
  cbv zeta.
  pose proof (findByWebhook_Some _ _ Hfind) as [Hin Hurl].
  assert (Hleft : remainingOf channels sub <> []).
  { intros Hnil. rewrite remainingOf_nil in Hnil. auto. }
  unfold Unsubscribe.handler, bind, Unsubscribe.reject, ret.
  rewrite Hm, Hu, Hvalid. apply String.eqb_neq in Hne. rewrite Hne.
  cbn [String.eqb Ascii.eqb Bool.eqb negb orb].
  rewrite findSubscriptionByWebhook_eq', readBlob_reliable by assumption.
  rewrite Hfind.
  rewrite (channelsToUnsubscribe_subset req url sub Hall Hids Hfmt Hch Hsub).
  destruct (@processUnsubscription_reliable E channels url sub (afterGet E w)
              Hr Hw Hin) as (Hok & Hrem & ts & Hp).
  destruct (@processUnsubscription_frame E channels url sub (afterGet E w)
              [url] Hr Hnd Hin) as [_ Hnd1].
  { rewrite Hurl. now left. }
  pose proof (@pruned_lookup ts url (stored w) sub
                (remainingOf channels sub) _ Hfind Hleft Hp) as Hlook.
  destruct (Unsubscribe.processUnsubscription E channels url sub
              (afterGet E w)) as [main w1].
  cbn [fst snd] in Hok, Hrem, Hp, Hnd1, Hlook.
  unfold Unsubscribe.unsubscribeCounterpart, bind, ret.
  destruct (Unsubscribe.counterpartOf url) as [counterpart|] eqn:Hcp;
    [|cbn [fst snd]; do 3 eexists; repeat (split; [eauto|]); cbn; auto].
  destruct (Js.truthy (Some counterpart));
    [|cbn [fst snd]; do 3 eexists; repeat (split; [eauto|]); cbn; auto].
  rewrite findSubscriptionByWebhook_eq', readBlob_reliable by assumption.
  destruct (findByWebhook counterpart (stored w1)) as [csub|] eqn:Hcs;
    [|cbn [fst snd]; do 3 eexists; repeat (split; [eauto|]); cbn; auto].
  pose proof (findByWebhook_Some _ _ Hcs) as [Hcin Hcurl].
  set (chs := filter _ channels).
  destruct (@processUnsubscription_frame E chs counterpart csub
              (afterGet E w1) [counterpart] Hr Hnd1 Hcin) as [Hframe _].
  { rewrite Hcurl. now left. }
  destruct (Unsubscribe.processUnsubscription E chs counterpart csub
              (afterGet E w1)) as [dual w2].
  cbn [fst snd] in Hframe |- *. rewrite stored_afterGet in Hframe.
  assert (Hnotin : ~ In url [counterpart]).
  { intros [Heq | []]. revert Heq.
    eapply counterpart_differs; eassumption. }
  do 3 eexists. do 3 (split; [eauto|]). split.
  - rewrite <- (@findByWebhook_others url [counterpart] (stored w2) Hnotin),
      Hframe, (@findByWebhook_others url [counterpart] (stored w1) Hnotin).
    exact Hlook.
  - cbn. auto.
Qed.

(** ** The remaining scenarios of the specification *)

(** Scenario C: a subscribe for a test webhook is mirrored to the production
    webhook, which gets a record and a user key of its own. *)
Example scenario_C :
  let req :=
    Subscribe.mkRequest "POST" (Some ["UC_x5XG1OV2P6uZZ5FSM9Ttw"])
                        (Some "https://n8n.example.com/webhook-test/yt") in
  let run := Subscribe.handler calmEnv req emptyWorld in
  fst run
  = (200,
     Subscribe.ResultBody
       (Subscribe.mkResult true (Some "93e8e13694904850")
          "Subscribed successfully" "https://n8n.example.com/webhook-test/yt"
          (Some ["UC_x5XG1OV2P6uZZ5FSM9Ttw"]) None None)
       (Some (Subscribe.mkDual "https://n8n.example.com/webhook/yt" true
                (Some "7ee0ea0804ebce99") "Subscribed successfully"
                (Some ["UC_x5XG1OV2P6uZZ5FSM9Ttw"]) None None)))
  /\ map (fun r => (userKey r, webhookUrl r, channelIds r)) (stored (snd run))
     = [("93e8e13694904850", "https://n8n.example.com/webhook-test/yt",
         ["UC_x5XG1OV2P6uZZ5FSM9Ttw"]);
        ("7ee0ea0804ebce99", "https://n8n.example.com/webhook/yt",
         ["UC_x5XG1OV2P6uZZ5FSM9Ttw"])].
Proof. split; reflexivity. Qed.

(** Scenario D: unsubscribing all channels of a webhook with one channel
    deletes its record. *)
Example scenario_D :
  let req :=
    Unsubscribe.mkRequest "POST" (Some "https://n8n.example.com/webhook/yt")
                          None (Some true) in
  let run := Unsubscribe.handler calmEnv req productionWorld in
  fst (fst run) = 200
  /\ stored (snd run) = []
  /\ fst (Unsubscribe.findSubscriptionByWebhook calmEnv
            "https://n8n.example.com/webhook/yt" (snd run)) = None.
Proof. repeat split; reflexivity. Qed.

(** Scenario E: a verification request without [hub.challenge]. *)
Example scenario_E :
  WebSub.handler calmEnv
    (WebSub.mkRequest "GET" "7ee0ea0804ebce99" (Some "subscribe")
       (Some "https://www.youtube.com/xml/feeds/videos.xml?channel_id=UC_x5XG1OV2P6uZZ5FSM9Ttw")
       None None "")
    productionWorld
  = ((400, WebSub.ErrorBody "Missing required verification parameters" None),
     productionWorld).
Proof. reflexivity. Qed.

(* ------------------------------------------------------------------ *)
(** * Further properties of the routes *)

(** ** Validation in the subscribe route *)

Lemma no_invalid_iff_all_valid (p : string -> bool) ids :
  Nat.ltb 0 (List.length (filter (fun id => negb (p id)) ids)) = false
  <-> forallb p ids = true.
Proof.
  induction ids as [|id ids IH]; cbn; [tauto|].
  destruct (p id); cbn; [exact IH|]. split; discriminate.
Qed.

Lemma test_url_has_production url :
  Subscribe.isTestWebhook url = true ->
  exists production,
    Subscribe.getProductionWebhookUrl url = Some production
    /\ Js.truthy (Some production) = true.
Proof.
  unfold Subscribe.isTestWebhook, Subscribe.getProductionWebhookUrl.
  destruct (url =? ""); [discriminate|]. cbn [negb andb]. intros Hinc.
  rewrite Hinc. eexists. split; [reflexivity|].
  destruct (replace_first_occurrence url Hinc) as (pre & post & _ & _ & -> & _).
  unfold Js.truthy. now rewrite rewritten_nonempty.
Qed.

(** What [handler] answers: 405, 400 or 200, and 200 exactly when the method
    is POST, the channel list is a non-empty list of well-formed IDs and the
    webhook URL is a non-empty well-formed URL, whatever the store and the
    hub do afterwards; every other request is rejected before any external
    call.  With status 200 the main result is the one of
    [processSubscription] for the requested URL, and a dual result is
    attached exactly for a test URL. *)
Lemma handler_rejects_before_any_call E req w :
  let run := Subscribe.handler E req w in
  let status := fst (fst run) in
  (status = 200 \/ status = 400 \/ status = 405)
  /\ (status <> 200 -> snd run = w)
  /\ (status = 200 <->
      Subscribe.req_method req = "POST"
      /\ exists ids url,
           Subscribe.req_channelIds req = Some ids /\ ids <> []
           /\ forallb Subscribe.isValidYouTubeChannelId ids = true
           /\ Subscribe.req_webhookUrl req = Some url /\ url <> ""
           /\ Subscribe.isValidUrl E url = true)
  /\ (forall ids url,
        status = 200 ->
        Subscribe.req_channelIds req = Some ids ->
        Subscribe.req_webhookUrl req = Some url ->
        exists dual,
          fst run
          = (200, Subscribe.ResultBody
                    (fst (Subscribe.processSubscription E ids url w)) dual)
          /\ isSome dual = Subscribe.isTestWebhook url).
Proof.
  cbv zeta. unfold Subscribe.handler.
  destruct (Subscribe.req_method req =? "POST") eqn:Hm; cbn [negb].
  2:{ apply String.eqb_neq in Hm. cbn.
      repeat split; auto; try discriminate; try tauto. }
  apply String.eqb_eq in Hm.
  destruct (Subscribe.req_channelIds req) as [[|id ids]|] eqn:Hids.
  1,3: cbn; repeat split; auto; try discriminate;
       intros (_ & ids' & url' & Heq & Hne & _); congruence.
  destruct (Nat.ltb 0 _) eqn:Hbad.
  { cbn. repeat split; auto; try discriminate.
    intros (_ & ids' & url' & Heq & _ & Hall & _). exfalso.
    injection Heq as <-. apply no_invalid_iff_all_valid in Hall. congruence. }
  apply no_invalid_iff_all_valid in Hbad.
  destruct (Subscribe.req_webhookUrl req) as [url|] eqn:Hurl.
  2:{ cbn. repeat split; auto; try discriminate.
      intros (_ & ids' & url' & _ & _ & _ & Heq & _). discriminate. }
  destruct (url =? "") eqn:Hempty; cbn [orb].
  { apply String.eqb_eq in Hempty. cbn. repeat split; auto; try discriminate.
    intros (_ & ids' & url' & _ & _ & _ & Heq & Hne & _). congruence. }
  destruct (Subscribe.isValidUrl E url) eqn:Hvalid; cbn [negb].
  2:{ cbn. repeat split; auto; try discriminate.
      intros (_ & ids' & url' & _ & _ & _ & Heq & _ & Hv). congruence. }
  apply String.eqb_neq in Hempty. unfold bind, ret.
  destruct (Subscribe.processSubscription E (id :: ids) url w)
    as [main w1] eqn:Hmain.
  assert (Hfinish : forall dual w2,
    isSome dual = Subscribe.isTestWebhook url ->
    (200 = 200 \/ 200 = 400 \/ 200 = 405)
    /\ (200 <> 200 -> w2 = w)
    /\ (200 = 200 <->
        Subscribe.req_method req = "POST"
        /\ exists ids0 url0,
             Some (id :: ids) = Some ids0 /\ ids0 <> []
             /\ forallb Subscribe.isValidYouTubeChannelId ids0 = true
             /\ Some url = Some url0 /\ url0 <> ""
             /\ Subscribe.isValidUrl E url0 = true)
    /\ (forall ids0 url0,
          200 = 200 ->
          Some (id :: ids) = Some ids0 ->
          Some url = Some url0 ->
          exists dual0,
            (200, Subscribe.ResultBody main dual)
            = (200, Subscribe.ResultBody
                      (fst (Subscribe.processSubscription E ids0 url0 w))
                      dual0)
            /\ isSome dual0 = Subscribe.isTestWebhook url0)).
  { intros dual w2 Hdual.
    split; [auto|]. split; [congruence|]. split.
    - split; [|reflexivity]. intros _. split; [assumption|].
      exists (id :: ids), url. repeat split; auto. discriminate.
    - intros ids0 url0 _ [= <-] [= <-]. exists dual. rewrite Hmain. auto. }
  destruct (Subscribe.isTestWebhook url) eqn:Htest.
  - destruct (test_url_has_production url Htest) as (p & Hp & Htruthy).
    rewrite Hp, Htruthy. cbn [andb].
    destruct (Subscribe.processSubscription E (id :: ids) p w1) as [a w2].
    cbn [fst snd]. apply Hfinish. reflexivity.
  - cbn [fst snd]. apply Hfinish. reflexivity.
Qed.

(** X1.  The subscribe route answers 200, 400, 405 or 500.  It answers 400
    and 405 before any external call (the world is unchanged).  It answers
    200 exactly when the method is POST, the channel list is a non-empty
    list of well-formed IDs and the webhook URL is a non-empty string that
    parses as a URL, whatever the store and the hub do afterwards; the main
    result is then the one of [processSubscription] for the requested URL,
    and a dual result is attached exactly for a test URL.  It answers 500
    exactly when, instead, the webhook URL is a truthy value that is not a
    string and that [new URL] accepts, such as an array with one URL: the
    route has then read the store once and made no other call, and the body
    carries the message of the exception. *)
Theorem subscribe_rejects_before_any_call E req w :
  let run := Subscribe.route E req w in
  let status := fst (fst run) in
  let validChannels ids :=
    Subscribe.jr_channelIds req = Some ids /\ ids <> []
    /\ forallb Subscribe.isValidYouTubeChannelId ids = true in
  (status = 200 \/ status = 400 \/ status = 405 \/ status = 500)
  /\ (status = 400 \/ status = 405 -> snd run = w)
  /\ (status = 200 <->
      Subscribe.jr_method req = "POST"
      /\ exists ids url,
           validChannels ids
           /\ Subscribe.jr_webhookUrl req = Subscribe.UrlText url
           /\ url <> "" /\ Subscribe.isValidUrl E url = true)
  /\ (status = 500 <->
      Subscribe.jr_method req = "POST"
      /\ exists ids shown refusal,
           validChannels ids
           /\ Subscribe.jr_webhookUrl req = Subscribe.UrlValue shown refusal
           /\ Subscribe.isValidUrl E shown = true)
  /\ (forall shown refusal,
        status = 500 ->
        Subscribe.jr_webhookUrl req = Subscribe.UrlValue shown refusal ->
        run = ((500, Subscribe.Unexpected refusal), afterGet E w))
  /\ (forall ids url,
        status = 200 ->
        Subscribe.jr_channelIds req = Some ids ->
        Subscribe.jr_webhookUrl req = Subscribe.UrlText url ->
        exists dual,
          fst run
          = (200, Subscribe.Answered
                    (Subscribe.ResultBody
                       (fst (Subscribe.processSubscription E ids url w))
                       dual))
          /\ isSome dual = Subscribe.isTestWebhook url).
Proof.
  cbv zeta. unfold Subscribe.route.
  destruct (Subscribe.jr_webhookUrl req) as [|url|shown refusal] eqn:Hfield.
  - (* no webhook URL *)
    pose proof (handler_rejects_before_any_call E
                  (Subscribe.mkRequest (Subscribe.jr_method req)
                     (Subscribe.jr_channelIds req) None) w) as H.
    cbv zeta in H. unfold bind, ret.
    destruct (Subscribe.handler E _ w) as [[code body] w1].
    cbn [fst snd Subscribe.req_method Subscribe.req_channelIds
         Subscribe.req_webhookUrl] in H |- *.
    destruct H as (Hcodes & Hreject & Hok & _).
    assert (Hnot : code <> 200).
    { intros Hc. apply Hok in Hc.
      destruct Hc as (_ & ids & url & _ & _ & _ & Habs & _). discriminate. }
    split; [tauto|]. split; [intros _; now apply Hreject|].
    split; [split; [contradiction|];
            intros (_ & ids & url & _ & Habs & _); discriminate|].
    split; [split; [intros ->; destruct Hcodes as [?|[?|?]]; discriminate|];
            intros (_ & ids & a & b & _ & Habs & _); discriminate|].
    split; [intros; discriminate|]. intros; discriminate.
  - (* a string *)
    pose proof (handler_rejects_before_any_call E
                  (Subscribe.mkRequest (Subscribe.jr_method req)
                     (Subscribe.jr_channelIds req) (Some url)) w) as H.
    cbv zeta in H. unfold bind, ret.
    destruct (Subscribe.handler E _ w) as [[code body] w1].
    cbn [fst snd Subscribe.req_method Subscribe.req_channelIds
         Subscribe.req_webhookUrl] in H |- *.
    destruct H as (Hcodes & Hreject & Hok & Hresult).
    split; [tauto|].
    split.
    { intros Hc. apply Hreject. destruct Hc as [-> | ->]; discriminate. }
    split.
    { rewrite Hok. split.
      - intros (Hm & ids & url' & Hids & Hne & Hfmt & [= <-] & Hu & Hv).
        split; [assumption|]. exists ids, url. auto 10.
      - intros (Hm & ids & url' & (Hids & Hne & Hfmt) & [= <-] & Hu & Hv).
        split; [assumption|]. exists ids, url. auto 10. }
    split.
    { split; [intros ->; destruct Hcodes as [?|[?|?]]; discriminate|].
      intros (_ & ids & a & b & _ & Habs & _). discriminate. }
    split; [intros; discriminate|].
    intros ids url' Hc Hids [= <-].
    destruct (Hresult ids url Hc Hids eq_refl) as (dual & Hbody & Hdual).
    exists dual. injection Hbody as -> ->. auto.
  - (* a truthy value that is not a string *)
    destruct (Subscribe.jr_method req =? "POST") eqn:Hm; cbn [negb].
    2:{ apply String.eqb_neq in Hm. unfold ret. cbn [fst snd].
        split; [auto|]. split; [reflexivity|].
        split; [split; [discriminate|intros (Hp & _); contradiction]|].
        split; [split; [discriminate|intros (Hp & _); contradiction]|].
        split; intros; discriminate. }
    apply String.eqb_eq in Hm.
    destruct (Subscribe.jr_channelIds req) as [[|id ids]|] eqn:Hids.
    1,3: unfold ret; cbn [fst snd];
         (split; [auto|]); (split; [reflexivity|]);
         (split; [split; [discriminate|];
                  intros (_ & ids' & url' & (Heq & Hne & _) & _); congruence|]);
         (split; [split; [discriminate|];
                  intros (_ & ids' & a & b & (Heq & Hne & _) & _); congruence|]);
         split; intros; discriminate.
    destruct (Nat.ltb 0 _) eqn:Hbad.
    { unfold ret. cbn [fst snd].
      split; [auto|]. split; [reflexivity|].
      split; [split; [discriminate|];
              intros (_ & ids' & url' & _ & Habs & _); discriminate|].
      split; [split; [discriminate|]|split; intros; discriminate].
      intros (_ & ids' & a & b & (Heq & _ & Hall) & _). exfalso.
      injection Heq as <-. apply no_invalid_iff_all_valid in Hall.
      congruence. }
    apply no_invalid_iff_all_valid in Hbad.
    destruct (Subscribe.isValidUrl E shown) eqn:Hvalid; cbn [negb].
    + unfold bind, ret. rewrite getSubscriptions_eq. cbn [fst snd].
      split; [auto 6|].
      split; [intros [H|H]; discriminate|].
      split; [split; [discriminate|];
              intros (_ & ids' & url' & _ & Habs & _); discriminate|].
      split.
      { split; [|reflexivity]. intros _. split; [assumption|].
        exists (id :: ids), shown, refusal.
        repeat split; auto. discriminate. }
      split; [|intros; discriminate].
      intros shown' refusal' _ [= <- <-]. reflexivity.
    + unfold ret. cbn [fst snd].
      split; [auto|]. split; [reflexivity|].
      split; [split; [discriminate|];
              intros (_ & ids' & url' & _ & Habs & _); discriminate|].
      split; [split; [discriminate|]|split; intros; discriminate].
      intros (_ & ids' & a & b & _ & [= <- <-] & Hv). congruence.
Qed.

(** An array that holds one URL, whatever the message of the exception: the
    request is answered with 500 after one store read, and the store is as it
    was. *)
Example array_url_is_answered_500 refusal :
  Subscribe.route calmEnv
    (Subscribe.mkJsonRequest "POST" (Some ["UC_x5XG1OV2P6uZZ5FSM9Ttw"])
       (Subscribe.UrlValue "https://a.b/c" refusal))
    twoRecordWorld
  = ((500, Subscribe.Unexpected refusal), afterGet calmEnv twoRecordWorld).
Proof. reflexivity. Qed.


(** ** Rejections in the unsubscribe route *)

Lemma reject_status f w :
  let run := Unsubscribe.reject f w in
  snd run = w
  /\ fst (fst run) = Unsubscribe.status f
  /\ fst (fst run) <> 200.
Proof.
  cbn. repeat split. destruct f; cbn; discriminate.
Qed.

(** X2.  The unsubscribe route answers 405, 400, 404 or 200.  A request that
    is not answered with 200 never writes to the store and never calls the
    hub: the world is unchanged, or has only gained the one store read of the
    record lookup.  The answer is 404 exactly when the method is POST, the
    webhook URL is well formed and the lookup finds no record for it; with
    status 200 the main result is the one of [processUnsubscription] for the
    record found and the channels selected. *)
Theorem unsubscribe_rejection_leaves_store E req w :
  let run := Unsubscribe.handler E req w in
  let status := fst (fst run) in
  (status = 200 \/ status = 400 \/ status = 404 \/ status = 405)
  /\ (status <> 200 -> snd run = w \/ snd run = afterGet E w)
  /\ (status = 404 <->
      Unsubscribe.req_method req = "POST"
      /\ exists url,
           Unsubscribe.req_webhookUrl req = Some url /\ url <> ""
           /\ Unsubscribe.isValidUrl E url = true
           /\ findByWebhook url (readBlob E w) = None)
  /\ (status = 200 ->
      exists url sub channels dual,
        Unsubscribe.req_webhookUrl req = Some url
        /\ findByWebhook url (readBlob E w) = Some sub
        /\ Unsubscribe.channelsToUnsubscribe req url sub = inr channels
        /\ fst run
           = (200, Unsubscribe.ResultBody
                     (fst (Unsubscribe.processUnsubscription E channels url
                             sub (afterGet E w)))
                     dual)).
Proof.
  cbv zeta. unfold Unsubscribe.handler.
  destruct (Unsubscribe.req_method req =? "POST") eqn:Hm; cbn [negb].
  2:{ apply String.eqb_neq in Hm. cbn.
      repeat split; auto; try discriminate; tauto. }
  apply String.eqb_eq in Hm.
  destruct (Unsubscribe.req_webhookUrl req) as [url|] eqn:Hurl.
  2:{ cbn. repeat split; auto; try discriminate.
      intros (_ & url' & Heq & _). discriminate. }
  destruct (url =? "") eqn:Hempty; cbn [orb].
  { apply String.eqb_eq in Hempty. cbn. repeat split; auto; try discriminate.
    intros (_ & url' & Heq & Hne & _). congruence. }
  destruct (Unsubscribe.isValidUrl E url) eqn:Hvalid; cbn [negb].
  2:{ cbn. repeat split; auto; try discriminate.
      intros (_ & url' & Heq & _ & Hv & _). congruence. }
  apply String.eqb_neq in Hempty.
  unfold bind. rewrite findSubscriptionByWebhook_eq'.
  destruct (findByWebhook url (readBlob E w)) as [sub|] eqn:Hfind.
  2:{ cbn. split; [auto|]. split; [auto|]. split; [|discriminate].
      split; [|reflexivity]. intros _. split; [assumption|].
      exists url. auto. }
  assert (Hnot404 :
    Unsubscribe.req_method req = "POST"
    /\ (exists url0,
           Some url = Some url0 /\ url0 <> ""
           /\ Unsubscribe.isValidUrl E url0 = true
           /\ findByWebhook url0 (readBlob E w) = None) -> False).
  { intros (_ & url0 & [= <-] & _ & _ & Hnone). congruence. }
  destruct (Unsubscribe.channelsToUnsubscribe req url sub)
    as [failure|channels] eqn:Hsel.
  { assert (Hf : Unsubscribe.status failure = 400).
    { unfold Unsubscribe.channelsToUnsubscribe in Hsel.
      destruct (Unsubscribe.req_allChannels req) as [[|]|];
        try discriminate;
        destruct (Unsubscribe.req_channelIds req) as [[|c cs]|];
        try (injection Hsel as <-; reflexivity);
        destruct (Nat.ltb 0 _); try (injection Hsel as <-; reflexivity);
        destruct (Nat.eqb _ 0); try discriminate;
        injection Hsel as <-; reflexivity. }
    cbn. rewrite Hf. split; [auto|]. split; [auto|].
    split; [|discriminate]. split; [discriminate|]. intros H. now exfalso. }
  destruct (Unsubscribe.processUnsubscription E channels url sub
              (afterGet E w)) as [main w1] eqn:Hmain.
  assert (Hdual :
    exists dual w2,
      Unsubscribe.unsubscribeCounterpart E channels
        (Unsubscribe.counterpartOf url) w1 = (dual, w2)).
  { destruct (Unsubscribe.unsubscribeCounterpart E channels
                (Unsubscribe.counterpartOf url) w1); eauto. }
  destruct Hdual as (dual & w2 & ->). unfold ret. cbn [fst snd].
  split; [auto|]. split; [congruence|]. split.
  - split; [discriminate|]. intros H. now exfalso.
  - intros _. exists url, sub, channels, dual. rewrite Hmain. auto.
Qed.

(** ** Stored channel IDs are well formed *)

Lemma readBlob_wellFormed E w :
  wellFormedRecords (stored w) -> wellFormedRecords (readBlob E w).
Proof.
  unfold readBlob. destruct (redisGetFault E (step w)); [constructor|auto].
Qed.

Lemma found_wellFormed url subs e :
  wellFormedRecords subs -> findByWebhook url subs = Some e ->
  forallb Subscribe.isValidYouTubeChannelId (channelIds e) = true.
Proof.
  intros Hs He. apply findByWebhook_Some in He as [Hin _].
  unfold wellFormedRecords in Hs. rewrite Forall_forall in Hs. auto.
Qed.

Lemma upserted_wellFormed E ts ids url ex subs subs' :
  wellFormedRecords subs ->
  forallb Subscribe.isValidYouTubeChannelId ids = true ->
  (forall e, ex = Some e ->
             forallb Subscribe.isValidYouTubeChannelId (channelIds e) = true) ->
  upserted E ts ids url ex subs = Some subs' ->
  wellFormedRecords subs'.
Proof.
  unfold upserted, wellFormedRecords. intros Hs Hids Hex Hup.
  destruct ex as [e|].
  - destruct (Js.findIndex _ subs); [|discriminate]. injection Hup as <-.
    apply Forall_assign; [assumption|]. cbn.
    apply forallb_forall. intros c Hc.
    apply setOf_In, in_app_iff in Hc as [Hc | Hc].
    + specialize (Hex e eq_refl). rewrite forallb_forall in Hex. auto.
    + apply filter_In in Hc as [Hc _]. rewrite forallb_forall in Hids. auto.
  - injection Hup as <-. apply Forall_app. split; [assumption|].
    repeat constructor. assumption.
Qed.

Lemma pruned_wellFormed ts sub channels subs subs' :
  wellFormedRecords subs ->
  forallb Subscribe.isValidYouTubeChannelId (channelIds sub) = true ->
  pruned ts sub (remainingOf channels sub) subs = Some subs' ->
  wellFormedRecords subs'.
Proof.
  unfold pruned, wellFormedRecords. intros Hs Hsub Hp.
  destruct (Nat.eqb _ 0).
  - injection Hp as <-. now apply Forall_filter.
  - destruct (Js.findIndex _ subs); [|discriminate]. injection Hp as <-.
    apply Forall_assign; [assumption|]. cbn.
    apply forallb_forall. intros c Hc. apply remainingOf_In in Hc as [Hc _].
    rewrite forallb_forall in Hsub. auto.
Qed.

Lemma processSubscription_wellFormed E ids url w :
  forallb Subscribe.isValidYouTubeChannelId ids = true ->
  wellFormedRecords (stored w) ->
  wellFormedRecords
    (stored (snd (Subscribe.processSubscription E ids url w))).
Proof.
  intros Hids Hs.
  pose proof (processSubscription_run E ids url w) as Hrun. cbv zeta in Hrun.
  destruct (upserted _ _ _ _ _ _) as [subs'|] eqn:Hup.
  - assert (Hs' : wellFormedRecords subs').
    { eapply upserted_wellFormed; [| | |exact Hup].
      - apply readBlob_wellFormed. exact Hs.
      - exact Hids.
      - intros e He. eapply found_wellFormed; [|exact He].
        now apply readBlob_wellFormed. }
    destruct (setOk E (afterGet E (afterGet E w))) eqn:Hok.
    + destruct Hrun as (rs1 & rs2 & -> & _ & _). cbn [snd].
      now rewrite stored_extend, stored_afterSet, Hok.
    + rewrite Hrun. cbn [snd]. now rewrite stored_afterSet, Hok.
  - rewrite Hrun. exact Hs.
Qed.

Lemma processUnsubscription_wellFormed E channels url sub w :
  wellFormedRecords (stored w) ->
  forallb Subscribe.isValidYouTubeChannelId (channelIds sub) = true ->
  wellFormedRecords
    (stored (snd (Unsubscribe.processUnsubscription E channels url sub w))).
Proof.
  intros Hs Hsub.
  destruct (processUnsubscription_run E channels url sub w)
    as (results & _ & Hrun).
  cbv zeta in Hrun. rewrite Hrun. clear Hrun.
  set (w1 := extend w _).
  assert (Hs1 : wellFormedRecords (stored w1)) by exact Hs.
  destruct (pruned _ _ _ _) as [subs'|] eqn:Hp; [|exact Hs1].
  cbn [snd]. rewrite stored_afterSet.
  destruct (setOk E _); [|exact Hs1].
  eapply pruned_wellFormed; [|exact Hsub|exact Hp].
  now apply readBlob_wellFormed.
Qed.

(** X3.  Both routes keep the stored channel IDs well formed: when every
    channel ID of every stored record passes the format check (starts with
    [UC], 24 characters), this still holds after any subscribe request and
    after any unsubscribe request, in every environment. *)
Theorem stored_channel_ids_stay_well_formed E w :
  wellFormedRecords (stored w) ->
  (forall req,
      wellFormedRecords (stored (snd (Subscribe.handler E req w))))
  /\ (forall req,
        wellFormedRecords (stored (snd (Unsubscribe.handler E req w)))).
Proof.
  intros Hs. split; intros req.
  - unfold Subscribe.handler.
    destruct (negb (Subscribe.req_method req =? "POST")); [exact Hs|].
    destruct (Subscribe.req_channelIds req) as [[|id ids]|]; try exact Hs.
    destruct (Nat.ltb 0 _) eqn:Hbad; [exact Hs|].
    apply no_invalid_iff_all_valid in Hbad.
    destruct (Subscribe.req_webhookUrl req) as [url|]; [|exact Hs].
    destruct ((url =? "") || negb (Subscribe.isValidUrl E url)); [exact Hs|].
    unfold bind, ret.
    pose proof (@processSubscription_wellFormed E (id :: ids) url w Hbad Hs)
      as Hs1.
    destruct (Subscribe.processSubscription E (id :: ids) url w) as [main w1].
    cbn [snd] in Hs1.
    destruct (if Subscribe.isTestWebhook url
              then Subscribe.getProductionWebhookUrl url else None)
      as [production|]; [|exact Hs1].
    destruct (Subscribe.isTestWebhook url && Js.truthy (Some production));
      [|exact Hs1].
    pose proof (@processSubscription_wellFormed E (id :: ids) production w1
                  Hbad Hs1) as Hs2.
    now destruct (Subscribe.processSubscription E (id :: ids) production w1).
  - unfold Unsubscribe.handler, Unsubscribe.reject.
    destruct (negb (Unsubscribe.req_method req =? "POST")); [exact Hs|].
    destruct (Unsubscribe.req_webhookUrl req) as [url|]; [|exact Hs].
    destruct ((url =? "") || negb (Unsubscribe.isValidUrl E url));
      [exact Hs|].
    unfold bind, ret. rewrite findSubscriptionByWebhook_eq'.
    destruct (findByWebhook url (readBlob E w)) as [sub|] eqn:Hfind;
      [|exact Hs].
    destruct (Unsubscribe.channelsToUnsubscribe req url sub) as [f|channels];
      [exact Hs|].
    assert (Hsub : forallb Subscribe.isValidYouTubeChannelId (channelIds sub)
                   = true).
    { eapply found_wellFormed; [|exact Hfind]. now apply readBlob_wellFormed. }
    pose proof (@processUnsubscription_wellFormed E channels url sub
                  (afterGet E w) Hs Hsub) as Hs1.
    destruct (Unsubscribe.processUnsubscription E channels url sub
                (afterGet E w)) as [main w1].
    cbn [snd] in Hs1.
    unfold Unsubscribe.unsubscribeCounterpart, bind, ret.
    destruct (Unsubscribe.counterpartOf url) as [counterpart|]; [|exact Hs1].
    destruct (Js.truthy (Some counterpart)); [|exact Hs1].
    rewrite findSubscriptionByWebhook_eq'.
    destruct (findByWebhook counterpart (readBlob E w1)) as [csub|] eqn:Hc;
      [|exact Hs1].
    assert (Hcsub : forallb Subscribe.isValidYouTubeChannelId
                            (channelIds csub) = true).
    { eapply found_wellFormed; [|exact Hc]. now apply readBlob_wellFormed. }
    set (chs := filter _ channels).
    pose proof (@processUnsubscription_wellFormed E chs counterpart csub
                  (afterGet E w1) Hs1 Hcsub) as Hs2.
    now destruct (Unsubscribe.processUnsubscription E chs counterpart csub
                    (afterGet E w1)).
Qed.

Lemma twoRecordWorld_wellFormed : wellFormedRecords (stored twoRecordWorld).
Proof. repeat constructor. Defined.

Lemma stored_channel_ids_stay_well_formed_witness :
  wellFormedRecords
    (stored (snd (Subscribe.handler calmEnv
                    (Subscribe.mkRequest "POST"
                       (Some ["UCabcdefghijklmnopqrstuv"])
                       (Some "https://example.com/hook"))
                    twoRecordWorld))).
Proof.
  exact (proj1 (@stored_channel_ids_stay_well_formed calmEnv twoRecordWorld
                  twoRecordWorld_wellFormed)
               (Subscribe.mkRequest "POST" (Some ["UCabcdefghijklmnopqrstuv"])
                                    (Some "https://example.com/hook"))).
Defined.

(** ** What a subscribe leaves in the store *)

Lemma processSubscription_outcome E ids url w :
  readsSucceed E ->
  let run := Subscribe.processSubscription E ids url w in
  let ex := findByWebhook url (stored w) in
  (Subscribe.r_success (fst run) = true
   /\ Subscribe.r_userKey (fst run) = Some (keyOf E ex url)
   /\ Subscribe.r_newlySubscribedChannels (fst run)
      = whenNonEmpty (newlyOf ex ids)
   /\ Subscribe.r_resubscribedChannels (fst run)
      = whenNonEmpty (renewedOf ex ids)
   /\ exists ts, upserted E ts ids url ex (stored w) = Some (stored (snd run)))
  \/ (Subscribe.r_success (fst run) = false /\ stored (snd run) = stored w).
Proof.
  intros Hr. cbv zeta.
  pose proof (processSubscription_run E ids url w) as Hrun. cbv zeta in Hrun.
  rewrite !readBlob_reliable, stored_afterGet in Hrun by assumption.
  destruct (upserted _ _ _ _ _ _) as [subs'|] eqn:Hup.
  - destruct (setOk E (afterGet E (afterGet E w))) eqn:Hok.
    + destruct Hrun as (rs1 & rs2 & -> & _ & _). cbn [fst snd].
      rewrite stored_extend, stored_afterSet, Hok. left. cbn. eauto 10.
    + rewrite Hrun. cbn [fst snd]. rewrite stored_afterSet, Hok. now right.
  - rewrite Hrun. now right.
Qed.

(** X4.  With a store that can be read, a subscribe does not lose the record
    of the URL it is called for, nor a channel of that record: when that URL
    had a record, it has one afterwards with the same user key and with every
    channel it had, whether or not the write succeeded.  When the subscribe
    succeeds, the lookup by that URL returns a record that has the returned
    user key and every requested channel.  Nothing is said of the records of
    other URLs: one that shares the user key can be replaced, as
    [shared_key_replaces_other_record] shows. *)
Theorem subscribe_keeps_and_adds_channels E ids url w :
  readsSucceed E ->
  let run := Subscribe.processSubscription E ids url w in
  (forall e,
      findByWebhook url (stored w) = Some e ->
      exists e',
        findByWebhook url (stored (snd run)) = Some e'
        /\ userKey e' = userKey e
        /\ webhookUrl e' = url
        /\ (forall c, In c (channelIds e) -> In c (channelIds e')))
  /\ (Subscribe.r_success (fst run) = true ->
      exists e',
        fst (Subscribe.findSubscriptionByWebhook E url (snd run)) = Some e'
        /\ Subscribe.r_userKey (fst run) = Some (userKey e')
        /\ webhookUrl e' = url
        /\ (forall c, In c ids -> In c (channelIds e'))).
Proof.
  intros Hr. cbv zeta.
  rewrite findSubscriptionByWebhook_eq, readBlob_reliable by assumption.
  cbn [fst].
  destruct (processSubscription_outcome ids url w Hr)
    as [(Hok & Hkey & _ & _ & ts & Hup) | (Hfail & Hsame)].
  - destruct (upserted_lookup _ _ _ _ _ Hup) as (e' & He' & Hk & Hu & Hch).
    split.
    + intros e He. exists e'. rewrite He in Hk, Hch. cbn in Hk.
      repeat split; auto. intros c Hc. rewrite Hch.
      apply setOf_In, in_or_app. now left.
    + intros _. exists e'. rewrite Hkey, Hk. repeat split; auto.
      eapply upserted_covers; eassumption.
  - rewrite Hsame, Hfail. split; [|discriminate].
    intros e He. exists e. apply findByWebhook_Some in He as Hurl.
    destruct Hurl as [_ Hurl]. auto.
Qed.

Lemma subscribe_keeps_and_adds_channels_witness :
  let run :=
    Subscribe.processSubscription calmEnv ["UCabcdefghijklmnopqrstuv"]
      "https://example.com/hook" twoRecordWorld in
  exists e',
    fst (Subscribe.findSubscriptionByWebhook calmEnv
           "https://example.com/hook" (snd run)) = Some e'
    /\ Subscribe.r_userKey (fst run) = Some (userKey e')
    /\ webhookUrl e' = "https://example.com/hook"
    /\ (forall c, In c ["UCabcdefghijklmnopqrstuv"] -> In c (channelIds e')).
Proof.
  cbv zeta.
  apply (proj2 (@subscribe_keeps_and_adds_channels calmEnv
                  ["UCabcdefghijklmnopqrstuv"] "https://example.com/hook"
                  twoRecordWorld calm_reads)).
  reflexivity.
Defined.

(** ** How a subscribe classifies the requested channels *)





(** ** The order of the merged channel list *)

Lemma setOf_acc_distinct arr seen :
  NoDup (seen ++ arr) ->
  fold_left (fun seen x => if Js.arr_includes seen x then seen
                           else seen ++ [x]) arr seen
  = seen ++ arr.
Proof.
  revert seen; induction arr as [|x arr IH]; intros seen Hnd; cbn.
  - now rewrite app_nil_r.
  - assert (Hx : Js.arr_includes seen x = false).
    { apply arr_includes_not_In. intros Hin.
      apply NoDup_remove_2 in Hnd. apply Hnd, in_or_app. now left. }
    rewrite Hx, IH; rewrite <- app_assoc; [reflexivity|exact Hnd].
Qed.

Lemma setOf_acc_prefix arr seen :
  exists extra,
    fold_left (fun seen x => if Js.arr_includes seen x then seen
                             else seen ++ [x]) arr seen
    = seen ++ extra.
Proof.
  revert seen; induction arr as [|x arr IH]; intros seen; cbn.
  - exists []. now rewrite app_nil_r.
  - destruct (Js.arr_includes seen x); [apply IH|].
    destruct (IH (seen ++ [x])) as (extra & ->).
    exists (x :: extra). now rewrite <- app_assoc.
Qed.

(** A list without duplicates stays in front when more is merged in. *)
Lemma setOf_app_prefix old more :
  NoDup old -> exists extra, Js.setOf (old ++ more) = old ++ extra.
Proof.
  intros Hnd. unfold Js.setOf. rewrite fold_left_app.
  rewrite (setOf_acc_distinct old []) by exact Hnd. cbn.
  apply setOf_acc_prefix.
Qed.

(** X6.  When a successful subscribe updates a record whose channel list has
    no duplicates, the new channel list is the old list, in its order,
    followed by the requested channels that the record did not have; it has
    no duplicates. *)
Theorem subscribe_appends_new_channels E ids url w e :
  readsSucceed E ->
  findByWebhook url (stored w) = Some e ->
  NoDup (channelIds e) ->
  Subscribe.r_success (fst (Subscribe.processSubscription E ids url w))
  = true ->
  exists e' extra,
    findByWebhook url
      (stored (snd (Subscribe.processSubscription E ids url w))) = Some e'
    /\ channelIds e' = channelIds e ++ extra
    /\ NoDup (channelIds e')
    /\ (forall c, In c extra <-> In c ids /\ ~ In c (channelIds e)).
Proof.
  intros Hr Hfind Hnd Hok.
  destruct (processSubscription_outcome ids url w Hr)
    as [(_ & _ & _ & _ & ts & Hup) | (Hfail & _)]; [|congruence].
  destruct (upserted_lookup _ _ _ _ _ Hup) as (e' & He' & _ & _ & Hch).
  rewrite Hfind in Hch.
  destruct (setOf_app_prefix (newlyOf (Some e) ids) Hnd) as (extra & Hextra).
  exists e', extra.
  assert (Hnd' : NoDup (channelIds e'))
    by (rewrite Hch; apply setOf_NoDup).
  split; [assumption|]. split; [congruence|]. split; [assumption|].
  intros c.
  assert (Hmem : In c (channelIds e')
                 <-> In c (channelIds e)
                     \/ (In c ids /\ ~ In c (channelIds e))).
  { rewrite Hch, setOf_In, in_app_iff. cbn [newlyOf].
    rewrite filter_In, negb_true_iff, arr_includes_not_In. tauto. }
  rewrite Hch, Hextra in Hnd', Hmem. rewrite in_app_iff in Hmem.
  split.
  - intros Hc. destruct (proj1 Hmem (or_intror Hc)) as [Hold | Hnew];
      [|assumption].
    exfalso. revert Hold Hc. clear -Hnd'.
    induction (channelIds e) as [|a l IH]; cbn; [tauto|].
    inversion Hnd' as [|? ? Hnotin Hrest]; subst.
    intros [-> | Hold] Hc; [|now apply IH].
    apply Hnotin, in_or_app. now right.
  - intros [Hin Hnot]. destruct (proj2 Hmem (or_intror (conj Hin Hnot)));
      [contradiction|assumption].
Qed.

Lemma subscribe_appends_new_channels_witness :
  exists e' extra,
    findByWebhook "https://example.com/hook"
      (stored (snd (Subscribe.processSubscription calmEnv
                      ["UCabcdefghijklmnopqrstuv"; "UC_x5XG1OV2P6uZZ5FSM9Ttw"]
                      "https://example.com/hook" twoRecordWorld)))
    = Some e'
    /\ channelIds e' = channelIds hookRecord ++ extra
    /\ NoDup (channelIds e')
    /\ (forall c,
          In c extra
          <-> In c ["UCabcdefghijklmnopqrstuv"; "UC_x5XG1OV2P6uZZ5FSM9Ttw"]
              /\ ~ In c (channelIds hookRecord)).
Proof.
  apply (@subscribe_appends_new_channels calmEnv
           ["UCabcdefghijklmnopqrstuv"; "UC_x5XG1OV2P6uZZ5FSM9Ttw"]
           "https://example.com/hook" twoRecordWorld hookRecord calm_reads
           eq_refl).
  - cbn. repeat constructor; cbn; intuition discriminate.
  - reflexivity.
Defined.

(** ** Subscribe and unsubscribe compose *)

(** X7.  With a store that answers, subscribing a webhook URL that has no
    record, under a generated key that no stored record has, and then
    unsubscribing all channels of the record created, gives back the stored
    collection as it was before the two operations. *)
Theorem subscribe_then_unsubscribe_all_restores E ids url w :
  readsSucceed E -> writesSucceed E ->
  findByWebhook url (stored w) = None ->
  (forall r, In r (stored w) ->
             userKey r <> PubSubHubbub.generateUserKey E url) ->
  let run1 := Subscribe.processSubscription E ids url w in
  exists e,
    findByWebhook url (stored (snd run1)) = Some e
    /\ channelIds e = ids
    /\ userKey e = PubSubHubbub.generateUserKey E url
    /\ let run2 :=
         Unsubscribe.processUnsubscription E (channelIds e) url e (snd run1)
       in
       Unsubscribe.r_success (fst run2) = true
       /\ stored (snd run2) = stored w.
Proof.
  intros Hr Hw Hnone Hfresh. cbv zeta.
  destruct (processSubscription_reliable ids url w Hr Hw)
    as (ts & subs1 & rr & w1 & Hup & Hrun & Hs1).
  rewrite Hrun. cbn [snd]. rewrite Hs1.
  destruct (upserted_lookup _ _ _ _ _ Hup) as (e & He & Hk & _ & Hch).
  rewrite Hnone in Hup, Hk, Hch. cbn in Hup, Hk. injection Hup as Hup.
  exists e. do 3 (split; [assumption|]).
  assert (He1 : findByWebhook url (stored w1) = Some e) by now rewrite Hs1.
  destruct (@processUnsubscription_deletes E (channelIds e) url e w1 Hr Hw
              He1 (remainingOf_all e)) as (Hok & _ & Hstore & _).
  split; [assumption|]. rewrite Hstore, Hs1, <- Hup, filter_app. cbn.
  rewrite Hk, String.eqb_refl. cbn. rewrite app_nil_r.
  apply filter_all. intros r Hin. apply negb_true_iff, String.eqb_neq.
  now apply Hfresh.
Qed.

Lemma subscribe_then_unsubscribe_all_restores_witness :
  let run1 :=
    Subscribe.processSubscription calmEnv ["UCabcdefghijklmnopqrstuv"]
      "https://fresh.example.net/in" twoRecordWorld in
  exists e,
    findByWebhook "https://fresh.example.net/in" (stored (snd run1)) = Some e
    /\ channelIds e = ["UCabcdefghijklmnopqrstuv"]
    /\ userKey e
       = PubSubHubbub.generateUserKey calmEnv "https://fresh.example.net/in"
    /\ let run2 :=
         Unsubscribe.processUnsubscription calmEnv (channelIds e)
           "https://fresh.example.net/in" e (snd run1) in
       Unsubscribe.r_success (fst run2) = true
       /\ stored (snd run2) = stored twoRecordWorld.
Proof.
  apply (@subscribe_then_unsubscribe_all_restores calmEnv
           ["UCabcdefghijklmnopqrstuv"] "https://fresh.example.net/in"
           twoRecordWorld calm_reads calm_writes eq_refl).
  intros r [<- | [<- | []]]; vm_compute; discriminate.
Defined.

(** ** The hub calls of an unsubscribe *)

(** X8.  In every environment [processUnsubscription] first calls the hub
    once for every channel to remove, in order and with the callback of the
    record's user key, and only then the store; all hub results are returned,
    in the failure result as well, and no hub outcome changes [success],
    which is true exactly when the store write was done.  The remaining
    channels are reported on success only. *)
Theorem unsubscribe_calls_hub_then_store E channels url sub w :
  let run := Unsubscribe.processUnsubscription E channels url sub w in
  let r := fst run in
  let evs := since w (snd run) in
  Unsubscribe.r_unsubscribedChannels r = channels
  /\ map PubSubHubbub.channelId (Unsubscribe.r_unsubscriptionResults r)
     = channels
  /\ (exists storeCalls,
        evs = map (unsubscribeEvent (userKey sub))
                  (Unsubscribe.r_unsubscriptionResults r)
              ++ storeCalls
        /\ hubCalls storeCalls = [])
  /\ Unsubscribe.r_success r = existsb isWriteDone evs
  /\ Unsubscribe.r_remainingChannels r
     = if Unsubscribe.r_success r then Some (remainingOf channels sub)
       else None.
Proof.
  cbv zeta.
  destruct (processUnsubscription_run E channels url sub w)
    as (results & Hch & Hrun).
  cbv zeta in Hrun. rewrite Hrun. clear Hrun.
  set (w1 := extend w _).
  pose proof (reaches_afterGet E
                (reaches_extend
                   (map (unsubscribeEvent (userKey sub)) results)
                   (reaches_refl w))) as Hw1.
  fold w1 in Hw1. cbn [app] in Hw1.
  destruct (pruned _ _ _ _) as [subs'|].
  - pose proof (reaches_afterSet E subs' Hw1) as Hw2.
    pose proof (isWriteDone_set E subs' (afterGet E w1)) as Hset.
    cbn [fst snd]. rewrite (since_reaches Hw2).
    rewrite !existsb_app, no_write_in_hub. cbn [existsb orb].
    rewrite Hset.
    destruct (setOk E (afterGet E w1)); cbn;
      (split; [reflexivity|]; split; [assumption|]; split;
       [|split; reflexivity]);
      eexists; (split; [rewrite <- app_assoc; reflexivity|reflexivity]).
  - cbn [fst snd]. rewrite (since_reaches Hw1).
    rewrite !existsb_app, no_write_in_hub. cbn.
    split; [reflexivity|]. split; [assumption|]. split; [|split; reflexivity].
    eexists. split; reflexivity.
Qed.

(** ** Channel IDs that the record does not have *)

Lemma arr_includes_filter (p : string -> bool) l c :
  p c = true -> Js.arr_includes (filter p l) c = Js.arr_includes l c.
Proof.
  intros Hc. unfold Js.arr_includes.
  induction l as [|a l IH]; [reflexivity|]. cbn [filter existsb].
  destruct (p a) eqn:Ha; cbn [existsb].
  - now rewrite IH.
  - rewrite IH. destruct (String.eqb c a) eqn:Hca; [|reflexivity].
    apply String.eqb_eq in Hca. congruence.
Qed.

(** Removing the requested channels that the record has leaves what removing
    all requested channels leaves. *)
Lemma remainingOf_present channels sub :
  remainingOf (filter (fun id => Js.arr_includes (channelIds sub) id) channels)
              sub
  = remainingOf channels sub.
Proof.
  unfold remainingOf. apply filter_ext_in. intros c Hc.
  rewrite (arr_includes_filter
             (fun id => Js.arr_includes (channelIds sub) id) channels c);
    [reflexivity|now apply arr_includes_In].
Qed.

Lemma processUnsubscription_channels E channels url sub w :
  Unsubscribe.r_unsubscribedChannels
    (fst (Unsubscribe.processUnsubscription E channels url sub w))
  = channels.
Proof.
  destruct (processUnsubscription_run E channels url sub w)
    as (results & _ & Hrun).
  cbv zeta in Hrun. rewrite Hrun.
  destruct (pruned _ _ _ _); [|reflexivity]. now destruct (setOk E _).
Qed.




(** ** The two variants of an N8N webhook URL *)

Lemma startsWith_prefix s p q :
  Js.startsWith s (p ++ q)%string = true -> Js.startsWith s p = true.
Proof.
  revert s; induction p as [|a p IH]; intros s H; [reflexivity|].
  cbn [append Js.startsWith] in H |- *.
  destruct s as [|b s]; [discriminate|].
  apply andb_true_iff in H as [-> H]. cbn [andb]. now apply IH.
Qed.

(** A text without [w] that starts the test variant made from a URL starts
    the URL too. *)
Lemma startsWith_test_back q s :
  avoids "w" q = true ->
  Js.startsWith (Js.replace s "webhook" "webhook-test") q = true ->
  Js.startsWith s q = true.
Proof.
  revert q; induction s as [|c s IH]; intros q Hq H.
  - exact H.
  - destruct q as [|a q]; [reflexivity|].
    simpl in Hq. apply andb_true_iff in Hq as [Ha Hq].
    cbn [Js.replace] in H.
    destruct (Js.startsWith (String c s) "webhook").
    + simpl in H. apply andb_true_iff in H as [H _].
      rewrite H in Ha. discriminate.
    + simpl in H |- *. apply andb_true_iff in H as [-> H].
      simpl. now apply IH.
Qed.

(** Turning the first ["webhook"] into ["webhook-test"] and the first
    ["webhook-test"] of the result back into ["webhook"] gives the URL
    again. *)
Lemma replace_test_back s :
  Js.includes s "webhook" = true ->
  Js.includes (Js.replace s "webhook" "webhook-test") "webhook-test" = true
  /\ Js.replace (Js.replace s "webhook" "webhook-test") "webhook-test"
                "webhook" = s.
Proof.
  induction s as [|c s IH]; intros H; [discriminate|].
  cbn [Js.includes] in H. cbn [Js.replace].
  destruct (Js.startsWith (String c s) "webhook") eqn:Hp.
  - apply startsWith_split in Hp.
    change (String.length "webhook") with 7 in Hp |- *.
    remember (Js.slice 7 (String c s)) as rest. split; [reflexivity|].
    now rewrite Hp.
  - cbn [orb] in H. destruct (IH H) as [Hinc Hback].
    assert (Hq : Js.startsWith
                   (String c (Js.replace s "webhook" "webhook-test"))
                   "webhook-test" = false).
    { destruct (Js.startsWith
                  (String c (Js.replace s "webhook" "webhook-test"))
                  "webhook-test") eqn:Hq; [|reflexivity].
      change (Ascii.eqb "w" c
              && Js.startsWith (Js.replace s "webhook" "webhook-test")
                               "ebhook-test" = true) in Hq.
      change (Ascii.eqb "w" c && Js.startsWith s "ebhook" = false) in Hp.
      apply andb_true_iff in Hq as [Hc Hq]. rewrite Hc in Hp.
      cbn [andb] in Hp.
      apply (startsWith_prefix _ "ebhook" "-test") in Hq.
      apply startsWith_test_back in Hq; [|reflexivity]. congruence. }
    split.
    + cbn [Js.includes]. rewrite Hinc. apply orb_true_r.
    + cbn [Js.replace]. rewrite Hq. now rewrite Hback.
Qed.

(** X10.  Round trip of the two URL variants, from the production side: a
    URL that contains ["webhook"] and not ["webhook-test"] has a test
    variant; that variant is classified as a test URL, its production
    variant is the URL one started from, and so each of the two is the
    counterpart of the other. *)
Theorem production_test_round_trip url :
  Unsubscribe.isProductionWebhook url = true ->
  exists test,
    Unsubscribe.getTestWebhookUrl url = Some test
    /\ Unsubscribe.isTestWebhook test = true
    /\ Unsubscribe.isProductionWebhook test = false
    /\ Unsubscribe.getProductionWebhookUrl test = Some url
    /\ Unsubscribe.counterpartOf url = Some test
    /\ Unsubscribe.counterpartOf test = Some url.
Proof.
  unfold Unsubscribe.isProductionWebhook. intros H.
  apply andb_true_iff in H as [H Hnot]. apply andb_true_iff in H as [Hne Hinc].
  apply negb_true_iff in Hne, Hnot.
  destruct (replace_test_back url Hinc) as [Htest Hback].
  assert (Hne' : (Js.replace url "webhook" "webhook-test" =? "") = false).
  { apply String.eqb_neq.
    apply (@includes_nonempty _ "webhook-test"); [discriminate|exact Htest]. }
  exists (Js.replace url "webhook" "webhook-test").
  unfold Unsubscribe.counterpartOf, Unsubscribe.isN8nWebhook,
    Unsubscribe.isTestWebhook, Unsubscribe.isProductionWebhook,
    Unsubscribe.getTestWebhookUrl, Unsubscribe.getProductionWebhookUrl.
  rewrite Hne, Hnot, Hinc, Hne', Htest, Hback. cbn [negb andb orb].
  rewrite andb_false_r. repeat split; reflexivity.
Qed.

Lemma production_test_round_trip_witness :
  exists test,
    Unsubscribe.getTestWebhookUrl "https://n8n.example.com/webhook/yt"
    = Some test
    /\ Unsubscribe.isTestWebhook test = true
    /\ Unsubscribe.isProductionWebhook test = false
    /\ Unsubscribe.getProductionWebhookUrl test
       = Some "https://n8n.example.com/webhook/yt"
    /\ Unsubscribe.counterpartOf "https://n8n.example.com/webhook/yt"
       = Some test
    /\ Unsubscribe.counterpartOf test
       = Some "https://n8n.example.com/webhook/yt".
Proof.
  apply (production_test_round_trip "https://n8n.example.com/webhook/yt").
  reflexivity.
Defined.


Lemma startsWith_short a b pat :
  Js.startsWith (a ++ b)%string pat = true ->
  String.length pat <= String.length a ->
  Js.startsWith a pat = true.
Proof.
  revert a; induction pat as [|p pat IH]; intros a H Hlen; [reflexivity|].
  destruct a as [|x a]; [cbn in Hlen; lia|].
  cbn [append Js.startsWith] in H |- *.
  apply andb_true_iff in H as [-> H]. cbn [andb].
  apply IH; [exact H|cbn in Hlen; lia].
Qed.

(** When no ["webhook"] begins inside [pre], none begins inside [pre] once
    the marker and the rest of the URL are put behind it. *)
Lemma no_early_occurrence c pre rest :
  Js.startsWith (String c pre ++ "webhoo")%string "webhook" = false ->
  Js.startsWith (String c pre ++ "webhook" ++ rest)%string "webhook" = false.
Proof.
  intros H.
  destruct (Js.startsWith (String c pre ++ "webhook" ++ rest)%string
                          "webhook") eqn:Hq; [|reflexivity].
  change ("webhook" ++ rest)%string with ("webhoo" ++ "k" ++ rest)%string in Hq.
  rewrite <- append_assoc in Hq.
  apply startsWith_short in Hq; [congruence|].
  rewrite length_append. cbn. lia.
Qed.

Lemma replace_production_marker pre post rep :
  Js.includes (pre ++ "webhoo")%string "webhook" = false ->
  Js.replace (pre ++ "webhook" ++ post)%string "webhook" rep
  = (pre ++ rep ++ post)%string.
Proof.
  induction pre as [|c pre IH]; intros H; [reflexivity|].
  change (String c pre ++ "webhoo")%string
    with (String c (pre ++ "webhoo"))%string in H.
  cbn [Js.includes] in H. apply orb_false_iff in H as [Hs Hi].
  pose proof (no_early_occurrence c pre post Hs) as Hq.
  change (String c pre ++ "webhook" ++ post)%string
    with (String c (pre ++ "webhook" ++ post))%string in Hq |- *.
  cbn [Js.replace]. rewrite Hq.
  change (String c pre ++ rep ++ post)%string
    with (String c (pre ++ rep ++ post))%string.
  now rewrite IH.
Qed.

Lemma replace_test_marker pre post rep :
  Js.includes (pre ++ "webhoo")%string "webhook" = false ->
  Js.replace (pre ++ "webhook-test" ++ post)%string "webhook-test" rep
  = (pre ++ rep ++ post)%string.
Proof.
  induction pre as [|c pre IH]; intros H; [reflexivity|].
  change (String c pre ++ "webhoo")%string
    with (String c (pre ++ "webhoo"))%string in H.
  cbn [Js.includes] in H. apply orb_false_iff in H as [Hs Hi].
  pose proof (no_early_occurrence c pre ("-test" ++ post) Hs) as Hq.
  assert (Hq' : Js.startsWith
                  (String c (pre ++ "webhook-test" ++ post)) "webhook-test"
                = false).
  { destruct (Js.startsWith (String c (pre ++ "webhook-test" ++ post))
                            "webhook-test") eqn:Ht; [|reflexivity].
    apply (startsWith_prefix _ "webhook" "-test") in Ht.
    change (String c pre ++ "webhook" ++ "-test" ++ post)%string
      with (String c (pre ++ "webhook-test" ++ post))%string in Hq.
    congruence. }
  change (String c pre ++ "webhook-test" ++ post)%string
    with (String c (pre ++ "webhook-test" ++ post))%string.
  cbn [Js.replace]. rewrite Hq'.
  change (String c pre ++ rep ++ post)%string
    with (String c (pre ++ rep ++ post))%string.
  now rewrite IH.
Qed.

Lemma startsWith_self pat post : Js.startsWith (pat ++ post)%string pat = true.
Proof.
  induction pat as [|a pat IH]; [reflexivity|].
  cbn [append Js.startsWith]. now rewrite Ascii.eqb_refl, IH.
Qed.

Lemma includes_marker pre pat post :
  Js.includes (pre ++ pat ++ post)%string pat = true.
Proof.
  induction pre as [|c pre IH].
  - cbn [append]. destruct (pat ++ post)%string eqn:Hs;
      cbn [Js.includes]; rewrite <- Hs, startsWith_self; reflexivity.
  - cbn [append Js.includes]. rewrite IH. apply orb_true_r.
Qed.

Lemma includes_test_behind pre post :
  Js.includes (pre ++ "webhoo")%string "webhook" = false ->
  Js.includes (pre ++ "webhook" ++ post)%string "webhook-test"
  = Js.startsWith post "-test" || Js.includes post "webhook-test".
Proof.
  induction pre as [|c pre IH]; intros H; [apply includes_after_rewrite|].
  change (String c pre ++ "webhoo")%string
    with (String c (pre ++ "webhoo"))%string in H.
  cbn [Js.includes] in H. apply orb_false_iff in H as [Hs Hi].
  pose proof (no_early_occurrence c pre post Hs) as Hq.
  change (String c pre ++ "webhook" ++ post)%string
    with (String c (pre ++ "webhook" ++ post))%string in Hq |- *.
  cbn [Js.includes]. rewrite (IH Hi).
  destruct (Js.startsWith (String c (pre ++ "webhook" ++ post))
                          "webhook-test") eqn:Ht; [|reflexivity].
  apply (startsWith_prefix _ "webhook" "-test") in Ht. congruence.
Qed.

(** X11.  Round trip of the two URL variants, from the test side.  For a
    test URL [pre ++ "webhook-test" ++ post] in which no ["webhook"] begins
    before the marker and whose rest neither starts with ["-test"] nor
    contains ["webhook-test"], the production variant is
    [pre ++ "webhook" ++ post], it is classified as a production URL, its
    test variant is the URL one started from, and each of the two is the
    counterpart of the other. *)
Theorem test_production_round_trip pre post :
  Js.includes (pre ++ "webhoo")%string "webhook" = false ->
  Js.startsWith post "-test" = false ->
  Js.includes post "webhook-test" = false ->
  let test := (pre ++ "webhook-test" ++ post)%string in
  let production := (pre ++ "webhook" ++ post)%string in
  Unsubscribe.isTestWebhook test = true
  /\ Unsubscribe.getProductionWebhookUrl test = Some production
  /\ Subscribe.getProductionWebhookUrl test = Some production
  /\ Unsubscribe.isProductionWebhook production = true
  /\ Unsubscribe.getTestWebhookUrl production = Some test
  /\ Unsubscribe.counterpartOf test = Some production
  /\ Unsubscribe.counterpartOf production = Some test.
Proof.
  intros Hpre Hstart Hpost. cbv zeta.
  pose proof (includes_marker pre "webhook-test" post) as Htest.
  pose proof (includes_marker pre "webhook" post) as Hprod.
  pose proof (includes_test_behind pre post Hpre) as Hnot.
  rewrite Hstart, Hpost in Hnot. cbn [orb] in Hnot.
  assert (Hne : ((pre ++ "webhook-test" ++ post)%string =? "") = false)
    by (destruct pre; reflexivity).
  pose proof (rewritten_nonempty pre post) as Hne'.
  unfold Unsubscribe.counterpartOf, Unsubscribe.isN8nWebhook,
    Unsubscribe.isTestWebhook, Unsubscribe.isProductionWebhook,
    Unsubscribe.getTestWebhookUrl, Unsubscribe.getProductionWebhookUrl,
    Subscribe.getProductionWebhookUrl.
  rewrite Hne, Hne', Htest, Hprod, Hnot. cbn [negb andb orb].
  rewrite (replace_test_marker pre post "webhook" Hpre).
  rewrite (replace_production_marker pre post "webhook-test" Hpre).
  repeat split; reflexivity.
Qed.

Lemma test_production_round_trip_witness :
  Unsubscribe.isTestWebhook "https://n8n.example.com/webhook-test/yt" = true
  /\ Unsubscribe.getProductionWebhookUrl
       "https://n8n.example.com/webhook-test/yt"
     = Some "https://n8n.example.com/webhook/yt"
  /\ Subscribe.getProductionWebhookUrl
       "https://n8n.example.com/webhook-test/yt"
     = Some "https://n8n.example.com/webhook/yt"
  /\ Unsubscribe.isProductionWebhook "https://n8n.example.com/webhook/yt"
     = true
  /\ Unsubscribe.getTestWebhookUrl "https://n8n.example.com/webhook/yt"
     = Some "https://n8n.example.com/webhook-test/yt"
  /\ Unsubscribe.counterpartOf "https://n8n.example.com/webhook-test/yt"
     = Some "https://n8n.example.com/webhook/yt"
  /\ Unsubscribe.counterpartOf "https://n8n.example.com/webhook/yt"
     = Some "https://n8n.example.com/webhook-test/yt".
Proof.
  apply (test_production_round_trip "https://n8n.example.com/" "/yt");
    reflexivity.
Defined.

(** Outside these hypotheses the way back can miss: with a ["webhook"]
    before the marker, the test variant of the production variant is another
    URL. *)
Example early_webhook_breaks_round_trip :
  Unsubscribe.counterpartOf "https://webhook.site/webhook-test/yt"
  = Some "https://webhook.site/webhook/yt"
  /\ Unsubscribe.counterpartOf "https://webhook.site/webhook/yt"
     = Some "https://webhook-test.site/webhook/yt".
Proof. split; reflexivity. Qed.


(** X12.  The four routes compute the counterpart of a webhook URL with
    code of their own, and the results agree: the classifier of the status
    route and the one of the callback route are the classifier of the
    unsubscribe route, the counterpart the status route and the callback
    route compute is the one of the unsubscribe route, and for a test URL
    the production variant of the subscribe route is that counterpart.  A
    counterpart, when there is one, is another URL and is itself an N8N
    webhook URL; there is none exactly when the URL is not an N8N webhook
    URL.  The subscribe route alone mirrors in one direction only: for a URL
    that is not a test URL it has no counterpart. *)
Theorem counterpart_same_in_every_route url :
  SubscriptionStatus.isN8nWebhook url = Unsubscribe.isN8nWebhook url
  /\ WebSub.isN8n url = Unsubscribe.isN8nWebhook url
  /\ SubscriptionStatus.getN8nCounterpartUrl url = Unsubscribe.counterpartOf url
  /\ (if WebSub.isN8n url then Some (WebSub.counterpartOf url) else None)
     = Unsubscribe.counterpartOf url
  /\ Subscribe.isTestWebhook url = Unsubscribe.isTestWebhook url
  /\ (if Subscribe.isTestWebhook url
      then Subscribe.getProductionWebhookUrl url else None)
     = (if Unsubscribe.isTestWebhook url
        then Unsubscribe.counterpartOf url else None)
  /\ match Unsubscribe.counterpartOf url with
     | Some counterpart =>
         counterpart <> url /\ Unsubscribe.isN8nWebhook counterpart = true
     | None => Unsubscribe.isN8nWebhook url = false
     end.
Proof.
  split; [reflexivity|]. split; [reflexivity|].
  split.
  { rewrite counterpart_agrees.
    unfold SubscriptionStatus.getN8nCounterpartUrl,
      SubscriptionStatus.isN8nWebhook, WebSub.isN8n, WebSub.counterpartOf.
    now destruct (negb (url =? "")
                  && (Js.includes url "webhook-test"
                      || Js.includes url "webhook")). }
  split; [now rewrite counterpart_agrees|].
  split; [reflexivity|].
  split.
  { unfold Unsubscribe.counterpartOf.
    unfold Subscribe.isTestWebhook, Subscribe.getProductionWebhookUrl,
      Unsubscribe.isTestWebhook, Unsubscribe.isN8nWebhook,
      Unsubscribe.getProductionWebhookUrl.
    destruct (url =? ""); cbn [negb andb]; [reflexivity|].
    destruct (Js.includes url "webhook-test"); cbn [negb andb orb];
      reflexivity. }
  destruct (Unsubscribe.counterpartOf url) as [counterpart|] eqn:Hcp.
  - split; [exact (counterpart_differs Hcp)|].
    rewrite counterpart_agrees in Hcp.
    unfold WebSub.isN8n, WebSub.counterpartOf in Hcp.
    destruct (url =? ""); [discriminate|]. cbn [negb andb] in Hcp.
    unfold Unsubscribe.isN8nWebhook.
    destruct (Js.includes url "webhook-test") eqn:Htest; cbn [orb] in Hcp.
    + injection Hcp as <-.
      destruct (replace_split url "webhook-test" "webhook" Htest)
        as (pre & post & _ & ->).
      rewrite rewritten_nonempty, (includes_marker pre "webhook" post).
      cbn [negb andb]. apply orb_true_r.
    + destruct (Js.includes url "webhook") eqn:Hprod; [|discriminate].
      injection Hcp as <-.
      destruct (replace_split url "webhook" "webhook-test" Hprod)
        as (pre & post & _ & ->).
      rewrite (includes_marker pre "webhook-test" post).
      now destruct pre.
  - rewrite counterpart_agrees in Hcp. unfold WebSub.isN8n in Hcp.
    unfold Unsubscribe.isN8nWebhook.
    now destruct (negb (url =? "")
                  && (Js.includes url "webhook-test"
                      || Js.includes url "webhook")).
Qed.


(** ** The callback route when nothing is forwarded *)

Ltac settle_codes :=
  repeat split;
  try reflexivity; try (intros; discriminate);
  try (intros [?|?]; discriminate); try (intros [? ?]; congruence);
  auto 8.

(** X13.  The callback route never writes the store and never calls the
    hub, and it answers with one of five status codes.  With 400 (missing
    verification parameter, or a feed that does not parse) or 405 (a method
    other than GET and POST) it has made no call at all: a feed that does
    not parse is rejected before the store is read.  With 404 it has read
    the store once, successfully, and the store holds no record with the
    user key of the path.  With 500 the one store read failed, and its
    message is in the response.  In the three cases no webhook is posted
    to. *)
Theorem callback_error_paths E req w :
  let run := WebSub.handler E req w in
  let code := fst (fst run) in
  let evs := since w (snd run) in
  redis (snd run) = redis w
  /\ filter isStoreWrite evs = [] /\ hubCalls evs = []
  /\ (code = 200 \/ code = 400 \/ code = 404 \/ code = 405 \/ code = 500)
  /\ (code = 400 \/ code = 405 -> evs = [])
  /\ (code = 405 <->
      WebSub.req_method req <> "GET" /\ WebSub.req_method req <> "POST")
  /\ (code = 404 ->
      evs = [RedisGet None]
      /\ find (fun sub => userKey sub =? WebSub.req_userKey req) (stored w)
         = None)
  /\ (code = 500 ->
      exists message,
        redisGetFault E (step w) = Some message
        /\ evs = [RedisGet (Some message)]
        /\ snd (fst run)
           = WebSub.ErrorBody "Error handling notification" (Some message)).
Proof.
  cbv zeta. unfold WebSub.handler.
  destruct (WebSub.req_method req =? "GET") eqn:Hget.
  { apply String.eqb_eq in Hget. unfold ret. cbn [fst snd].
    rewrite (since_reaches (reaches_refl w)).
    assert (Hcode : fst (WebSub.handleVerification req (WebSub.req_userKey req))
                    = 200
                    \/ fst (WebSub.handleVerification req
                              (WebSub.req_userKey req)) = 400).
    { unfold WebSub.handleVerification.
      destruct (negb _ || negb _ || negb _); [now right|].
      destruct (WebSub.hub_challenge req); [now left|now right]. }
    destruct (WebSub.handleVerification req (WebSub.req_userKey req))
      as [code body].
    cbn [fst snd] in Hcode |- *.
    destruct Hcode as [-> | ->]; settle_codes. }
  apply String.eqb_neq in Hget.
  destruct (WebSub.req_method req =? "POST") eqn:Hpost.
  2:{ apply String.eqb_neq in Hpost. unfold ret. cbn [fst snd].
      rewrite (since_reaches (reaches_refl w)). settle_codes. }
  apply String.eqb_eq in Hpost.
  unfold WebSub.handleNotification, bind, redisGet.
  destruct (WebSub.parseYouTubeNotification E (WebSub.req_body req))
    as [v|].
  2:{ unfold ret. cbn [fst snd]. rewrite (since_reaches (reaches_refl w)).
      settle_codes. }
  destruct (redisGetFault E (step w)) as [message|] eqn:Hfault.
  { unfold ret. cbn [fst snd].
    change {| redis := redis w;
              trace := trace w ++ [RedisGet (Some message)] |}
      with (extend w [RedisGet (Some message)]).
    rewrite (since_reaches (reaches_extend [RedisGet (Some message)]
                                           (reaches_refl w))).
    cbn [app]. settle_codes. intros _. exists message. auto. }
  change (match redis w with Some subs => subs | None => [] end)
    with (stored w).
  change {| redis := redis w; trace := trace w ++ [RedisGet None] |}
    with (extend w [RedisGet None]).
  destruct (find (fun sub => userKey sub =? WebSub.req_userKey req) (stored w))
    as [sub|] eqn:Hfind.
  2:{ unfold ret. cbn [fst snd].
      rewrite (since_reaches (reaches_extend [RedisGet None]
                                             (reaches_refl w))).
      cbn [app]. settle_codes. }
  rewrite forwardToWebhook_eq.
  pose proof (reaches_extend [WebhookPost (webhookUrl sub)
                  (WebSub.payloadOf v (now E (step (extend w [RedisGet None]))))
                  (httpPost E (step (extend w [RedisGet None])))]
                (reaches_extend [RedisGet None] (reaches_refl w))) as Hw.
  destruct (WebSub.isN8n (webhookUrl sub)).
  - rewrite forwardToWebhook_eq. unfold ret. cbn [fst snd].
    rewrite (since_reaches (reaches_extend _ Hw)).
    cbn [app]. settle_codes.
  - unfold ret. cbn [fst snd]. rewrite (since_reaches Hw).
    cbn [app]. settle_codes.
Qed.


(** ** The test route *)

(** X19.  The test route, on a request whose [webhookUrl] is a string when
    it is present, leaves the store alone and makes at most one call:
    a POST of the fixed sample notification to exactly the URL of the
    request, which is made exactly when the request is a POST whose body has
    a non-empty URL that parses.  The URL is not classified, so no
    counterpart is posted to.  The answer is 200 exactly when that POST
    resolved.  It is 500 exactly when that POST was made and failed, or when
    the request is a POST without a body, which is answered with the message
    of the exception and without any call.  It is 405 or 400 in every other
    case, and no call is made then either. *)
Theorem test_webhook_posts_once E req w :
  let run := TestWebhook.handler E req w in
  let code := fst (fst run) in
  let evs := since w (snd run) in
  let accepted url :=
    TestWebhook.req_method req = "POST"
    /\ TestWebhook.req_body req = TestWebhook.Fields (Some url)
    /\ url <> "" /\ TestWebhook.isValidUrl E url = true in
  let bodyless refusal :=
    TestWebhook.req_method req = "POST"
    /\ TestWebhook.req_body req = TestWebhook.NoBody refusal in
  redis (snd run) = redis w
  /\ (forall url,
        accepted url ->
        evs = [WebhookPost url TestWebhook.mockNotificationData
                           (httpPost E (step w))])
  /\ ((forall url, ~ accepted url) -> evs = [])
  /\ (forall refusal,
        bodyless refusal ->
        run = ((500, TestWebhook.NotSent (TestWebhook.messageOf refusal)
                                         None None), w))
  /\ (code = 200 <->
      exists url status data,
        evs = [WebhookPost url TestWebhook.mockNotificationData
                           (HttpOk status data)])
  /\ (code = 500 <->
      (exists url message response,
          evs = [WebhookPost url TestWebhook.mockNotificationData
                             (HttpFail message response)])
      \/ exists refusal, bodyless refusal)
  /\ (code = 200 \/ code = 400 \/ code = 405 \/ code = 500).
Proof.
  cbv zeta. unfold TestWebhook.handler.
  destruct (TestWebhook.req_method req =? "POST") eqn:Hm; cbn [negb].
  2:{ apply String.eqb_neq in Hm. unfold ret. cbn [fst snd].
      rewrite (since_reaches (reaches_refl w)).
      split; [reflexivity|]. split; [intros url (H & _); congruence|].
      split; [auto|]. split; [intros refusal (H & _); congruence|].
      split; [split; [discriminate|intros (? & ? & ? & ?); discriminate]|].
      split; [|auto].
      split; [discriminate|].
      intros [(? & ? & ? & ?) | (? & H & _)]; [discriminate|congruence]. }
  apply String.eqb_eq in Hm.
  destruct (TestWebhook.req_body req) as [refusal|[url|]] eqn:Hu.
  - (* no body *)
    unfold ret. cbn [fst snd]. rewrite (since_reaches (reaches_refl w)).
    split; [reflexivity|]. split; [intros url (_ & H & _); discriminate|].
    split; [auto|].
    split; [intros refusal' (_ & [= <-]); reflexivity|].
    split; [split; [discriminate|intros (? & ? & ? & ?); discriminate]|].
    split; [|auto 6].
    split; [|reflexivity]. intros _. right. exists refusal. auto.
  - destruct (url =? "") eqn:Hne; cbn [orb].
    { apply String.eqb_eq in Hne. unfold ret. cbn [fst snd].
      rewrite (since_reaches (reaches_refl w)).
      split; [reflexivity|].
      split; [intros url' (_ & H & Hn & _); congruence|].
      split; [auto|]. split; [intros refusal (_ & H); discriminate|].
      split; [split; [discriminate|intros (? & ? & ? & ?); discriminate]|].
      split; [|auto].
      split; [discriminate|].
      intros [(? & ? & ? & ?) | (? & _ & H)]; discriminate. }
    apply String.eqb_neq in Hne.
    destruct (TestWebhook.isValidUrl E url) eqn:Hvalid; cbn [negb].
    2:{ unfold ret. cbn [fst snd]. rewrite (since_reaches (reaches_refl w)).
        split; [reflexivity|].
        split; [intros url' (_ & H & _ & Hv); congruence|].
        split; [auto|]. split; [intros refusal (_ & H); discriminate|].
        split; [split; [discriminate|intros (? & ? & ? & ?); discriminate]|].
        split; [|auto].
        split; [discriminate|].
        intros [(? & ? & ? & ?) | (? & _ & H)]; discriminate. }
    unfold bind, webhookPost, ret.
    change {| redis := redis w;
              trace := trace w ++ [WebhookPost url
                                     TestWebhook.mockNotificationData
                                     (httpPost E (step w))] |}
      with (extend w [WebhookPost url TestWebhook.mockNotificationData
                                  (httpPost E (step w))]).
    cbn [snd].
    rewrite (since_reaches (reaches_extend _ (reaches_refl w))). cbn [app].
    split; [reflexivity|].
    split; [intros url' (_ & H & _); congruence|].
    split; [intros H; exfalso; apply (H url); auto|].
    split; [intros refusal (_ & H); discriminate|].
    destruct (httpPost E (step w)) as [status data|message response];
      cbn [fst].
    + split; [split; [eauto|reflexivity]|].
      split; [|auto].
      split; [discriminate|].
      intros [(? & ? & ? & ?) | (? & _ & H)]; discriminate.
    + split; [split; [discriminate|intros (? & ? & ? & ?); discriminate]|].
      split; [|auto 6].
      split; [eauto 6|reflexivity].
  - (* a body without a webhook URL *)
    unfold ret. cbn [fst snd]. rewrite (since_reaches (reaches_refl w)).
    split; [reflexivity|]. split; [intros url (_ & H & _); discriminate|].
    split; [auto|]. split; [intros refusal (_ & H); discriminate|].
    split; [split; [discriminate|intros (? & ? & ? & ?); discriminate]|].
    split; [|auto].
    split; [discriminate|].
    intros [(? & ? & ? & ?) | (? & _ & H)]; discriminate.
Qed.


(** ** The storage layer *)

Lemma findIndex_split {A} (p : A -> bool) l i :
  Js.findIndex p l = Some i ->
  exists before old after,
    l = before ++ old :: after
    /\ p old = true
    /\ (forall r, In r before -> p r = false)
    /\ forall v, Js.assign l i v = before ++ v :: after.
Proof.
  revert i. induction l as [|x l IH]; intros i H; [discriminate|].
  cbn in H. destruct (p x) eqn:Hx.
  - injection H as <-. exists [], x, l. cbn. repeat split; auto.
    intros r [].
  - destruct (Js.findIndex p l) as [j|]; [|discriminate].
    injection H as <-.
    destruct (IH j eq_refl) as (before & old & after & -> & Hold & Hb & Ha).
    exists (x :: before), old, after. cbn.
    repeat split; auto.
    + intros r [<- | Hr]; auto.
    + intros v. now rewrite Ha.
Qed.

Lemma findIndex_None {A} (p : A -> bool) l :
  Js.findIndex p l = None <-> find p l = None.
Proof.
  induction l as [|x l IH]; cbn; [tauto|].
  destruct (p x); [split; discriminate|].
  destruct (Js.findIndex p l); cbn.
  - split; [discriminate|]. intros H. apply IH in H. discriminate.
  - tauto.
Qed.

Lemma find_first {A} (p : A -> bool) before x after :
  (forall r, In r before -> p r = false) -> p x = true ->
  find p (before ++ x :: after) = Some x.
Proof.
  intros Hb Hx. induction before as [|b before IH]; cbn.
  - now rewrite Hx.
  - rewrite (Hb b (or_introl eq_refl)). apply IH.
    intros r Hr. apply Hb. now right.
Qed.

Lemma find_app_end {A} (p : A -> bool) l x :
  find p (l ++ [x])
  = match find p l with
    | Some y => Some y
    | None => if p x then Some x else None
    end.
Proof.
  induction l as [|a l IH]; cbn; [reflexivity|]. now destruct (p a).
Qed.

Lemma updateSubscription_eq E key upd w :
  Storage.updateSubscription E key upd w
  = match Js.findIndex (fun sub => userKey sub =? key) (readBlob E w) with
    | Some i =>
        (setOk E (afterGet E w),
         afterSet E (Js.assign (readBlob E w) i upd) (afterGet E w))
    | None => (false, afterGet E w)
    end.
Proof.
  unfold Storage.updateSubscription, bind, ret. rewrite getSubscriptions_eq.
  destruct (Js.findIndex _ (readBlob E w)); [|reflexivity].
  apply saveSubscriptions_eq.
Qed.

Lemma findSubscriptionByUserKey_eq E key w :
  Storage.findSubscriptionByUserKey E key w
  = (find (fun sub => userKey sub =? key) (readBlob E w), afterGet E w).
Proof.
  unfold Storage.findSubscriptionByUserKey, bind, ret.
  now rewrite getSubscriptions_eq.
Qed.

Lemma findSubscriptionsByChannelId_eq E channel w :
  Storage.findSubscriptionsByChannelId E channel w
  = (filter (fun sub => Js.arr_includes (channelIds sub) channel)
            (readBlob E w),
     afterGet E w).
Proof.
  unfold Storage.findSubscriptionsByChannelId, bind, ret.
  now rewrite getSubscriptions_eq.
Qed.

(** X14.  [updateSubscription] in every environment, [subs] being the
    collection its read returned.  When no record of [subs] has the key it
    returns false after that one read, without a write.  Whenever it returns
    false the stored collection is what it was.  When it returns true, the
    stored collection is [subs] with the first record that has the key
    replaced, in place, by the record given: the records before and after it,
    later records with the same key among them, are kept as they were.  The
    key of the record given is not compared with the key looked up; when the
    two are equal, a lookup by that key whose read succeeds then returns the
    record given. *)
Theorem update_replaces_first_match E key upd w :
  let run := Storage.updateSubscription E key upd w in
  let subs := readBlob E w in
  (find (fun sub => userKey sub =? key) subs = None ->
   run = (false, afterGet E w))
  /\ (fst run = false -> stored (snd run) = stored w)
  /\ (fst run = true ->
      exists before old after,
        subs = before ++ old :: after
        /\ userKey old = key
        /\ (forall r, In r before -> userKey r <> key)
        /\ stored (snd run) = before ++ upd :: after)
  /\ (fst run = true -> userKey upd = key ->
      redisGetFault E (step (snd run)) = None ->
      fst (Storage.findSubscriptionByUserKey E key (snd run)) = Some upd).
Proof.
  cbv zeta. rewrite updateSubscription_eq.
  destruct (Js.findIndex (fun sub => userKey sub =? key) (readBlob E w))
    as [i|] eqn:Hidx.
  - destruct (findIndex_split _ _ Hidx)
      as (before & old & after & Hsubs & Hold & Hbefore & Hassign).
    apply String.eqb_eq in Hold.
    assert (Hb : forall r, In r before -> userKey r <> key).
    { intros r Hr. apply String.eqb_neq. now apply Hbefore. }
    cbn [fst snd]. rewrite stored_afterSet, Hassign.
    split.
    { intros Hnone. apply findIndex_None in Hnone. congruence. }
    split; [now intros ->|].
    split.
    { intros ->. exists before, old, after. auto. }
    intros Hok Hupd Hread.
    rewrite findSubscriptionByUserKey_eq. cbn [fst].
    unfold readBlob. rewrite Hread, stored_afterSet, Hok.
    apply find_first; [assumption|]. now apply String.eqb_eq.
  - cbn [fst snd]. rewrite stored_afterGet.
    repeat split; auto; discriminate.
Qed.

(** X15.  [addSubscription] in every environment, [subs] being the
    collection its read returned: it makes one read and one write of [subs]
    with the record appended, without looking for a record with the same key
    or URL.  When it returns false the stored collection is what it was; when
    it returns true the stored collection is [subs] followed by the record.
    A later lookup by the key of the record, when its read succeeds, returns
    the first record of [subs] with that key if there is one and the new
    record otherwise, and a lookup by channel returns the matching records of
    [subs] followed by the new record when it has the channel. *)
Theorem add_appends_without_lookup E sub w :
  let run := Storage.addSubscription E sub w in
  let subs := readBlob E w in
  let w' := snd run in
  since w w'
  = [RedisGet (redisGetFault E (step w));
     RedisSet (subs ++ [sub]) (redisSetFault E (S (step w)))]
  /\ (fst run = false -> stored w' = stored w)
  /\ (fst run = true -> stored w' = subs ++ [sub])
  /\ (fst run = true -> redisGetFault E (step w') = None ->
      fst (Storage.findSubscriptionByUserKey E (userKey sub) w')
      = match find (fun r => userKey r =? userKey sub) subs with
        | Some old => Some old
        | None => Some sub
        end
      /\ forall channel,
           fst (Storage.findSubscriptionsByChannelId E channel w')
           = filter (fun r => Js.arr_includes (channelIds r) channel) subs
             ++ (if Js.arr_includes (channelIds sub) channel
                 then [sub] else [])).
Proof.
  cbv zeta. unfold Storage.addSubscription, bind.
  rewrite getSubscriptions_eq, saveSubscriptions_eq. cbn [fst snd].
  rewrite stored_afterSet, stored_afterGet.
  split.
  { rewrite (since_reaches
               (reaches_afterSet E (readBlob E w ++ [sub])
                  (reaches_afterGet E (reaches_refl w)))).
    now rewrite step_afterGet. }
  split; [now intros ->|]. split; [now intros ->|].
  intros Hok Hread.
  rewrite findSubscriptionByUserKey_eq. cbn [fst]. split.
  - unfold readBlob at 1. rewrite Hread, stored_afterSet, Hok.
    rewrite find_app_end, String.eqb_refl. reflexivity.
  - intros channel. rewrite findSubscriptionsByChannelId_eq. cbn [fst].
    unfold readBlob at 1. rewrite Hread, stored_afterSet, Hok.
    rewrite filter_app. reflexivity.
Qed.


(** ** The listing route *)

(** X16.  The listing route never changes the store.  A method other than
    GET is answered with 405 without any call.  A GET makes exactly one store
    read: when the read succeeds the answer is 200 with the stored
    collection, in its order, and its length; when it fails the answer is 500
    with the message of the failure, whereas [getSubscriptions] of the
    storage layer, in the same situation, returns an empty collection. *)
Theorem listing_reports_the_store E method w :
  let run := ListSubscriptions.handler E method w in
  redis (snd run) = redis w
  /\ (method <> "GET" ->
      run = ((405, ListSubscriptions.MethodNotAllowed), w))
  /\ (method = "GET" ->
      since w (snd run) = [RedisGet (redisGetFault E (step w))]
      /\ snd run = snd (Storage.getSubscriptions E w)
      /\ match redisGetFault E (step w) with
         | None =>
             fst run
             = (200, ListSubscriptions.Listed (List.length (stored w))
                                              (stored w))
             /\ fst (Storage.getSubscriptions E w) = stored w
         | Some message =>
             fst run = (500, ListSubscriptions.Failed message)
             /\ fst (Storage.getSubscriptions E w) = []
         end).
Proof.
  cbv zeta. unfold ListSubscriptions.handler.
  destruct (method =? "GET") eqn:Hm; cbn [negb].
  - apply String.eqb_eq in Hm. rewrite getSubscriptions_eq.
    unfold bind, redisGet, ret, readBlob.
    destruct (redisGetFault E (step w)) as [message|] eqn:Hfault.
    + cbn [fst snd]. split; [reflexivity|]. split; [congruence|].
      intros _. unfold afterGet. rewrite Hfault.
      split; [|auto].
      apply since_app. reflexivity.
    + cbn [fst snd]. split; [reflexivity|]. split; [congruence|].
      intros _. unfold afterGet. rewrite Hfault.
      split; [|auto].
      apply since_app. reflexivity.
  - apply String.eqb_neq in Hm. unfold ret. cbn [fst snd].
    split; [reflexivity|]. split; [reflexivity|]. intros. contradiction.
Qed.


(** ** The requests sent to the hub *)

Lemma append_cancel (p a b : string) : (p ++ a = p ++ b)%string -> a = b.
Proof.
  induction p as [|c p IH]; cbn; [auto|]. intros [= H]. auto.
Qed.

(** X17.  What the hub client sends.  A subscribe call and an unsubscribe
    call each make exactly one POST to the hub and leave the store alone;
    the subscribe form has mode [subscribe] and the lease given, the
    unsubscribe form mode [unsubscribe] and no lease, both with synchronous
    verification.  The webhook URL is not part of either form: the hub sees
    the callback of the user key and the topic of the channel, and these two
    identify the pair, that is, an unsubscribe addresses the subscription
    made by a subscribe exactly when user key and channel are the same.  The
    result is a success exactly when the POST resolved, and carries the
    channel, the callback and the webhook URL. *)
Theorem hub_requests_identify_key_and_channel E c1 c2 k1 k2 url1 url2 lease
    w1 w2 :
  let sub := PubSubHubbub.subscribeToChannel E c1 url1 k1 lease w1 in
  let unsub := PubSubHubbub.unsubscribeFromChannel E c2 url2 k2 w2 in
  exists f1 f2,
    since w1 (snd sub) = [HubPost f1 (httpPost E (step w1))]
    /\ since w2 (snd unsub) = [HubPost f2 (httpPost E (step w2))]
    /\ redis (snd sub) = redis w1 /\ redis (snd unsub) = redis w2
    /\ hub_mode f1 = "subscribe" /\ hub_lease_seconds f1 = Some lease
    /\ hub_mode f2 = "unsubscribe" /\ hub_lease_seconds f2 = None
    /\ hub_verify f1 = "sync" /\ hub_verify f2 = "sync"
    /\ (hub_callback f1 = hub_callback f2 /\ hub_topic f1 = hub_topic f2
        <-> k1 = k2 /\ c1 = c2)
    /\ PubSubHubbub.success (fst sub)
       = match httpPost E (step w1) with
         | HttpOk _ _ => true
         | HttpFail _ _ => false
         end
    /\ PubSubHubbub.channelId (fst sub) = c1
    /\ PubSubHubbub.channelId (fst unsub) = c2.
Proof.
  cbv zeta.
  exists (mkHubForm (PubSubHubbub.generateCallbackUrl k1) "subscribe"
            (PubSubHubbub.generateTopicUrl c1) "sync" (Some lease)),
         (mkHubForm (PubSubHubbub.generateCallbackUrl k2) "unsubscribe"
            (PubSubHubbub.generateTopicUrl c2) "sync" None).
  unfold PubSubHubbub.subscribeToChannel, PubSubHubbub.unsubscribeFromChannel,
    hubPost, bind, ret.
  cbn [fst snd redis hub_mode hub_lease_seconds hub_verify hub_callback
       hub_topic].
  split; [apply since_app; reflexivity|].
  split; [apply since_app; reflexivity|].
  do 8 (split; [reflexivity|]).
  split.
  - unfold PubSubHubbub.generateCallbackUrl, PubSubHubbub.generateTopicUrl.
    split.
    + intros [Hk Hc]. apply append_cancel in Hk. apply append_cancel in Hk.
      apply append_cancel in Hc. auto.
    + intros [-> ->]. auto.
  - split; [now destruct (httpPost E (step w1))|].
    split; [now destruct (httpPost E (step w1))|].
    now destruct (httpPost E (step w2)).
Qed.


(** ** From a subscribe to the notifications it asks for *)

Lemma find_none_of {A} (p : A -> bool) l :
  (forall x, In x l -> p x = false) -> find p l = None.
Proof.
  intros H. destruct (find p l) as [x|] eqn:Hx; [|reflexivity].
  apply find_some in Hx as [Hin Hp]. rewrite (H x Hin) in Hp. discriminate.
Qed.

(** The record the callback route finds under the key a subscribe returns
    is a record of the subscribed URL. *)
Lemma upserted_find_key E ts ids url subs subs' :
  upserted E ts ids url (findByWebhook url subs) subs = Some subs' ->
  (findByWebhook url subs = None ->
   forall r, In r subs -> userKey r <> PubSubHubbub.generateUserKey E url) ->
  exists e',
    find (fun r => userKey r =? keyOf E (findByWebhook url subs) url) subs'
    = Some e'
    /\ webhookUrl e' = url.
Proof.
  unfold upserted. destruct (findByWebhook url subs) as [e|] eqn:Hfind.
  - intros Hup _. cbn [keyOf].
    destruct (Js.findIndex _ subs) as [i|] eqn:Hidx; [|discriminate].
    injection Hup as <-.
    destruct (findIndex_split _ _ Hidx)
      as (before & old & after & _ & _ & Hbefore & ->).
    eexists. split.
    + apply find_first; [exact Hbefore|]. cbn. apply String.eqb_refl.
    + cbn. now apply findByWebhook_Some in Hfind.
  - intros [= <-] Hfresh. cbn [keyOf]. eexists. split.
    + rewrite find_app_end, find_none_of.
      * cbn [userKey]. now rewrite String.eqb_refl.
      * intros r Hr. apply String.eqb_neq. now apply Hfresh.
    + reflexivity.
Qed.

Lemma handleNotification_forwards E req key w v sub :
  WebSub.parseYouTubeNotification E (WebSub.req_body req) = Some v ->
  redisGetFault E (step w) = None ->
  find (fun s => userKey s =? key) (stored w) = Some sub ->
  let run := WebSub.handleNotification E req key w in
  fst (fst run) = 200
  /\ redis (snd run) = redis w
  /\ exists rest,
       since w (snd run)
       = RedisGet None
         :: WebhookPost (webhookUrl sub)
                        (WebSub.payloadOf v (now E (S (step w))))
                        (httpPost E (S (step w)))
         :: rest.
Proof.
  intros Hparse Hget Hfind. cbv zeta.
  unfold WebSub.handleNotification, bind, redisGet.
  rewrite Hparse, Hget.
  change (match redis w with Some subs => subs | None => [] end)
    with (stored w).
  rewrite Hfind, forwardToWebhook_eq.
  change {| redis := redis w; trace := trace w ++ [RedisGet None] |}
    with (extend w [RedisGet None]).
  rewrite step_extend.
  pose proof (reaches_extend [WebhookPost (webhookUrl sub)
                  (WebSub.payloadOf v (now E (S (step w))))
                  (httpPost E (S (step w)))]
                (reaches_extend [RedisGet None] (reaches_refl w))) as Hw.
  destruct (WebSub.isN8n (webhookUrl sub)).
  - rewrite forwardToWebhook_eq. unfold ret. cbn [fst snd].
    rewrite (since_reaches (reaches_extend _ Hw)). cbn [app]. eauto.
  - unfold ret. cbn [fst snd]. rewrite (since_reaches Hw). cbn [app]. eauto.
Qed.

(** X18.  From a subscribe to the notification.  With a store that answers,
    a subscribe for a webhook URL succeeds and returns a user key such that a
    notification the hub then posts to the callback of that key is answered
    with 200 and, after one store read, is first posted to that webhook URL.
    When the URL has no record yet, this needs the generated key to be the
    key of no stored record; when it has one, nothing is needed: the record
    rewritten is the first one with the key, which is the one the callback
    route finds. *)
Theorem subscribe_then_notification_reaches_url E ids url body v w :
  readsSucceed E -> writesSucceed E ->
  (findByWebhook url (stored w) = None ->
   forall r, In r (stored w) -> userKey r <> PubSubHubbub.generateUserKey E url) ->
  WebSub.parseYouTubeNotification E body = Some v ->
  let run1 := Subscribe.processSubscription E ids url w in
  exists key,
    Subscribe.r_success (fst run1) = true
    /\ Subscribe.r_userKey (fst run1) = Some key
    /\ forall mode topic challenge lease,
         let req :=
           WebSub.mkRequest "POST" key mode topic challenge lease body in
         let run2 := WebSub.handler E req (snd run1) in
         fst (fst run2) = 200
         /\ redis (snd run2) = redis (snd run1)
         /\ exists ts out rest,
              since (snd run1) (snd run2)
              = RedisGet None
                :: WebhookPost url (WebSub.payloadOf v ts) out :: rest.
Proof.
  intros Hr Hw Hfresh Hparse. cbv zeta.
  destruct (@processSubscription_reliable E ids url w Hr Hw)
    as (ts & subs' & renewed & w' & Hup & Hrun & Hstored).
  rewrite Hrun. cbn [fst snd Subscribe.r_success Subscribe.r_userKey].
  exists (keyOf E (findByWebhook url (stored w)) url).
  split; [reflexivity|]. split; [reflexivity|].
  intros mode topic challenge lease.
  destruct (upserted_find_key _ _ _ _ _ Hup Hfresh) as (e' & Hfind & Hurl).
  unfold WebSub.handler. cbn [WebSub.req_method WebSub.req_userKey].
  change ("POST" =? "GET") with false. change ("POST" =? "POST") with true.
  cbv iota.
  rewrite <- Hstored in Hfind.
  destruct (@handleNotification_forwards E
              (WebSub.mkRequest "POST"
                 (keyOf E (findByWebhook url (stored w)) url)
                 mode topic challenge lease body)
              (keyOf E (findByWebhook url (stored w)) url) w' v e'
              Hparse (Hr _) Hfind) as (Hcode & Hredis & rest & Hsince).
  split; [exact Hcode|]. split; [exact Hredis|].
  rewrite Hurl in Hsince. eauto.
Qed.

Lemma ticking_reads : readsSucceed tickingEnv.
Proof. intros n. reflexivity. Defined.

Lemma ticking_writes : writesSucceed tickingEnv.
Proof. intros n. reflexivity. Defined.

Lemma subscribe_then_notification_reaches_url_witness :
  exists key,
    Subscribe.r_userKey
      (fst (Subscribe.processSubscription tickingEnv
              ["UC_x5XG1OV2P6uZZ5FSM9Ttw"] "https://example.com/hook"
              emptyWorld))
    = Some key
    /\ fst (fst (WebSub.handler tickingEnv
                   (WebSub.mkRequest "POST" key None None None None
                                     sampleFeed)
                   (snd (Subscribe.processSubscription tickingEnv
                           ["UC_x5XG1OV2P6uZZ5FSM9Ttw"]
                           "https://example.com/hook" emptyWorld))))
       = 200.
Proof.
  destruct (@subscribe_then_notification_reaches_url tickingEnv
              ["UC_x5XG1OV2P6uZZ5FSM9Ttw"] "https://example.com/hook"
              sampleFeed (WebSub.mkVideoInfo _ _ _ _ _ _ _) emptyWorld
              ticking_reads ticking_writes
              (fun _ r (H : In r []) => match H with end) eq_refl)
    as (key & _ & Hkey & Hnotify).
  exists key. split; [exact Hkey|].
  exact (proj1 (Hnotify None None None None)).
Defined.


(** ** The mirror of a subscribe *)

(** X20.  A subscribe request for a test URL is carried out for the
    production variant as well.  With a store that answers, a valid request
    whose webhook URL is a test URL is answered with 200 and a dual result:
    both subscribes succeed, the dual result names the production variant,
    which is another URL, and afterwards the production variant has a record
    with the user key of the dual result and with every requested channel. *)
Theorem subscribe_test_url_mirrors_to_production E req ids url w :
  readsSucceed E -> writesSucceed E ->
  Subscribe.req_method req = "POST" ->
  Subscribe.req_channelIds req = Some ids ->
  ids <> [] ->
  forallb Subscribe.isValidYouTubeChannelId ids = true ->
  Subscribe.req_webhookUrl req = Some url ->
  Subscribe.isValidUrl E url = true ->
  Subscribe.isTestWebhook url = true ->
  let run := Subscribe.handler E req w in
  exists production main dual e,
    Subscribe.getProductionWebhookUrl url = Some production
    /\ production <> url
    /\ fst run = (200, Subscribe.ResultBody main (Some dual))
    /\ Subscribe.r_success main = true
    /\ Subscribe.r_webhookUrl main = url
    /\ Subscribe.d_success dual = true
    /\ Subscribe.d_productionWebhookUrl dual = production
    /\ findByWebhook production (stored (snd run)) = Some e
    /\ Subscribe.d_userKey dual = Some (userKey e)
    /\ (forall c, In c ids -> In c (channelIds e)).
Proof.
  intros Hr Hw Hm Hids Hne Hfmt Hu Hvalid Htest. cbv zeta.
  destruct (test_url_has_production url Htest) as (p & Hp & Htruthy).
  assert (Hnonempty : (url =? "") = false).
  { unfold Subscribe.isTestWebhook in Htest. now destruct (url =? ""). }
  unfold Subscribe.handler. rewrite Hm, Hids, Hu, Hvalid, Hnonempty, Htest.
  cbn [String.eqb Ascii.eqb Bool.eqb negb orb].
  destruct ids as [|id ids]; [congruence|].
  apply no_invalid_iff_all_valid in Hfmt. rewrite Hfmt.
  rewrite Hp, Htruthy. cbn [andb]. unfold bind, ret.
  destruct (@processSubscription_reliable E (id :: ids) url w Hr Hw)
    as (ts1 & subs1 & renewed1 & w1 & _ & Hrun1 & _).
  rewrite Hrun1.
  destruct (@processSubscription_reliable E (id :: ids) p w1 Hr Hw)
    as (ts2 & subs2 & renewed2 & w2 & Hup2 & Hrun2 & Hstored2).
  rewrite Hrun2. cbn [fst snd].
  destruct (upserted_lookup _ _ _ _ _ Hup2) as (e & He & Hkey & _ & _).
  exists p. eexists. eexists. exists e.
  split; [reflexivity|]. split; [exact (production_differs Hp)|].
  split; [reflexivity|].
  cbn [Subscribe.r_success Subscribe.r_webhookUrl Subscribe.dualOf
       Subscribe.d_success Subscribe.d_productionWebhookUrl
       Subscribe.d_userKey Subscribe.r_userKey].
  rewrite Hstored2, Hkey.
  repeat split; try reflexivity; try assumption.
  exact (upserted_covers _ _ _ _ _ Hup2 He).
Qed.

Lemma subscribe_test_url_mirrors_to_production_witness :
  exists production main dual e,
    Subscribe.getProductionWebhookUrl "https://n8n.example.com/webhook-test/yt"
    = Some production
    /\ production <> "https://n8n.example.com/webhook-test/yt"
    /\ fst (Subscribe.handler calmEnv
              (Subscribe.mkRequest "POST" (Some ["UCsvqVGtbbyHaMoevxPAq9Fg"])
                 (Some "https://n8n.example.com/webhook-test/yt"))
              productionWorld)
       = (200, Subscribe.ResultBody main (Some dual))
    /\ Subscribe.r_success main = true
    /\ Subscribe.r_webhookUrl main = "https://n8n.example.com/webhook-test/yt"
    /\ Subscribe.d_success dual = true
    /\ Subscribe.d_productionWebhookUrl dual = production
    /\ findByWebhook production
         (stored (snd (Subscribe.handler calmEnv
                         (Subscribe.mkRequest "POST"
                            (Some ["UCsvqVGtbbyHaMoevxPAq9Fg"])
                            (Some "https://n8n.example.com/webhook-test/yt"))
                         productionWorld)))
       = Some e
    /\ Subscribe.d_userKey dual = Some (userKey e)
    /\ (forall c, In c ["UCsvqVGtbbyHaMoevxPAq9Fg"] -> In c (channelIds e)).
Proof.
  refine (@subscribe_test_url_mirrors_to_production calmEnv
            (Subscribe.mkRequest "POST" _ _) ["UCsvqVGtbbyHaMoevxPAq9Fg"]
            "https://n8n.example.com/webhook-test/yt" productionWorld
            calm_reads calm_writes eq_refl eq_refl _ eq_refl eq_refl eq_refl
            eq_refl).
  discriminate.
Defined.


(** ** The mirror of an unsubscribe *)

(** X21.  The counterpart step of the unsubscribe route, with a store that
    answers.  When the counterpart URL has no record, the step is one store
    read and reports nothing.  When it has a record, the channels removed
    from it are the requested ones that this record has, the step succeeds,
    and it leaves the channels of the record that were not requested: the
    record is kept with its user key and those channels when some remain, and
    the records with its user key are deleted when none does.  So a record of
    the counterpart that has none of the requested channels is rewritten with
    the channels it had. *)
Theorem counterpart_unsubscribe_is_mirrored E channels counterpart w :
  readsSucceed E -> writesSucceed E -> counterpart <> "" ->
  let run :=
    Unsubscribe.unsubscribeCounterpart E channels (Some counterpart) w in
  match findByWebhook counterpart (stored w) with
  | None => run = (None, afterGet E w)
  | Some sub =>
      exists dual,
        fst run = Some dual
        /\ Unsubscribe.d_counterpartWebhookUrl dual = counterpart
        /\ Unsubscribe.d_success dual = true
        /\ Unsubscribe.d_unsubscribedChannels dual
           = filter (fun id => Js.arr_includes (channelIds sub) id) channels
        /\ Unsubscribe.d_remainingChannels dual
           = Some (remainingOf channels sub)
        /\ (remainingOf channels sub <> [] ->
            exists ts,
              findByWebhook counterpart (stored (snd run))
              = Some (mkSubscription (userKey sub) (remainingOf channels sub)
                                     counterpart ts))
        /\ (remainingOf channels sub = [] ->
            stored (snd run)
            = filter (fun s => negb (userKey s =? userKey sub)) (stored w))
  end.
Proof.
  intros Hr Hw Hne. cbv zeta.
  unfold Unsubscribe.unsubscribeCounterpart, Js.truthy.
  apply String.eqb_neq in Hne. rewrite Hne. cbn [negb].
  unfold bind, ret.
  rewrite findSubscriptionByWebhook_eq', readBlob_reliable by assumption.
  destruct (findByWebhook counterpart (stored w)) as [sub|] eqn:Hfind;
    [|reflexivity].
  pose proof (findByWebhook_Some _ _ Hfind) as [Hin _].
  set (present := filter _ channels).
  destruct (@processUnsubscription_reliable E present counterpart sub
              (afterGet E w) Hr Hw Hin) as (Hok & Hrem & ts & Hp).
  pose proof (processUnsubscription_channels E present counterpart sub
                (afterGet E w)) as Hch.
  destruct (Unsubscribe.processUnsubscription E present counterpart sub
              (afterGet E w)) as [result w1].
  cbn [fst snd] in Hok, Hrem, Hch, Hp |- *.
  subst present. rewrite remainingOf_present in Hrem, Hp.
  rewrite stored_afterGet in Hp.
  eexists. split; [reflexivity|].
  cbn [Unsubscribe.dualOf Unsubscribe.d_counterpartWebhookUrl
       Unsubscribe.d_success Unsubscribe.d_unsubscribedChannels
       Unsubscribe.d_remainingChannels].
  split; [reflexivity|]. split; [assumption|]. split; [assumption|].
  split; [assumption|]. split.
  - intros Hleft. exists ts.
    exact (@pruned_lookup ts counterpart (stored w) sub _ _ Hfind Hleft Hp).
  - intros Hnil. rewrite Hnil, pruned_emptied in Hp. congruence.
Qed.

Lemma counterpart_unsubscribe_is_mirrored_witness :
  exists dual,
    fst (Unsubscribe.unsubscribeCounterpart calmEnv
           ["UCsvqVGtbbyHaMoevxPAq9Fg"]
           (Some "https://example.com/hook") twoRecordWorld)
    = Some dual
    /\ Unsubscribe.d_counterpartWebhookUrl dual = "https://example.com/hook"
    /\ Unsubscribe.d_success dual = true
    /\ Unsubscribe.d_unsubscribedChannels dual = ["UCsvqVGtbbyHaMoevxPAq9Fg"]
    /\ Unsubscribe.d_remainingChannels dual
       = Some ["UC_x5XG1OV2P6uZZ5FSM9Ttw"]
    /\ (["UC_x5XG1OV2P6uZZ5FSM9Ttw"] <> [] ->
        exists ts,
          findByWebhook "https://example.com/hook"
            (stored (snd (Unsubscribe.unsubscribeCounterpart calmEnv
                            ["UCsvqVGtbbyHaMoevxPAq9Fg"]
                            (Some "https://example.com/hook")
                            twoRecordWorld)))
          = Some (mkSubscription "eba156665380d703"
                    ["UC_x5XG1OV2P6uZZ5FSM9Ttw"] "https://example.com/hook"
                    ts))
    /\ (["UC_x5XG1OV2P6uZZ5FSM9Ttw"] = [] ->
        stored (snd (Unsubscribe.unsubscribeCounterpart calmEnv
                       ["UCsvqVGtbbyHaMoevxPAq9Fg"]
                       (Some "https://example.com/hook") twoRecordWorld))
        = filter (fun s => negb (userKey s =? "eba156665380d703"))
                 (stored twoRecordWorld)).
Proof.
  refine (@counterpart_unsubscribe_is_mirrored calmEnv
            ["UCsvqVGtbbyHaMoevxPAq9Fg"] "https://example.com/hook"
            twoRecordWorld calm_reads calm_writes _).
  discriminate.
Defined.


(** ** Repeating an unsubscribe *)

(** The two ways in which Step 5 of the unsubscribe route selects
    channels. *)
Lemma channelsToUnsubscribe_inr req url sub channels :
  Unsubscribe.channelsToUnsubscribe req url sub = inr channels ->
  (Unsubscribe.req_allChannels req = Some true /\ channels = channelIds sub)
  \/ (Unsubscribe.req_allChannels req <> Some true
      /\ channels <> []
      /\ exists ids,
           Unsubscribe.req_channelIds req = Some ids
           /\ channels
              = filter (fun id => Js.arr_includes (channelIds sub) id) ids).
Proof.
  unfold Unsubscribe.channelsToUnsubscribe. intros H.
  assert (Hexplicit :
    match Unsubscribe.req_channelIds req with
    | None | Some [] => inl (Unsubscribe.NoChannelsSpecified url)
    | Some ids =>
        if Nat.ltb 0 (List.length
                        (filter (fun id =>
                                   negb (Unsubscribe.isValidYouTubeChannelId id))
                                ids))
        then inl (Unsubscribe.InvalidChannelIds
                    (filter (fun id =>
                               negb (Unsubscribe.isValidYouTubeChannelId id))
                            ids))
        else if Nat.eqb (List.length
                           (filter (fun id =>
                                      Js.arr_includes (channelIds sub) id)
                                   ids)) 0
             then inl (Unsubscribe.NoneSubscribed url ids (channelIds sub))
             else inr (filter (fun id => Js.arr_includes (channelIds sub) id)
                              ids)
    end = inr channels ->
    channels <> []
    /\ exists ids,
         Unsubscribe.req_channelIds req = Some ids
         /\ channels
            = filter (fun id => Js.arr_includes (channelIds sub) id) ids).
  { destruct (Unsubscribe.req_channelIds req) as [[|id ids]|];
      try discriminate.
    destruct (Nat.ltb 0 _); [discriminate|].
    set (present := filter (fun id0 => Js.arr_includes (channelIds sub) id0)
                           (id :: ids)).
    destruct (Nat.eqb (List.length present) 0) eqn:Hlen; [discriminate|].
    intros [= <-]. split; [|eauto].
    intros Hnil. rewrite Hnil in Hlen. discriminate. }
  destruct (Unsubscribe.req_allChannels req) as [[|]|].
  - left. split; [reflexivity|congruence].
  - right. split; [discriminate|auto].
  - right. split; [discriminate|auto].
Qed.

(** The record the unsubscribe route leaves for the requested URL, with a
    store that answers and in which keys and URLs identify records. *)
Lemma unsubscribe_handler_lookup E req url sub channels w :
  readsSucceed E -> writesSucceed E ->
  uniqueKeys (stored w) -> uniqueWebhooks (stored w) ->
  Unsubscribe.req_method req = "POST" ->
  Unsubscribe.req_webhookUrl req = Some url ->
  url <> "" -> Unsubscribe.isValidUrl E url = true ->
  findByWebhook url (stored w) = Some sub ->
  Unsubscribe.channelsToUnsubscribe req url sub = inr channels ->
  let run := Unsubscribe.handler E req w in
  fst (fst run) = 200
  /\ if Nat.eqb (List.length (remainingOf channels sub)) 0
     then findByWebhook url (stored (snd run)) = None
     else exists ts,
            findByWebhook url (stored (snd run))
            = Some (mkSubscription (userKey sub) (remainingOf channels sub)
                                   url ts).
Proof.
  intros Hr Hw Hnd Hnu Hm Hu Hne Hvalid Hfind Hsel. cbv zeta.
  pose proof (findByWebhook_Some _ _ Hfind) as [Hin Hurl].
  unfold Unsubscribe.handler, bind, Unsubscribe.reject, ret.
  rewrite Hm, Hu, Hvalid. apply String.eqb_neq in Hne. rewrite Hne.
  cbn [String.eqb Ascii.eqb Bool.eqb negb orb].
  rewrite findSubscriptionByWebhook_eq', readBlob_reliable by assumption.
  rewrite Hfind, Hsel.
  destruct (@processUnsubscription_reliable E channels url sub (afterGet E w)
              Hr Hw Hin) as (_ & _ & ts & Hp).
  destruct (@processUnsubscription_frame E channels url sub (afterGet E w)
              [url] Hr Hnd Hin) as [_ Hnd1].
  { rewrite Hurl. now left. }
  assert (Hmain :
    if Nat.eqb (List.length (remainingOf channels sub)) 0
    then findByWebhook url
           (stored (snd (Unsubscribe.processUnsubscription E channels url sub
                           (afterGet E w)))) = None
    else findByWebhook url
           (stored (snd (Unsubscribe.processUnsubscription E channels url sub
                           (afterGet E w))))
         = Some (mkSubscription (userKey sub) (remainingOf channels sub)
                                url ts)).
  { destruct (Nat.eqb (List.length (remainingOf channels sub)) 0) eqn:Hlen.
    - apply length_zero_nil in Hlen. rewrite Hlen, pruned_emptied in Hp.
      injection Hp as Hp. rewrite <- Hp, stored_afterGet.
      now apply findByWebhook_deleted.
    - apply (@pruned_lookup ts url (stored w) sub
               (remainingOf channels sub) _ Hfind); [|exact Hp].
      intros Hnil. rewrite Hnil in Hlen. discriminate. }
  clear Hp.
  destruct (Unsubscribe.processUnsubscription E channels url sub
              (afterGet E w)) as [main w1].
  cbn [fst snd] in Hnd1, Hmain.
  assert (Hgoal : forall dual w2,
    findByWebhook url (stored w2) = findByWebhook url (stored w1) ->
    fst (fst ((200, Unsubscribe.ResultBody main dual), w2)) = 200
    /\ if Nat.eqb (List.length (remainingOf channels sub)) 0
       then findByWebhook url
              (stored (snd ((200, Unsubscribe.ResultBody main dual), w2)))
            = None
       else exists ts0,
              findByWebhook url
                (stored (snd ((200, Unsubscribe.ResultBody main dual), w2)))
              = Some (mkSubscription (userKey sub)
                        (remainingOf channels sub) url ts0)).
  { intros dual w2 Hsame. cbn [fst snd]. split; [reflexivity|].
    rewrite Hsame.
    destruct (Nat.eqb (List.length (remainingOf channels sub)) 0); eauto. }
  unfold Unsubscribe.unsubscribeCounterpart, bind, ret.
  destruct (Unsubscribe.counterpartOf url) as [counterpart|] eqn:Hcp;
    [|now apply Hgoal].
  destruct (Js.truthy (Some counterpart)); [|now apply Hgoal].
  rewrite findSubscriptionByWebhook_eq', readBlob_reliable by assumption.
  destruct (findByWebhook counterpart (stored w1)) as [csub|] eqn:Hcs;
    [|now apply Hgoal].
  pose proof (findByWebhook_Some _ _ Hcs) as [Hcin Hcurl].
  set (chs := filter _ channels).
  destruct (@processUnsubscription_frame E chs counterpart csub
              (afterGet E w1) [counterpart] Hr Hnd1 Hcin) as [Hframe _].
  { rewrite Hcurl. now left. }
  destruct (Unsubscribe.processUnsubscription E chs counterpart csub
              (afterGet E w1)) as [dual w2].
  cbn [fst snd] in Hframe. rewrite stored_afterGet in Hframe.
  assert (Hnotin : ~ In url [counterpart]).
  { intros [Heq | []]. revert Heq.
    eapply counterpart_differs; eassumption. }
  apply Hgoal.
  now rewrite <- (@findByWebhook_others url [counterpart] (stored w2) Hnotin),
    Hframe, (@findByWebhook_others url [counterpart] (stored w1) Hnotin).
Qed.

(** X22.  An unsubscribe is not repeatable.  With a store that answers and
    in which keys and URLs identify records, a request that is carried out
    (the URL has a record and Step 5 selects channels) is answered with 200,
    and the same request sent again is rejected after the one store read of
    the lookup, without a write or a hub call: with 404 when the first
    request removed every channel, so that the record is gone, and with 400
    when channels remain, since the record then has none of the requested
    ones. *)
Theorem unsubscribe_repeated_is_rejected E req url sub channels w :
  readsSucceed E -> writesSucceed E ->
  uniqueKeys (stored w) -> uniqueWebhooks (stored w) ->
  Unsubscribe.req_method req = "POST" ->
  Unsubscribe.req_webhookUrl req = Some url ->
  url <> "" -> Unsubscribe.isValidUrl E url = true ->
  findByWebhook url (stored w) = Some sub ->
  Unsubscribe.channelsToUnsubscribe req url sub = inr channels ->
  let first := Unsubscribe.handler E req w in
  let second := Unsubscribe.handler E req (snd first) in
  fst (fst first) = 200
  /\ fst (fst second)
     = (if Nat.eqb (List.length (remainingOf channels sub)) 0
        then 404 else 400)
  /\ snd second = afterGet E (snd first).
Proof.
  intros Hr Hw Hnd Hnu Hm Hu Hne Hvalid Hfind Hsel. cbv zeta.
  destruct (@unsubscribe_handler_lookup E req url sub channels w
              Hr Hw Hnd Hnu Hm Hu Hne Hvalid Hfind Hsel) as [Hcode Hlook].
  split; [exact Hcode|].
  set (w1 := snd (Unsubscribe.handler E req w)) in *.
  unfold Unsubscribe.handler, bind, Unsubscribe.reject, ret.
  rewrite Hm, Hu, Hvalid. apply String.eqb_neq in Hne. rewrite Hne.
  cbn [String.eqb Ascii.eqb Bool.eqb negb orb].
  rewrite findSubscriptionByWebhook_eq', readBlob_reliable by assumption.
  destruct (Nat.eqb (List.length (remainingOf channels sub)) 0) eqn:Hlen.
  - rewrite Hlook. split; reflexivity.
  - destruct Hlook as (ts & ->).
    destruct (channelsToUnsubscribe_inr _ _ _ Hsel)
      as [[_ ->] | (Hall & _ & ids & Hids & ->)].
    + rewrite remainingOf_all in Hlen. discriminate.
    + rewrite remainingOf_present in Hlen |- *.
      assert (Hagain :
        Unsubscribe.channelsToUnsubscribe req url
          (mkSubscription (userKey sub) (remainingOf ids sub) url ts)
        = inl (Unsubscribe.NoneSubscribed url ids (remainingOf ids sub))).
      { pose proof Hsel as Hfirst.
        unfold Unsubscribe.channelsToUnsubscribe in Hfirst |- *.
        rewrite Hids in Hfirst |- *. cbn [channelIds].
        assert (Hnone :
          filter (fun id => Js.arr_includes (remainingOf ids sub) id) ids
          = []).
        { apply filter_none.
          destruct (existsb _ ids) eqn:Hex; [|reflexivity].
          apply existsb_exists in Hex as (c & Hc & Hrem).
          apply arr_includes_In, remainingOf_In in Hrem. tauto. }
        rewrite Hnone. cbn [List.length Nat.eqb].
        destruct (Unsubscribe.req_allChannels req) as [[|]|];
          [congruence| |];
          (destruct ids as [|id ids]; [discriminate|]);
          (destruct (Nat.ltb 0 _); [discriminate|reflexivity]). }
      rewrite Hagain. split; reflexivity.
Qed.

Lemma unsubscribe_repeated_is_rejected_witness :
  fst (fst (Unsubscribe.handler calmEnv
              (Unsubscribe.mkRequest "POST" (Some "https://example.com/hook")
                 (Some ["UC_x5XG1OV2P6uZZ5FSM9Ttw"]) None)
              twoRecordWorld))
  = 200
  /\ fst (fst (Unsubscribe.handler calmEnv
                 (Unsubscribe.mkRequest "POST"
                    (Some "https://example.com/hook")
                    (Some ["UC_x5XG1OV2P6uZZ5FSM9Ttw"]) None)
                 (snd (Unsubscribe.handler calmEnv
                         (Unsubscribe.mkRequest "POST"
                            (Some "https://example.com/hook")
                            (Some ["UC_x5XG1OV2P6uZZ5FSM9Ttw"]) None)
                         twoRecordWorld))))
     = 400.
Proof.
  destruct (@unsubscribe_repeated_is_rejected calmEnv
              (Unsubscribe.mkRequest "POST" (Some "https://example.com/hook")
                 (Some ["UC_x5XG1OV2P6uZZ5FSM9Ttw"]) None)
              "https://example.com/hook" hookRecord
              ["UC_x5XG1OV2P6uZZ5FSM9Ttw"] twoRecordWorld
              calm_reads calm_writes twoRecordWorld_uniqueKeys
              twoRecordWorld_uniqueWebhooks eq_refl eq_refl
              (fun H : "https://example.com/hook" = "" =>
                 match H with end) eq_refl eq_refl eq_refl)
    as (H1 & H2 & _).
  split; [exact H1|exact H2].
Defined.


(** ** A generated key that is already in use *)

(** X23.  Generated keys are not checked against the store.  With a store
    that answers (every read and every write succeeds), when a webhook URL
    without a record is subscribed while a stored record already has the key
    generated for it, the subscribe succeeds and returns that key, and the
    record it appends comes after the older one; a notification then posted
    to the callback of the returned key is answered with 200 and is posted
    first to the webhook URL of the older record, which is another URL. *)
Theorem colliding_key_routes_to_older_record E ids url body v w old :
  readsSucceed E -> writesSucceed E ->
  findByWebhook url (stored w) = None ->
  find (fun r => userKey r =? PubSubHubbub.generateUserKey E url) (stored w)
  = Some old ->
  WebSub.parseYouTubeNotification E body = Some v ->
  let run1 := Subscribe.processSubscription E ids url w in
  let key := PubSubHubbub.generateUserKey E url in
  Subscribe.r_success (fst run1) = true
  /\ Subscribe.r_userKey (fst run1) = Some key
  /\ webhookUrl old <> url
  /\ (exists added,
        stored (snd run1) = stored w ++ [added]
        /\ webhookUrl added = url /\ userKey added = key)
  /\ forall mode topic challenge lease,
       let req :=
         WebSub.mkRequest "POST" key mode topic challenge lease body in
       let run2 := WebSub.handler E req (snd run1) in
       fst (fst run2) = 200
       /\ exists ts out rest,
            since (snd run1) (snd run2)
            = RedisGet None
              :: WebhookPost (webhookUrl old) (WebSub.payloadOf v ts) out
              :: rest.
Proof.
  intros Hr Hw Hnone Hold Hparse. cbv zeta.
  destruct (@processSubscription_reliable E ids url w Hr Hw)
    as (ts & subs' & renewed & w' & Hup & Hrun & Hstored).
  rewrite Hrun, Hnone. rewrite Hnone in Hup.
  cbn [fst snd Subscribe.r_success Subscribe.r_userKey keyOf].
  cbn [upserted] in Hup. injection Hup as Hup.
  split; [reflexivity|]. split; [reflexivity|].
  split.
  { apply find_some in Hold as [Hin _].
    exact (@findByWebhook_None url (stored w) Hnone old Hin). }
  split.
  { eexists. rewrite Hstored, <- Hup. split; [reflexivity|]. split; reflexivity. }
  intros mode topic challenge lease.
  unfold WebSub.handler. cbn [WebSub.req_method WebSub.req_userKey].
  change ("POST" =? "GET") with false. change ("POST" =? "POST") with true.
  cbv iota.
  assert (Hfind :
    find (fun r => userKey r =? PubSubHubbub.generateUserKey E url)
         (stored w') = Some old).
  { rewrite Hstored, <- Hup, find_app_end, Hold. reflexivity. }
  destruct (@handleNotification_forwards E
              (WebSub.mkRequest "POST" (PubSubHubbub.generateUserKey E url)
                 mode topic challenge lease body)
              (PubSubHubbub.generateUserKey E url) w' v old
              Hparse (Hr _) Hfind) as (Hcode & _ & rest & Hsince).
  split; [exact Hcode|]. eauto.
Qed.

Lemma colliding_key_routes_to_older_record_witness :
  let w :=
    mkWorld (Some [mkSubscription "eba156665380d703"
                     ["UCsvqVGtbbyHaMoevxPAq9Fg"]
                     "https://other.example.org/in"
                     "2025-01-01T00:00:00.000Z"]) [] in
  let run1 :=
    Subscribe.processSubscription tickingEnv ["UC_x5XG1OV2P6uZZ5FSM9Ttw"]
      "https://example.com/hook" w in
  Subscribe.r_userKey (fst run1) = Some "eba156665380d703"
  /\ exists ts out rest,
       since (snd run1)
             (snd (WebSub.handler tickingEnv
                     (WebSub.mkRequest "POST" "eba156665380d703" None None
                        None None sampleFeed)
                     (snd run1)))
       = RedisGet None
         :: WebhookPost "https://other.example.org/in"
              (WebSub.payloadOf
                 (WebSub.mkVideoInfo (Some "dQw4w9WgXcQ")
                    (Some "UC_x5XG1OV2P6uZZ5FSM9Ttw") (Some "New video")
                    (Some "https://www.youtube.com/watch?v=dQw4w9WgXcQ")
                    (Some "Channel") (Some "2025-01-01T00:00:00+00:00")
                    (Some "2025-01-01T00:00:00+00:00"))
                 ts)
              out
         :: rest.
Proof.
  cbv zeta.
  destruct (@colliding_key_routes_to_older_record tickingEnv
              ["UC_x5XG1OV2P6uZZ5FSM9Ttw"] "https://example.com/hook"
              sampleFeed (WebSub.mkVideoInfo _ _ _ _ _ _ _)
              (mkWorld (Some [mkSubscription "eba156665380d703"
                                ["UCsvqVGtbbyHaMoevxPAq9Fg"]
                                "https://other.example.org/in"
                                "2025-01-01T00:00:00.000Z"]) [])
              (mkSubscription "eba156665380d703" ["UCsvqVGtbbyHaMoevxPAq9Fg"]
                 "https://other.example.org/in" "2025-01-01T00:00:00.000Z")
              ticking_reads ticking_writes eq_refl eq_refl eq_refl)
    as (_ & Hkey & _ & _ & Hnotify).
  split; [exact Hkey|].
  exact (proj2 (Hnotify None None None None)).
Defined.


(** ** Sample runs of the storage layer and of the smaller routes *)

(** An update of the first record of the two-record store, and an update
    under a key that no record has. *)
Example update_sample :
  let upd :=
    mkSubscription "eba156665380d703" ["UCsvqVGtbbyHaMoevxPAq9Fg"]
                   "https://example.com/hook" "2025-02-02T00:00:00.000Z" in
  let run := Storage.updateSubscription calmEnv "eba156665380d703" upd
                                        twoRecordWorld in
  fst run = true
  /\ stored (snd run) = [upd; productionRecord]
  /\ Storage.updateSubscription calmEnv "0000000000000000" upd twoRecordWorld
     = (false, afterGet calmEnv twoRecordWorld).
Proof. repeat split. Qed.

(** An add under a key that is in use: the lookup by key still returns the
    older record. *)
Example add_sample :
  let added :=
    mkSubscription "eba156665380d703" ["UCsvqVGtbbyHaMoevxPAq9Fg"]
                   "https://other.example.org/in"
                   "2025-02-02T00:00:00.000Z" in
  let run := Storage.addSubscription calmEnv added twoRecordWorld in
  fst run = true
  /\ stored (snd run) = [hookRecord; productionRecord; added]
  /\ fst (Storage.findSubscriptionByUserKey calmEnv "eba156665380d703"
            (snd run))
     = Some hookRecord
  /\ fst (Storage.findSubscriptionsByChannelId calmEnv
            "UCsvqVGtbbyHaMoevxPAq9Fg" (snd run))
     = [hookRecord; added].
Proof. repeat split. Qed.

(** The callback route on the two-record store: an unknown user key, a feed
    without an entry, and a store that cannot be read. *)
Example callback_samples :
  fst (fst (WebSub.handler tickingEnv
              (WebSub.mkRequest "POST" "0000000000000000" None None None None
                                sampleFeed)
              twoRecordWorld)) = 404
  /\ WebSub.handler tickingEnv
       (WebSub.mkRequest "POST" "7ee0ea0804ebce99" None None None None
                         "<feed/>")
       twoRecordWorld
     = ((400, WebSub.ErrorBody "Failed to parse YouTube notification" None),
        twoRecordWorld)
  /\ fst (WebSub.handler
            (mkEnv sampleDigest (fun _ => true)
                   (fun _ => "2025-01-01T00:00:00.000Z")
                   (fun _ => Some "fetch failed") (fun _ => None)
                   (fun _ => HttpOk 200 "") sampleParser)
            sampleNotification twoRecordWorld)
     = (500, WebSub.ErrorBody "Error handling notification"
                              (Some "fetch failed")).
Proof. repeat split. Qed.

(** The test route and the listing route. *)
Example small_route_samples :
  TestWebhook.handler calmEnv
    (TestWebhook.mkRequest "POST"
       (TestWebhook.Fields (Some "https://n8n.example.com/webhook/yt")))
    twoRecordWorld
  = ((200, TestWebhook.Sent 202 ""),
     extend twoRecordWorld
       [WebhookPost "https://n8n.example.com/webhook/yt"
                    TestWebhook.mockNotificationData (HttpOk 202 "")])
  /\ fst (TestWebhook.handler hubDownEnv
            (TestWebhook.mkRequest "POST"
               (TestWebhook.Fields
                  (Some "https://n8n.example.com/webhook/yt")))
            twoRecordWorld)
     = (500, TestWebhook.NotSent "Request failed with status code 500"
                                 (Some 500) (Some ""))
  /\ (forall refusal,
        refusal <> "" ->
        TestWebhook.handler calmEnv
          (TestWebhook.mkRequest "POST" (TestWebhook.NoBody refusal))
          twoRecordWorld
        = ((500, TestWebhook.NotSent refusal None None), twoRecordWorld))
  /\ fst (ListSubscriptions.handler calmEnv "GET" twoRecordWorld)
     = (200, ListSubscriptions.Listed 2 [hookRecord; productionRecord])
  /\ ListSubscriptions.handler calmEnv "POST" twoRecordWorld
     = ((405, ListSubscriptions.MethodNotAllowed), twoRecordWorld).
Proof.
  repeat split. intros refusal Hne.
  destruct refusal; [contradiction|reflexivity].
Qed.
